(** * Usage-credit ledger and billing webhook of bolt.diy: a shallow embedding

    The development follows the TypeScript routes and the SQL migration of the
    repository:

    - [JsString]      the two string primitives the tier resolver uses
                      ([toLowerCase], [includes]);
    - [TierPolicy]    the tier resolution of [api.stripe.webhook.ts] and of the
                      [createSubscription] case of the [api/stripe] route;
    - [JsNumber]      JavaScript numbers with their infinities and NaN, the
                      comparisons and the subtraction the routes apply to
                      them, and what [JSON.stringify] makes of them;
    - [JsError]       thrown values and the messages the [catch] blocks read;
    - [Store]         the Supabase tables ([profiles], [usage_logs],
                      [subscriptions], [prices]), the query-builder calls the
                      routes make, and the two triggers of the migration;
    - [ApiStripe]     the [recordUsage] and [getUserUsage] cases of the
                      [api/stripe] route, plus the interleaving of two
                      [recordUsage] handlers at the granularity of their awaits;
    - [UsageGate]     [UsageTracker] and [checkAndRecordUsage];
    - [Webhook]       the [action] of [api.stripe.webhook.ts];
    - [ApiAuth]       the [signUp] case of [api.auth.ts];
    - [Billing]       the [createCustomer], [createSubscription] and
                      [cancelSubscription] cases of the [api/stripe] route;
    - [Ledger]        measures of the store the properties are stated with;
    - [Scenario], [Examples]  concrete stores, requests and events.

    Strings are Rocq strings (the resolver only looks at ASCII letters).  A
    JavaScript number is a rational, an infinity or NaN; a nullable INTEGER
    column holds an integer of 32 bits or NULL.  A [{ data, error }] result
    of the Supabase client is an [option] ([None] is a non-null [error]),
    and a stored timestamp is its number of milliseconds. *)

From Stdlib Require Import ZArith QArith String Ascii List Bool Lia.
From stdpp Require Import gmap strings list fin_maps.

Close Scope Q_scope.
Local Open Scope string_scope.
Local Open Scope Z_scope.

(* ===================================================================== *)
(** ** JavaScript string primitives *)
(* ===================================================================== *)

Module JsString.

(** [String.prototype.toLowerCase] on one ASCII character. *)
Definition lower_ascii (c : ascii) : ascii :=
  let n := nat_of_ascii c in
  if ((65 <=? n) && (n <=? 90))%nat then ascii_of_nat (n + 32) else c.

Fixpoint toLowerCase (s : string) : string :=
  match s with
  | EmptyString => EmptyString
  | String c r => String (lower_ascii c) (toLowerCase r)
  end.

Fixpoint startsWith (p s : string) : bool :=
  match p, s with
  | EmptyString, _ => true
  | String _ _, EmptyString => false
  | String a p', String b s' => Ascii.eqb a b && startsWith p' s'
  end.

(** [s.includes(sub)]: [sub] occurs somewhere in [s]. *)
Fixpoint includes (s sub : string) : bool :=
  startsWith sub s ||
  match s with
  | EmptyString => false
  | String _ r => includes r sub
  end.

(** The specification-side reading of "contains, ignoring case": some
    contiguous piece of [s] lower-cases to [sub]. *)
Definition contains_ci (s sub : string) : Prop :=
  exists pre mid post : string,
    s = String.append pre (String.append mid post) /\ toLowerCase mid = sub.

(** A JavaScript string is falsy exactly when it is empty. *)
Definition truthy (s : string) : bool :=
  match s with EmptyString => false | String _ _ => true end.

End JsString.

(* ===================================================================== *)
(** ** Tier policy *)
(* ===================================================================== *)

Module TierPolicy.
Import JsString.

(** A row of [products] as selected by [select('products(name)')]. *)
Record product_row := { name : string }.

(** A row of [prices] joined with its product. *)
Record price_row := { products : option product_row }.

(** [price?.products?.name] *)
Definition product_name (price : option price_row) : option string :=
  match price with
  | None => None
  | Some pr =>
      match products pr with
      | None => None
      | Some pd => Some (name pd)
      end
  end.

(** [api.stripe.webhook.ts], lines 110-122 and 218-230. *)
Definition resolve (price : option price_row) : string * Z :=
  let tier := "basic" in
  let usageLimit := 500 in
  match product_name price with
  | Some nm =>
      if truthy nm then
        let productName := toLowerCase nm in
        if includes productName "premium" then ("premium", 2000)
        else if includes productName "enterprise" then ("enterprise", 10000)
        else (tier, usageLimit)
      else (tier, usageLimit)
  | None => (tier, usageLimit)
  end.

(** The [createSubscription] case of the [api/stripe] route, lines 299-315:
    the tier is chosen first, the limit from the tier. *)
Definition resolve_tier (price : option price_row) : string :=
  match product_name price with
  | Some nm =>
      if truthy nm then
        let productName := toLowerCase nm in
        if includes productName "premium" then "premium"
        else if includes productName "enterprise" then "enterprise"
        else "basic"
      else "basic"
  | None => "basic"
  end.

Definition limit_of_tier (tier : string) : Z :=
  if String.eqb tier "premium" then 2000
  else if String.eqb tier "enterprise" then 10000
  else 500.

Definition resolve_createSubscription (price : option price_row) : string * Z :=
  let tier := resolve_tier price in (tier, limit_of_tier tier).

Definition named (nm : string) : option price_row :=
  Some {| products := Some {| name := nm |} |}.

End TierPolicy.

(* ===================================================================== *)
(** ** JavaScript numbers *)
(* ===================================================================== *)

Module JsNumber.

(** A value of type number.  Every finite double is a rational, and a
    finite number is given here by the rational it is; [-0] and [+0] are the
    rational 0, which the code below cannot tell apart.  Not every rational
    is a double, so the type has more finite numbers than the engine has:
    what is proved for every [number] holds for every double.  [JSON.parse]
    yields no NaN, a caller inside the process can pass one. *)
Inductive number :=
| Finite (q : Q)
| Infinity
| NegInfinity
| NaN.

Definition of_Z (z : Z) : number := Finite (inject_Z z).

(** [ToNumber] of the value of a nullable INTEGER column: [null] is [+0]. *)
Definition to_Z (v : option Z) : Z :=
  match v with Some z => z | None => 0 end.

Definition of_column (v : option Z) : number := of_Z (to_Z v).

(** [x < y] on rationals, by cross multiplication. *)
Definition Qlt_bool (x y : Q) : bool :=
  Qnum x * Zpos (Qden y) <? Qnum y * Zpos (Qden x).

(** [a < b]: false as soon as an operand is NaN. *)
Definition lt (a b : number) : bool :=
  match a, b with
  | NaN, _ => false
  | _, NaN => false
  | Infinity, _ => false
  | NegInfinity, NegInfinity => false
  | NegInfinity, _ => true
  | Finite _, NegInfinity => false
  | Finite _, Infinity => true
  | Finite x, Finite y => Qlt_bool x y
  end.

(** [a >= b]: false as soon as an operand is NaN, otherwise not [a < b]. *)
Definition ge (a b : number) : bool :=
  match a, b with
  | NaN, _ => false
  | _, NaN => false
  | _, _ => negb (lt a b)
  end.

(** [a - b].  On finite operands this is the exact difference.  It is the
    double the engine computes when both are integers below 2^53 in size,
    and the spend route subtracts only then: its operands are a balance of
    32 bits and an amount that an INTEGER column has just accepted, or one
    that is not finite. *)
Definition sub (a b : number) : number :=
  match a, b with
  | NaN, _ => NaN
  | _, NaN => NaN
  | Finite x, Finite y => Finite (Qminus x y)
  | Finite _, Infinity => NegInfinity
  | Finite _, NegInfinity => Infinity
  | Infinity, Infinity => NaN
  | Infinity, _ => Infinity
  | NegInfinity, NegInfinity => NaN
  | NegInfinity, _ => NegInfinity
  end.

(** The sum of two amounts; on finite operands the exact sum.  No route
    adds numbers: the sum is used to state what two spends ask for
    together. *)
Definition add (a b : number) : number :=
  match a, b with
  | NaN, _ => NaN
  | _, NaN => NaN
  | Finite x, Finite y => Finite (Qplus x y)
  | Infinity, NegInfinity => NaN
  | NegInfinity, Infinity => NaN
  | Infinity, _ => Infinity
  | _, Infinity => Infinity
  | NegInfinity, _ => NegInfinity
  | _, NegInfinity => NegInfinity
  end.

(** The integer a number is, when it is finite and has no fraction. *)
Definition integer (n : number) : option Z :=
  match n with
  | Finite q =>
      if Qnum q mod Zpos (Qden q) =? 0 then Some (Qnum q / Zpos (Qden q)) else None
  | _ => None
  end.

(** A JSON value in the place of a number: [JSON.stringify] writes a
    number that is not finite as [null]. *)
Inductive json_number := JsonNull | JsonNumber (q : Q).

Definition stringify (n : number) : json_number :=
  match n with
  | Finite q => JsonNumber q
  | _ => JsonNull
  end.

(** [typeof v === 'number'] once the text is parsed again: the number, or
    nothing when [null] was written. *)
Definition parsed (n : number) : option number :=
  match stringify n with
  | JsonNumber q => Some (Finite q)
  | JsonNull => None
  end.

End JsNumber.

(* ===================================================================== *)
(** ** Thrown values *)
(* ===================================================================== *)

Module JsError.

(** What a [catch] receives: an [Error] object with its message, or any
    other value. *)
Inductive thrown_value :=
| ErrorObject (message : string)
| NotAnError.

(** [error instanceof Error ? error.message : fallback] *)
Definition message_or (fallback : string) (e : thrown_value) : string :=
  match e with
  | ErrorObject message => message
  | NotAnError => fallback
  end.

(** An awaited call of a client library: it returns, or it throws. *)
Inductive outcome (A : Type) :=
| Returned (a : A)
| Threw (e : thrown_value).

Arguments Returned {A} a.
Arguments Threw {A} e.

(** The RangeError of [Date.prototype.toISOString] on an invalid date, and
    the TypeError of reading [.price] of [items.data[0]] when there is no
    item, with the messages of V8, the engine of the Workers runtime the
    routes are built for. *)
Definition invalid_time : thrown_value := ErrorObject "Invalid time value".

Definition no_first_item : thrown_value :=
  ErrorObject "Cannot read properties of undefined (reading 'price')".

End JsError.

(* ===================================================================== *)
(** ** The Supabase store *)
(* ===================================================================== *)

Module Store.
Import TierPolicy JsNumber.

(** A row of [profiles] (keyed by [id]); nullable TEXT columns are options.
    [usage_credits] is a nullable INTEGER and the spend route can write NULL
    into it.  [usage_limit] is nullable too, but every statement of the code
    that writes it writes an integer constant, so a store whose limits are
    integers stays one. *)
Record profile := {
  email : string;
  username : option string;
  subscription_tier : option string;
  subscription_status : option string;
  stripe_customer_id : option string;
  usage_credits : option Z;
  usage_limit : Z
}.

(** A row of [usage_logs]; [credits_used] is a nullable INTEGER, [metadata]
    an opaque JSON text. *)
Record usage_log := {
  user_id : string;
  action_type : string;
  credits_used : option Z;
  metadata : option string
}.

(** A row of [subscriptions] (keyed by [stripe_subscription_id], the
    conflict target of the webhook's upsert). *)
Record subscription_row := {
  sub_user_id : string;
  status : string;
  price_id : string;
  quantity : Z;
  cancel_at_period_end : bool;
  current_period_start : Z;
  current_period_end : Z;
  canceled_at : option Z;
  cancel_at : option Z;
  ended_at : option Z;
  trial_start : option Z;
  trial_end : option Z
}.

Record db := {
  profiles : gmap string profile;
  usage_logs : list usage_log;         (* oldest first *)
  subscriptions : gmap string subscription_row;
  prices : gmap string price_row
}.

Definition with_profiles (ps : gmap string profile) (d : db) : db :=
  {| profiles := ps; usage_logs := usage_logs d;
     subscriptions := subscriptions d; prices := prices d |}.

Definition with_usage_logs (ls : list usage_log) (d : db) : db :=
  {| profiles := profiles d; usage_logs := ls;
     subscriptions := subscriptions d; prices := prices d |}.

Definition with_subscriptions (ss : gmap string subscription_row) (d : db) : db :=
  {| profiles := profiles d; usage_logs := usage_logs d;
     subscriptions := ss; prices := prices d |}.

(** The defaults of the migration's [CREATE TABLE profiles], lines 7-12:
    what a row gets for a column its insert leaves out. *)
Definition default_subscription_tier : string := "free".
Definition default_subscription_status : string := "active".
Definition default_usage_credits : Z := 10.
Definition default_usage_limit : Z := 10.

(** PostgreSQL's INTEGER is 32 bits; a value outside it makes the
    statement fail with "integer out of range". *)
Definition int4 (z : Z) : bool := (-2147483648 <=? z) && (z <=? 2147483647).

(** What an INTEGER column makes of a JavaScript number sent to it.  The
    client serialises the row with [JSON.stringify]: a number that is not
    finite arrives as [null] and is stored as NULL; an integer of 32 bits is
    stored; any other number (a fraction, an integer out of range) makes
    the statement fail, which is the outer [None]. *)
Definition integer_column (n : number) : option (option Z) :=
  match stringify n with
  | JsonNull => Some None
  | JsonNumber q =>
      match integer (Finite q) with
      | Some z => if int4 z then Some (Some z) else None
      | None => None
      end
  end.

(** The object given to [.update({...})] on [profiles], as the columns
    receive it: the columns the routes and the webhook ever write.
    [set_usage_credits] is [Some None] when NULL is written. *)
Record profile_update := {
  set_subscription_status : option string;
  set_subscription_tier : option string;
  set_usage_credits : option (option Z);
  set_usage_limit : option Z
}.

Definition apply_update (u : profile_update) (p : profile) : profile :=
  {| email := email p;
     username := username p;
     subscription_tier :=
       match set_subscription_tier u with Some t => Some t | None => subscription_tier p end;
     subscription_status :=
       match set_subscription_status u with Some s => Some s | None => subscription_status p end;
     stripe_customer_id := stripe_customer_id p;
     usage_credits :=
       match set_usage_credits u with Some c => c | None => usage_credits p end;
     usage_limit :=
       match set_usage_limit u with Some l => l | None => usage_limit p end |}.

Definition update_in_range (u : profile_update) : bool :=
  match set_usage_credits u with Some (Some c) => int4 c | _ => true end &&
  match set_usage_limit u with Some l => int4 l | None => true end.

(** Every call below takes [fail], the store failing for a reason the
    model does not track: a timeout, the network, a policy, or a filter
    value the column's type refuses (an [id] that is not the text of a
    UUID).  [None] is a non-null [error], and a failed statement leaves the
    store as it was. *)

(** [from('profiles').select(...).eq('id', id).single()] *)
Definition select_profile (fail : bool) (id : string) (d : db) : option profile :=
  if fail then None else profiles d !! id.

(** [from('profiles').update(u).eq('id', id)]: the row with that id, if
    there is one, is rewritten; no matching row is not an error. *)
Definition update_profile (fail : bool) (id : string) (u : profile_update) (d : db)
  : option db :=
  if fail then None
  else if negb (update_in_range u) then None
  else Some (with_profiles (alter (apply_update u) id (profiles d)) d).

Definition credits_update (c : option Z) : profile_update :=
  {| set_subscription_status := None; set_subscription_tier := None;
     set_usage_credits := Some c; set_usage_limit := None |}.

(** [from('profiles').update({ usage_credits: n }).eq('id', id)] for a
    JavaScript number [n]. *)
Definition update_usage_credits_to (fail : bool) (id : string) (n : number) (d : db)
  : option db :=
  match integer_column n with
  | None => None
  | Some c => update_profile fail id (credits_update c) d
  end.

(** [from('profiles').insert(row)]: [id] is the primary key. *)
Definition insert_profile (fail : bool) (id : string) (p : profile) (d : db)
  : option db :=
  if fail then None
  else if negb (match usage_credits p with Some c => int4 c | None => true end &&
                int4 (usage_limit p)) then None
  else match profiles d !! id with
       | Some _ => None
       | None => Some (with_profiles (<[id := p]> (profiles d)) d)
       end.

(** [usage_credits - NEW.credits_used] in SQL: NULL as soon as an operand
    is NULL. *)
Definition minus_null (a b : option Z) : option Z :=
  match a, b with
  | Some x, Some y => Some (x - y)
  | _, _ => None
  end.

(** The migration's [update_usage_credits()], run by the trigger
    [on_usage_log_created] AFTER INSERT on [usage_logs] FOR EACH ROW:
    [UPDATE profiles SET usage_credits = usage_credits - NEW.credits_used
     WHERE id = NEW.user_id].  An out-of-range result aborts the insert. *)
Definition update_usage_credits (NEW : usage_log) (d : db) : option db :=
  match profiles d !! user_id NEW with
  | None => Some d
  | Some p =>
      let c := minus_null (usage_credits p) (credits_used NEW) in
      if match c with Some z => int4 z | None => true end then
        Some (with_profiles
                (<[user_id NEW := apply_update (credits_update c) p]> (profiles d)) d)
      else None
  end.

(** [from('usage_logs').insert(row)] for a row as the table receives it:
    [user_id] references [profiles(id)], and the row trigger runs inside
    the statement. *)
Definition insert_usage_log_row (fail : bool) (row : usage_log) (d : db) : option db :=
  if fail then None
  else match profiles d !! user_id row with
       | None => None
       | Some _ =>
           update_usage_credits row (with_usage_logs (usage_logs d ++ [row]) d)
       end.

(** [from('usage_logs').insert({ user_id, action_type, credits_used, metadata })]
    with a JavaScript number for [credits_used]. *)
Definition insert_usage_log (fail : bool) (uid action : string) (credits : number)
    (meta : option string) (d : db) : option db :=
  match integer_column credits with
  | None => None
  | Some v =>
      insert_usage_log_row fail
        {| user_id := uid; action_type := action; credits_used := v; metadata := meta |} d
  end.

(** [from('usage_logs').select('*').eq('user_id', id)
      .order('created_at', { ascending: false }).limit(100)] *)
Definition select_usage_logs (fail : bool) (id : string) (d : db)
  : option (list usage_log) :=
  if fail then None
  else Some (take 100 (rev (filter (fun l => user_id l = id) (usage_logs d)))).

(** [from('subscriptions').upsert(row, { onConflict: 'stripe_subscription_id' })] *)
Definition upsert_subscription (fail : bool) (sid : string) (row : subscription_row)
    (d : db) : option db :=
  if fail then None
  else Some (with_subscriptions (<[sid := row]> (subscriptions d)) d).

Definition mark_ended (st : string) (at_ms : Z) (r : subscription_row) : subscription_row :=
  {| sub_user_id := sub_user_id r; status := st;
     price_id := price_id r; quantity := quantity r;
     cancel_at_period_end := cancel_at_period_end r;
     current_period_start := current_period_start r;
     current_period_end := current_period_end r;
     canceled_at := canceled_at r; cancel_at := cancel_at r;
     ended_at := Some at_ms;
     trial_start := trial_start r; trial_end := trial_end r |}.

(** [from('subscriptions').update({ status, ended_at }).eq('stripe_subscription_id', sid)] *)
Definition end_subscription (fail : bool) (sid : string) (st : string) (ended : Z)
    (d : db) : option db :=
  if fail then None
  else Some (with_subscriptions (alter (mark_ended st ended) sid (subscriptions d)) d).

(** [from('subscriptions').select('user_id').eq('stripe_subscription_id', sid).single()] *)
Definition select_subscription_user (fail : bool) (sid : string) (d : db)
  : option string :=
  if fail then None else sub_user_id <$> subscriptions d !! sid.

(** [from('prices').select('products(name)').eq('stripe_price_id', pid).single()];
    the callers read only [data], which is null on an error. *)
Definition select_price (fail : bool) (pid : string) (d : db) : option price_row :=
  if fail then None else prices d !! pid.

(** [split_part(email, '@', 1)] *)
Fixpoint split_part_at (s : string) : string :=
  match s with
  | EmptyString => EmptyString
  | String c r => if Ascii.eqb c "@"%char then EmptyString else String c (split_part_at r)
  end.

(** A row of [auth.users], as far as the signup trigger reads it. *)
Record auth_user := { au_id : string; au_email : string }.

(** The migration's [handle_new_user()], run by the trigger
    [on_auth_user_created] AFTER INSERT on [auth.users]. *)
Definition handle_new_user (NEW : auth_user) (d : db) : option db :=
  insert_profile false (au_id NEW)
    {| email := au_email NEW;
       username := Some (split_part_at (au_email NEW));
       subscription_tier := Some "free";
       subscription_status := Some "active";
       stripe_customer_id := None;
       usage_credits := Some 10;
       usage_limit := 10 |} d.

(** The balance of an account, when it has a row: an integer or NULL. *)
Definition credits_of (id : string) (d : db) : option (option Z) :=
  usage_credits <$> profiles d !! id.

Definition limit_of (id : string) (d : db) : option Z :=
  usage_limit <$> profiles d !! id.

End Store.

(* ===================================================================== *)
(** ** The [api/stripe] route: usage recording *)
(* ===================================================================== *)

Module ApiStripe.
Import JsString JsNumber Store.

(** The fields [recordUsage] destructures from the request JSON.
    [creditsUsed] is [None] when the key is absent or its value is not of
    type number, and the number otherwise: any number JSON can carry, a
    fraction or an infinity (the text [-1e400] parses to [-Infinity])
    included.  An empty string stands for an absent or empty text. *)
Record usage_request := {
  userId : string;
  actionType : string;
  creditsUsed : option number;
  req_metadata : option string
}.

(** The object a case hands to [json(...)]; [json] serialises it, so a
    number that is not finite reaches the client as [null]. *)
Inductive body :=
| Error (error : string)
| Insufficient (error : string) (creditsRemaining : option Z)
| Recorded (creditsUsed creditsRemaining : number) (usageLimit : Z)   (* success: true *)
| Usage (profile : Store.profile) (usageLogs : list usage_log) (totalUsed : Z).

Record response := { http_status : nat; http_body : body }.

Definition json (b : body) (st : nat) : response :=
  {| http_status := st; http_body := b |}.

(** [response.ok] *)
Definition ok (r : response) : bool :=
  ((200 <=? http_status r) && (http_status r <=? 299))%nat.

(** Which store calls fail during one request. *)
Record faults := {
  fail_select_profile : bool;
  fail_insert_log : bool;
  fail_update_credits : bool;
  fail_select_logs : bool
}.

Definition no_faults : faults :=
  {| fail_select_profile := false; fail_insert_log := false;
     fail_update_credits := false; fail_select_logs := false |}.

(** [!userId || !actionType || typeof creditsUsed !== 'number'] *)
Definition missing_input (data : usage_request) : bool :=
  negb (truthy (userId data)) || negb (truthy (actionType data)) ||
  match creditsUsed data with Some _ => false | None => true end.

(** The row of [usage_logs] a request leaves, with [v] in [credits_used]. *)
Definition log_row (data : usage_request) (v : option Z) : usage_log :=
  {| user_id := userId data; action_type := actionType data;
     credits_used := v; metadata := req_metadata data |}.

(** [case 'recordUsage'], lines 437-492. *)
Definition recordUsage (f : faults) (data : usage_request) (d : db) : response * db :=
  if missing_input data then
    (json (Error "User ID, action type, and credits used are required") 400, d)
  else
    match creditsUsed data with
    | None => (json (Error "User ID, action type, and credits used are required") 400, d)
    | Some cu =>
        match select_profile (fail_select_profile f) (userId data) d with
        | None => (json (Error "Failed to fetch profile") 500, d)
        | Some profile =>
            if lt (of_column (usage_credits profile)) cu then
              (json (Insufficient "Insufficient credits" (usage_credits profile)) 403, d)
            else
              match insert_usage_log (fail_insert_log f) (userId data) (actionType data)
                      cu (req_metadata data) d with
              | None => (json (Error "Failed to record usage") 500, d)
              | Some d1 =>
                  let newCredits := sub (of_column (usage_credits profile)) cu in
                  match update_usage_credits_to (fail_update_credits f) (userId data)
                          newCredits d1 with
                  | None => (json (Error "Failed to update credits") 500, d1)
                  | Some d2 =>
                      (json (Recorded cu newCredits (usage_limit profile)) 200, d2)
                  end
              end
        end
    end.

(** [case 'getUserUsage'], lines 494-542.  Of [statistics] only
    [totalUsed] is kept; [usageByType] and the floating-point
    [percentUsed] are read by no code modelled here.  In the sum a NULL
    [credits_used] counts as 0, as [sum + null] does. *)
Definition getUserUsage (f : faults) (uid : string) (d : db) : response :=
  if negb (truthy uid) then json (Error "User ID is required") 400
  else
    match select_profile (fail_select_profile f) uid d with
    | None => json (Error "Failed to fetch profile") 500
    | Some profile =>
        match select_usage_logs (fail_select_logs f) uid d with
        | None => json (Error "Failed to fetch usage logs") 500
        | Some usageLogs =>
            let totalUsed :=
              fold_left (fun sum log => sum + to_Z (credits_used log)) usageLogs 0 in
            json (Usage profile usageLogs totalUsed) 200
        end
    end.

(** The two actions of the route that the usage tracker posts. *)
Inductive api_call :=
| RecordUsage (data : usage_request)
| GetUserUsage (uid : string).

Record api_request := {
  method : string;
  stripeKey : string;
  supabaseUrl : string;
  supabaseKey : string;
  call : api_call
}.

(** [action], lines 8-28 of the route, then the [switch]. *)
Definition action (f : faults) (request : api_request) (d : db) : response * db :=
  if negb (String.eqb (method request) "POST") then
    (json (Error "Method not allowed") 405, d)
  else if negb (truthy (stripeKey request)) then
    (json (Error "Missing Stripe API key") 400, d)
  else if negb (truthy (supabaseUrl request)) || negb (truthy (supabaseKey request)) then
    (json (Error "Missing Supabase credentials") 400, d)
  else
    match call request with
    | RecordUsage data => recordUsage f data d
    | GetUserUsage uid => (getUserUsage f uid d, d)
    end.

(** *** One handler between its awaits

    A [recordUsage] handler gives up control at each [await]; the store
    executes one statement at a time.  [step] runs a handler up to and
    including its next store call. *)
Inductive handler :=
| Received (data : usage_request)
| Fetched (data : usage_request) (cu : number) (profile : Store.profile)
| Logged (data : usage_request) (cu : number) (profile : Store.profile)
| Replied (r : response).

Definition step (f : faults) (h : handler) (d : db) : handler * db :=
  match h with
  | Received data =>
      if missing_input data then
        (Replied (json (Error "User ID, action type, and credits used are required") 400), d)
      else
        match creditsUsed data with
        | None =>
            (Replied (json (Error "User ID, action type, and credits used are required") 400), d)
        | Some cu =>
            match select_profile (fail_select_profile f) (userId data) d with
            | None => (Replied (json (Error "Failed to fetch profile") 500), d)
            | Some profile => (Fetched data cu profile, d)
            end
        end
  | Fetched data cu profile =>
      if lt (of_column (usage_credits profile)) cu then
        (Replied (json (Insufficient "Insufficient credits" (usage_credits profile)) 403), d)
      else
        match insert_usage_log (fail_insert_log f) (userId data) (actionType data)
                cu (req_metadata data) d with
        | None => (Replied (json (Error "Failed to record usage") 500), d)
        | Some d1 => (Logged data cu profile, d1)
        end
  | Logged data cu profile =>
      let newCredits := sub (of_column (usage_credits profile)) cu in
      match update_usage_credits_to (fail_update_credits f) (userId data) newCredits d with
      | None => (Replied (json (Error "Failed to update credits") 500), d)
      | Some d2 => (Replied (json (Recorded cu newCredits (usage_limit profile)) 200), d2)
      end
  | Replied r => (Replied r, d)
  end.

Fixpoint steps (n : nat) (f : faults) (h : handler) (d : db) : handler * db :=
  match n with
  | O => (h, d)
  | S n' => let '(h', d') := step f h d in steps n' f h' d'
  end.

(** Two handlers in flight against one store. *)
Inductive turn := First | Second.

Record world := { first : handler; second : handler; store : db }.

Definition sched_step (f1 f2 : faults) (t : turn) (w : world) : world :=
  match t with
  | First => let '(h, d) := step f1 (first w) (store w) in
             {| first := h; second := second w; store := d |}
  | Second => let '(h, d) := step f2 (second w) (store w) in
              {| first := first w; second := h; store := d |}
  end.

Definition run_schedule (f1 f2 : faults) (s : list turn) (w : world) : world :=
  fold_left (fun w t => sched_step f1 f2 t w) s w.

(** The handler replied [success: true]. *)
Definition accepted (r : response) : bool :=
  match http_body r with Recorded _ _ _ => ok r | _ => false end.

Definition replied_accepted (h : handler) : bool :=
  match h with Replied r => accepted r | _ => false end.

(** The handler replied 403 "Insufficient credits" with this balance. *)
Definition insufficient (r : response) (remaining : option Z) : Prop :=
  r = json (Insufficient "Insufficient credits" remaining) 403.

(** The handler replied 500 "Failed to update credits". *)
Definition update_failed (r : response) : Prop :=
  r = json (Error "Failed to update credits") 500.

(** A sequence of spend calls, each under its own store conditions. *)
Definition spend_all (calls : list (faults * usage_request)) (d : db) : db :=
  fold_left (fun d c => snd (recordUsage (fst c) (snd c) d)) calls d.

(** The store of [d] with the entry of a spend at the end of the log, [v]
    in its [credits_used], and [c] for the balance of the spender, whose
    row was [p]. *)
Definition charged (data : usage_request) (v c : option Z) (p : Store.profile) (d : db)
  : db :=
  with_profiles
    (<[userId data := apply_update (credits_update c) p]> (profiles d))
    (with_usage_logs (usage_logs d ++ [log_row data v]) d).

(** The store a spend of the integer [cu] leaves once the route has
    written the balance: the entry at the end of the log, the balance [cu]
    lower (a NULL balance counts as 0, as it does in the route's
    subtraction). *)
Definition spent (data : usage_request) (cu : Z) (p : Store.profile) (d : db) : db :=
  charged data (Some cu) (Some (to_Z (usage_credits p) - cu)) p d.

(** The store a spend leaves when its entry is in the log and the route's
    own update of the balance has not been made: the balance is the one
    the trigger wrote. *)
Definition logged (data : usage_request) (v : option Z) (p : Store.profile) (d : db) : db :=
  charged data v (minus_null (usage_credits p) v) p d.

(** The balance of account [id], if the account exists and the balance is
    not NULL, is not negative. *)
Definition balance_nonneg (id : string) (d : db) : Prop :=
  forall p c, profiles d !! id = Some p -> usage_credits p = Some c -> 0 <= c.

(** The amount of a request is one the ledger can count: not [-Infinity]
    and not NaN, the two numbers the route accepts and stores as NULL. *)
Definition countable (data : usage_request) : Prop :=
  creditsUsed data <> Some NegInfinity /\ creditsUsed data <> Some NaN.

(** The schedule in which the first handler runs to its reply before the
    second starts. *)
Definition one_after_the_other : list turn :=
  [First; First; First; Second; Second; Second].

End ApiStripe.

(* ===================================================================== *)
(** ** The usage tracker and the usage middleware *)
(* ===================================================================== *)

Module UsageGate.
Import JsString JsNumber Store ApiStripe.

Record UsageTrackerOptions := {
  t_userId : string;
  t_stripeKey : string;
  t_supabaseUrl : string;
  t_supabaseKey : string;
  t_apiBaseUrl : option string
}.

(** [UsageResponse]; a numeric field is [None] when the reply's JSON has
    no such key ([undefined]), and [JsonNull] when the key holds [null]. *)
Record UsageResponse := {
  success : bool;
  r_creditsUsed : option json_number;
  r_creditsRemaining : option json_number;
  r_usageLimit : option json_number;
  r_error : option string
}.

(** What one [fetch] meets: the network, then the route's store.  A
    network error is one that keeps the request from reaching the route. *)
Record conditions := {
  network_error : option string;     (* [fetch] throws with this message *)
  server : faults
}.

Definition fair : conditions := {| network_error := None; server := no_faults |}.

(** What a tracker talks to: the store behind the route, and the requests
    given to [fetch] so far, oldest first. *)
Record wire := { behind : db; sent : list api_request }.

(** [await fetch(url, { method: 'POST', body })]: the message of the error
    it throws, or the route's response. *)
Definition fetch (c : conditions) (request : api_request) (w : wire)
  : (string + response) * wire :=
  match network_error c with
  | Some message =>
      (inl message, {| behind := behind w; sent := sent w ++ [request] |})
  | None =>
      let '(response, d') := action (server c) request (behind w) in
      (inr response, {| behind := d'; sent := sent w ++ [request] |})
  end.

(** [data.error] of a parsed reply. *)
Definition data_error (b : body) : option string :=
  match b with
  | Error e => Some e
  | Insufficient e _ => Some e
  | _ => None
  end.

Definition post (t : UsageTrackerOptions) (c : api_call) : api_request :=
  {| method := "POST"; stripeKey := t_stripeKey t; supabaseUrl := t_supabaseUrl t;
     supabaseKey := t_supabaseKey t; call := c |}.

Definition failed (e : option string) : UsageResponse :=
  {| success := false; r_creditsUsed := Some (JsonNumber 0);
     r_creditsRemaining := Some (JsonNumber 0);
     r_usageLimit := Some (JsonNumber 0); r_error := e |}.

(** The request [UsageTracker.recordUsage] posts, lines 47-62: the body is
    written with [JSON.stringify], so the route finds a number in
    [creditsUsed] only when the tracker was given a finite one. *)
Definition spend_request (t : UsageTrackerOptions) (actionType : string)
    (creditsUsed : number) (metadata : option string) : usage_request :=
  {| userId := t_userId t; actionType := actionType;
     creditsUsed := parsed creditsUsed; req_metadata := metadata |}.

(** [UsageTracker.recordUsage], lines 45-93. *)
Definition tracker_recordUsage (c : conditions) (t : UsageTrackerOptions)
    (actionType : string) (creditsUsed : number) (metadata : option string) (w : wire)
  : UsageResponse * wire :=
  match fetch c (post t (RecordUsage (spend_request t actionType creditsUsed metadata))) w
  with
  | (inl message, w') => (failed (Some message), w')
  | (inr response, w') =>
    let data := http_body response in
    if negb (ok response) then (failed (data_error data), w')
    else
      match data with
      | Recorded cu cr ul =>
          ({| success := true; r_creditsUsed := Some (stringify cu);
              r_creditsRemaining := Some (stringify cr);
              r_usageLimit := Some (stringify (of_Z ul)); r_error := None |}, w')
      | _ =>
          ({| success := true; r_creditsUsed := None; r_creditsRemaining := None;
              r_usageLimit := None; r_error := None |}, w')
      end
  end.

(** [UsageTracker.getUserUsage], lines 98-126: the reply's data, or
    [{ error }]. *)
Definition tracker_getUserUsage (c : conditions) (t : UsageTrackerOptions) (w : wire)
  : (option string + body) * wire :=
  match fetch c (post t (GetUserUsage (t_userId t))) w with
  | (inl message, w') => (inl (Some message), w')
  | (inr response, w') =>
    let data := http_body response in
    if negb (ok response) then (inl (data_error data), w') else (inr data, w')
  end.

(** [UsageTracker.hasEnoughCredits], lines 131-143; reading
    [usage.profile] of a reply without one throws, and the [catch]
    answers [false]. *)
Definition hasEnoughCredits (c : conditions) (t : UsageTrackerOptions)
    (creditsNeeded : number) (w : wire) : bool * wire :=
  match tracker_getUserUsage c t w with
  | (inl _, w') => (false, w')
  | (inr (Usage profile _ _), w') =>
      (ge (of_column (usage_credits profile)) creditsNeeded, w')
  | (inr _, w') => (false, w')
  end.

(** [creditsRequired] is any value of type number the caller passes. *)
Record UsageMiddlewareOptions := {
  userId : string;
  stripeKey : string;
  supabaseUrl : string;
  supabaseKey : string;
  actionType : string;
  creditsRequired : number;
  metadata : option string;
  apiBaseUrl : option string
}.

(** [new UsageTracker({ userId, stripeKey, supabaseUrl, supabaseKey, apiBaseUrl })] *)
Definition new_UsageTracker (options : UsageMiddlewareOptions) : UsageTrackerOptions :=
  {| t_userId := userId options; t_stripeKey := stripeKey options;
     t_supabaseUrl := supabaseUrl options; t_supabaseKey := supabaseKey options;
     t_apiBaseUrl := apiBaseUrl options |}.

(** The middleware's result type, [{ allowed: boolean; error?: string }]. *)
Record gate_result := { allowed : bool; error : option string }.

(** The [action] field of a request's body. *)
Definition action_name (request : api_request) : string :=
  match call request with
  | RecordUsage _ => "recordUsage"
  | GetUserUsage _ => "getUserUsage"
  end.

(** One run of the middleware: its result, the store afterwards, and the
    route actions its tracker has given to [fetch], in order. *)
Record gate_run := {
  result : gate_result;
  store_after : db;
  posted : list string
}.

Definition finish (r : gate_result) (w : wire) : gate_run :=
  {| result := r; store_after := behind w; posted := action_name <$> sent w |}.

(** [checkAndRecordUsage], lines 20-55; [check] and [spend] are the
    conditions its two round trips meet. *)
Definition checkAndRecordUsage (check spend : conditions)
    (options : UsageMiddlewareOptions) (d : db) : gate_run :=
  let w := {| behind := d; sent := [] |} in
  if negb (truthy (userId options)) || negb (truthy (stripeKey options)) ||
     negb (truthy (supabaseUrl options)) || negb (truthy (supabaseKey options)) then
    finish {| allowed := false; error := Some "Missing required credentials" |} w
  else
    let tracker := new_UsageTracker options in
    let '(hasEnough, w1) := hasEnoughCredits check tracker (creditsRequired options) w in
    if negb hasEnough then
      finish {| allowed := false; error := Some "Insufficient credits" |} w1
    else
      let '(res, w2) :=
        tracker_recordUsage spend tracker (actionType options)
          (creditsRequired options) (metadata options) w1 in
      if negb (success res) then finish {| allowed := false; error := r_error res |} w2
      else finish {| allowed := true; error := None |} w2.

(** The middleware denied for lack of credits. *)
Definition denied_insufficient (r : gate_result) : Prop :=
  allowed r = false /\ error r = Some "Insufficient credits".

Definition spend_calls (run : gate_run) : nat :=
  length (filter (fun a => a = "recordUsage") (posted run)).

(** The request the middleware's spend posts. *)
Definition spend_of (options : UsageMiddlewareOptions) : usage_request :=
  spend_request (new_UsageTracker options) (actionType options)
    (creditsRequired options) (metadata options).

End UsageGate.

(* ===================================================================== *)
(** ** The Stripe webhook *)
(* ===================================================================== *)

Module Webhook.
Import JsString JsError TierPolicy Store.

(** [subscription.items.data[i]]: its price id and quantity. *)
Record stripe_item := { item_price_id : string; item_quantity : Z }.

(** A Stripe subscription object, with the types Stripe's API declares:
    times are whole Unix seconds, of any size, and [null] is [None]. *)
Record stripe_subscription := {
  sub_id : string;
  metadata_userId : option string;          (* subscription.metadata?.userId *)
  sub_status : string;
  items : list stripe_item;
  s_cancel_at_period_end : bool;
  s_current_period_start : Z;
  s_current_period_end : Z;
  s_canceled_at : option Z;
  s_cancel_at : option Z;
  s_ended_at : option Z;
  s_trial_start : option Z;
  s_trial_end : option Z
}.

Record stripe_invoice := {
  inv_subscription : option string;
  inv_customer : option string
}.

(** [event.type] together with [event.data]; [previous_status] is
    [event.data.previous_attributes?.status]. *)
Inductive event_data :=
| SubscriptionCreated (subscription : stripe_subscription)
| SubscriptionUpdated (subscription : stripe_subscription) (previous_status : option string)
| SubscriptionDeleted (subscription : stripe_subscription)
| InvoicePaymentSucceeded (invoice : stripe_invoice)
| InvoicePaymentFailed (invoice : stripe_invoice)
| OtherEvent (type : string).

(** A verified event: [id] and [created] (Unix seconds) come with every
    Stripe event; the handler reads neither. *)
Record stripe_event := { event_id : string; created : Z; data : event_data }.

(** The request as the handler sees it; [constructEvent] is the outcome of
    [stripe.webhooks.constructEvent(body, signature, secret)], [None] when
    it throws. *)
Record webhook_request := {
  method : string;
  signature : option string;
  secrets_present : bool;
  constructEvent : option stripe_event
}.

(** What one delivery meets: which store calls fail, and what
    [stripe.subscriptions.retrieve] does. *)
Record conditions := {
  fail_upsert_subscription : bool;
  fail_end_subscription : bool;
  fail_select_subscription : bool;
  fail_update_status : bool;
  fail_select_price : bool;
  fail_reset_credits : bool;
  retrieve : string -> outcome stripe_subscription
}.

(** A response body: a plain text, or the JSON [{ received: true }]. *)
Inductive payload := Text (t : string) | ReceivedJson.

Record response := { http_status : nat; http_body : payload }.

Definition reply (t : string) (st : nat) : response :=
  {| http_status := st; http_body := Text t |}.

(** [new Response(JSON.stringify({ received: true }), ...)], status 200. *)
Definition received : response := {| http_status := 200; http_body := ReceivedJson |}.

(** The outer [catch], lines 296-301: status 500 and
    [`Webhook error: ${error instanceof Error ? error.message : 'Unknown error'}`]. *)
Definition thrown (e : thrown_value) : response :=
  reply (String.append "Webhook error: " (message_or "Unknown error" e)) 500.

(** A time value of [Date] is valid up to 8.64e15 milliseconds either side
    of the epoch. *)
Definition max_time_ms : Z := 8640000000000000.

(** [new Date(seconds * 1000).toISOString()], kept as milliseconds;
    [None] when the date is invalid and [toISOString] throws a RangeError. *)
Definition iso (seconds : Z) : option Z :=
  let ms := seconds * 1000 in
  if (- max_time_ms <=? ms) && (ms <=? max_time_ms) then Some ms else None.

(** [t ? new Date(t * 1000).toISOString() : null]; the outer [None] is the
    RangeError. *)
Definition iso_or_null (t : option Z) : option (option Z) :=
  match t with
  | Some s => if s =? 0 then Some None else Some <$> iso s
  | None => Some None
  end.

(** [null * 1000] is [0]. *)
Definition or_zero (t : option Z) : Z :=
  match t with Some s => s | None => 0 end.

(** The seconds are ones [Date] can represent. *)
Definition representable (seconds : Z) : Prop :=
  - 8640000000000 <= seconds <= 8640000000000.

Definition representable_or_null (t : option Z) : Prop :=
  match t with Some s => representable s | None => True end.

(** All the times of a subscription object are. *)
Definition times_representable (s : stripe_subscription) : Prop :=
  representable (s_current_period_start s) /\ representable (s_current_period_end s) /\
  representable_or_null (s_canceled_at s) /\ representable_or_null (s_cancel_at s) /\
  representable_or_null (s_ended_at s) /\ representable_or_null (s_trial_start s) /\
  representable_or_null (s_trial_end s).

(** The stored time of a nullable time that [Date] can represent. *)
Definition ms_or_null (t : option Z) : option Z :=
  match t with
  | Some s => if s =? 0 then None else Some (s * 1000)
  | None => None
  end.

Definition some_text (o : option string) : option string :=
  match o with
  | Some s => if truthy s then Some s else None
  | None => None
  end.

Definition status_update (st : string) : profile_update :=
  {| set_subscription_status := Some st; set_subscription_tier := None;
     set_usage_credits := None; set_usage_limit := None |}.

(** [status === 'active' && (type is created ||
      (type is updated && previous?.status && previous.status !== 'active'))] *)
Definition refill (created_event : bool) (subscription : stripe_subscription)
    (previous_status : option string) : bool :=
  String.eqb (sub_status subscription) "active" &&
  (created_event ||
   match some_text previous_status with
   | Some prev => negb (String.eqb prev "active")
   | None => false
   end).

(** The object given to [upsert], lines 55-73, its fields evaluated in
    order.  [Threw] when building it throws: the TypeError of
    [items.data[0].price] when there is no item, or else the RangeError of
    the first time [Date] cannot represent. *)
Definition upsert_row (userId : string) (subscription : stripe_subscription)
  : outcome (stripe_item * subscription_row) :=
  match items subscription with
  | [] => Threw no_first_item
  | item :: _ =>
      match
        start ← iso (s_current_period_start subscription);
        finish ← iso (s_current_period_end subscription);
        canceled ← iso_or_null (s_canceled_at subscription);
        cancel ← iso_or_null (s_cancel_at subscription);
        ended ← iso_or_null (s_ended_at subscription);
        trial_from ← iso_or_null (s_trial_start subscription);
        trial_to ← iso_or_null (s_trial_end subscription);
        Some {| sub_user_id := userId;
                status := sub_status subscription;
                price_id := item_price_id item;
                quantity := item_quantity item;
                cancel_at_period_end := s_cancel_at_period_end subscription;
                current_period_start := start;
                current_period_end := finish;
                canceled_at := canceled;
                cancel_at := cancel;
                ended_at := ended;
                trial_start := trial_from;
                trial_end := trial_to |}
      with
      | Some row => Returned (item, row)
      | None => Threw invalid_time
      end
  end.

(** The row of [subscriptions] that holds what the subscription object
    says, for the account [userId] and the first item [item]. *)
Definition row_of (userId : string) (item : stripe_item) (s : stripe_subscription)
  : subscription_row :=
  {| sub_user_id := userId;
     status := sub_status s;
     price_id := item_price_id item;
     quantity := item_quantity item;
     cancel_at_period_end := s_cancel_at_period_end s;
     current_period_start := s_current_period_start s * 1000;
     current_period_end := s_current_period_end s * 1000;
     canceled_at := ms_or_null (s_canceled_at s);
     cancel_at := ms_or_null (s_cancel_at s);
     ended_at := ms_or_null (s_ended_at s);
     trial_start := ms_or_null (s_trial_start s);
     trial_end := ms_or_null (s_trial_end s) |}.

(** The update that refills, lines 127-131 and 235-238; [tier] is absent
    from it in the invoice case. *)
Definition refill_update (tier : option string) (usageLimit : Z) : profile_update :=
  {| set_subscription_status := None;
     set_subscription_tier := tier;
     set_usage_credits := Some (Some usageLimit);
     set_usage_limit := Some usageLimit |}.

(** [case 'customer.subscription.created'] and
    [case 'customer.subscription.updated'], lines 41-141. *)
Definition subscription_changed (c : conditions) (created_event : bool)
    (subscription : stripe_subscription) (previous_status : option string) (d : db)
  : response * db :=
  match some_text (metadata_userId subscription) with
  | None => (reply "No userId found in subscription metadata" 400, d)
  | Some userId =>
      match upsert_row userId subscription with
      | Threw e => (thrown e, d)
      | Returned (item, row) =>
          match upsert_subscription (fail_upsert_subscription c) (sub_id subscription)
                  row d with
          | None => (reply "Error updating subscription" 500, d)
          | Some d1 =>
              match update_profile (fail_update_status c) userId
                      (status_update (sub_status subscription)) d1 with
              | None => (reply "Error updating profile" 500, d1)
              | Some d2 =>
                  if refill created_event subscription previous_status then
                    let price := select_price (fail_select_price c) (item_price_id item) d2 in
                    let '(tier, usageLimit) := resolve price in
                    match update_profile (fail_reset_credits c) userId
                            (refill_update (Some tier) usageLimit) d2 with
                    | None => (reply "Error resetting usage credits" 500, d2)
                    | Some d3 => (received, d3)
                    end
                  else (received, d2)
              end
          end
      end
  end.

(** The profile update of the deleted case, lines 169-173:
    [{ subscription_status: 'canceled', subscription_tier: 'free',
       usage_limit: 100 }]. *)
Definition downgrade : profile_update :=
  {| set_subscription_status := Some "canceled"; set_subscription_tier := Some "free";
     set_usage_credits := None; set_usage_limit := Some 100 |}.

(** [case 'customer.subscription.deleted'], lines 143-182; the object
    given to [update] is built, and may throw, before the store is called. *)
Definition subscription_deleted (c : conditions) (subscription : stripe_subscription)
    (d : db) : response * db :=
  match some_text (metadata_userId subscription) with
  | None => (reply "No userId found in subscription metadata" 400, d)
  | Some userId =>
      match iso (or_zero (s_ended_at subscription)) with
      | None => (thrown invalid_time, d)
      | Some ended =>
          match end_subscription (fail_end_subscription c) (sub_id subscription)
                  (sub_status subscription) ended d with
          | None => (reply "Error updating subscription" 500, d)
          | Some d1 =>
              match update_profile (fail_update_status c) userId downgrade d1 with
              | None => (reply "Error updating profile" 500, d1)
              | Some d2 => (received, d2)
              end
          end
      end
  end.

(** [case 'invoice.payment_succeeded'], lines 184-247. *)
Definition invoice_payment_succeeded (c : conditions) (invoice : stripe_invoice)
    (d : db) : response * db :=
  match some_text (inv_subscription invoice), some_text (inv_customer invoice) with
  | Some subscriptionId, Some _ =>
      match select_subscription_user (fail_select_subscription c) subscriptionId d with
      | None => (reply "Error fetching subscription" 500, d)
      | Some userId =>
          match retrieve c subscriptionId with
          | Threw e => (thrown e, d)
          | Returned subscription =>
              match items subscription with
              | [] => (thrown no_first_item, d)
              | item :: _ =>
                  let price := select_price (fail_select_price c) (item_price_id item) d in
                  let '(_, usageLimit) := resolve price in
                  match update_profile (fail_reset_credits c) userId
                          (refill_update None usageLimit) d with
                  | None => (reply "Error resetting usage credits" 500, d)
                  | Some d1 => (received, d1)
                  end
              end
          end
      end
  | _, _ => (reply "Missing subscription or customer ID in invoice" 400, d)
  end.

(** [case 'invoice.payment_failed'], lines 249-286. *)
Definition invoice_payment_failed (c : conditions) (invoice : stripe_invoice)
    (d : db) : response * db :=
  match some_text (inv_subscription invoice) with
  | None => (reply "Missing subscription ID in invoice" 400, d)
  | Some subscriptionId =>
      match select_subscription_user (fail_select_subscription c) subscriptionId d with
      | None => (reply "Error fetching subscription" 500, d)
      | Some userId =>
          match update_profile (fail_update_status c) userId (status_update "past_due") d with
          | None => (reply "Error updating profile" 500, d)
          | Some d1 => (received, d1)
          end
      end
  end.

(** The [switch (event.type)], lines 40-291. *)
Definition handle (c : conditions) (event : stripe_event) (d : db) : response * db :=
  match data event with
  | SubscriptionCreated s => subscription_changed c true s None d
  | SubscriptionUpdated s prev => subscription_changed c false s prev d
  | SubscriptionDeleted s => subscription_deleted c s d
  | InvoicePaymentSucceeded i => invoice_payment_succeeded c i d
  | InvoicePaymentFailed i => invoice_payment_failed c i d
  | OtherEvent _ => (received, d)
  end.

(** [action], lines 8-302. *)
Definition action (c : conditions) (request : webhook_request) (d : db)
  : response * db :=
  if negb (String.eqb (method request) "POST") then (reply "Method not allowed" 405, d)
  else
    match some_text (signature request) with
    | None => (reply "Stripe signature missing" 400, d)
    | Some _ =>
        if negb (secrets_present request) then (reply "Missing required secrets" 400, d)
        else
          match constructEvent request with
          | None => (reply "Webhook signature verification failed" 400, d)
          | Some event => handle c event d
          end
    end.

(** A delivery of [event] that passes the checks before the [switch]. *)
Definition delivery (event : stripe_event) : webhook_request :=
  {| method := "POST"; signature := Some "t=1,v1=0"; secrets_present := true;
     constructEvent := Some event |}.

(** The store works and Stripe knows the subscriptions in [known]. *)
Definition calm (known : string -> outcome stripe_subscription) : conditions :=
  {| fail_upsert_subscription := false; fail_end_subscription := false;
     fail_select_subscription := false; fail_update_status := false;
     fail_select_price := false; fail_reset_credits := false; retrieve := known |}.

(** The store after a delivery. *)
Definition apply (c : conditions) (event : stripe_event) (d : db) : db :=
  snd (action c (delivery event) d).

(** The stored status of a subscription, and of an account. *)
Definition stored_status (sid : string) (d : db) : option string :=
  status <$> subscriptions d !! sid.

Definition account_status (id : string) (d : db) : option string :=
  match profiles d !! id with Some p => subscription_status p | None => None end.

End Webhook.

(* ===================================================================== *)
(** ** The auth route: sign-up *)
(* ===================================================================== *)

Module ApiAuth.
Import JsString Store.

(** [data.user] of [supabase.auth.signUp]. *)
Record session_user := { id : string; user_email : option string }.

(** [{ data, error }] of [supabase.auth.signUp]. *)
Inductive auth_reply :=
| AuthError (message : string)
| AuthData (user : option session_user).

Inductive response :=
| ErrorJson (error : string) (status : nat)
| SessionJson (user : option session_user).

(** [data.user.email || ''] *)
Definition email_or_empty (u : session_user) : string :=
  match user_email u with Some e => e | None => "" end.

(** The row the route inserts; the columns it leaves out take the
    defaults of the migration's [CREATE TABLE profiles]. *)
Definition signUp_profile (u : session_user) : profile :=
  {| email := email_or_empty u;
     username := None;
     subscription_tier := Some "free";
     subscription_status := Some default_subscription_status;
     stripe_customer_id := None;
     usage_credits := Some 100;
     usage_limit := 100 |}.

(** [case 'signUp'], lines 22-57.  [auth] is [supabase.auth.signUp]: the
    auth service answers and leaves the store as its own insert into
    [auth.users] (and any trigger on it) made it. *)
Definition signUp (auth : string -> string -> db -> auth_reply * db)
    (fail_insert : bool) (email password : string) (d : db) : response * db :=
  if negb (truthy email) || negb (truthy password) then
    (ErrorJson "Email and password are required" 400, d)
  else
    let '(r, d1) := auth email password d in
    match r with
    | AuthError message => (ErrorJson message 400, d1)
    | AuthData None => (SessionJson None, d1)
    | AuthData (Some user) =>
        match insert_profile fail_insert (id user) (signUp_profile user) d1 with
        | None => (SessionJson (Some user), d1)     (* logged, sign-up not failed *)
        | Some d2 => (SessionJson (Some user), d2)
        end
    end.

(** An auth service that registers [email] under the id [uid] with the
    migration's trigger [on_auth_user_created] in place: the trigger runs
    inside the insert into [auth.users], and its failure fails the
    sign-up. *)
Definition auth_with_trigger (uid : string) (email password : string) (d : db)
  : auth_reply * db :=
  match handle_new_user {| au_id := uid; au_email := email |} d with
  | None => (AuthError "Database error saving new user", d)
  | Some d1 => (AuthData (Some {| id := uid; user_email := Some email |}), d1)
  end.

(** The same service on a database without that trigger. *)
Definition auth_without_trigger (uid : string) (email password : string) (d : db)
  : auth_reply * db :=
  (AuthData (Some {| id := uid; user_email := Some email |}), d).

End ApiAuth.

(* ===================================================================== *)
(** ** Concrete stores, requests and events *)
(* ===================================================================== *)

Module Scenario.
Import TierPolicy JsNumber JsError Store.

(** Ids are written short: ["u1"], ["u2"] and ["u9"] stand for the texts of
    three UUIDs, which is what the [id] and [user_id] columns hold.  The
    routes and the store test an id for being empty and for equality, and
    read nothing else of it. *)

Definition free_profile (credits limit : Z) : profile :=
  {| email := "ada@example.com"; username := Some "ada";
     subscription_tier := Some "free"; subscription_status := Some "active";
     stripe_customer_id := None; usage_credits := Some credits; usage_limit := limit |}.

Definition premium_profile (credits : Z) : profile :=
  {| email := "ada@example.com"; username := Some "ada";
     subscription_tier := Some "premium"; subscription_status := Some "active";
     stripe_customer_id := Some "cus_1"; usage_credits := Some credits;
     usage_limit := 2000 |}.

Definition catalogue : gmap string price_row :=
  {[ "price_premium" := {| products := Some {| name := "Acme Premium Plan" |} |} ]}.

(** One free account [u1] with the given balance. *)
Definition store_with (credits : Z) : db :=
  {| profiles := {[ "u1" := free_profile credits 10 ]};
     usage_logs := [];
     subscriptions := ∅;
     prices := catalogue |}.

(** A spend of the number [n] by [u1]. *)
Definition spend_number (n : number) : ApiStripe.usage_request :=
  {| ApiStripe.userId := "u1"; ApiStripe.actionType := "chat";
     ApiStripe.creditsUsed := Some n; ApiStripe.req_metadata := None |}.

Definition spend (n : Z) : ApiStripe.usage_request := spend_number (of_Z n).

Definition gate_options (n : Z) : UsageGate.UsageMiddlewareOptions :=
  {| UsageGate.userId := "u1"; UsageGate.stripeKey := "sk_test";
     UsageGate.supabaseUrl := "https://db.example"; UsageGate.supabaseKey := "key";
     UsageGate.actionType := "chat"; UsageGate.creditsRequired := of_Z n;
     UsageGate.metadata := None; UsageGate.apiBaseUrl := None |}.

(** The store works, except that the route's own update of the balance
    fails. *)
Definition update_fails : ApiStripe.faults :=
  {| ApiStripe.fail_select_profile := false; ApiStripe.fail_insert_log := false;
     ApiStripe.fail_update_credits := true; ApiStripe.fail_select_logs := false |}.

(** The Stripe subscription [sub_1], of user [uid], on the premium price. *)
Definition subscription_of (uid st : string) : Webhook.stripe_subscription :=
  {| Webhook.sub_id := "sub_1"; Webhook.metadata_userId := Some uid;
     Webhook.sub_status := st;
     Webhook.items := [ {| Webhook.item_price_id := "price_premium";
                           Webhook.item_quantity := 1 |} ];
     Webhook.s_cancel_at_period_end := false;
     Webhook.s_current_period_start := 1700000000;
     Webhook.s_current_period_end := 1702592000;
     Webhook.s_canceled_at := None; Webhook.s_cancel_at := None;
     Webhook.s_ended_at := None; Webhook.s_trial_start := None;
     Webhook.s_trial_end := None |}.

Definition subscription_1 (st : string) : Webhook.stripe_subscription :=
  subscription_of "u1" st.

Definition stripe_knows (sid : string) : outcome Webhook.stripe_subscription :=
  if String.eqb sid "sub_1" then Returned (subscription_1 "active")
  else Threw (ErrorObject "No such subscription").

Definition sub_row_1 : subscription_row :=
  {| sub_user_id := "u1"; status := "active"; price_id := "price_premium";
     quantity := 1; cancel_at_period_end := false;
     current_period_start := 1700000000000; current_period_end := 1702592000000;
     canceled_at := None; cancel_at := None; ended_at := None;
     trial_start := None; trial_end := None |}.

(** [u1] on an active premium subscription with the given balance. *)
Definition premium_store (credits : Z) : db :=
  {| profiles := {[ "u1" := premium_profile credits ]};
     usage_logs := [];
     subscriptions := {[ "sub_1" := sub_row_1 ]};
     prices := catalogue |}.

Definition invoice_paid : Webhook.stripe_event :=
  {| Webhook.event_id := "evt_invoice_1"; Webhook.created := 1700000100;
     Webhook.data := Webhook.InvoicePaymentSucceeded
                       {| Webhook.inv_subscription := Some "sub_1";
                          Webhook.inv_customer := Some "cus_1" |} |}.

(** Two updates of [sub_1]: the one that says [active] is the later one. *)
Definition updated_active : Webhook.stripe_event :=
  {| Webhook.event_id := "evt_2"; Webhook.created := 1700000200;
     Webhook.data := Webhook.SubscriptionUpdated (subscription_1 "active") None |}.

Definition updated_past_due : Webhook.stripe_event :=
  {| Webhook.event_id := "evt_1"; Webhook.created := 1700000100;
     Webhook.data := Webhook.SubscriptionUpdated (subscription_1 "past_due") None |}.

Definition deleted : Webhook.stripe_event :=
  {| Webhook.event_id := "evt_3"; Webhook.created := 1700000300;
     Webhook.data := Webhook.SubscriptionDeleted (subscription_1 "canceled") |}.

Definition deleted_of (uid : string) : Webhook.stripe_event :=
  {| Webhook.event_id := "evt_4"; Webhook.created := 1700000400;
     Webhook.data := Webhook.SubscriptionDeleted (subscription_of uid "canceled") |}.

(** The same event for a subscription that ended at a time [Date] cannot
    represent. *)
Definition deleted_out_of_range : Webhook.stripe_event :=
  {| Webhook.event_id := "evt_8"; Webhook.created := 1700000800;
     Webhook.data :=
       Webhook.SubscriptionDeleted
         {| Webhook.sub_id := "sub_1"; Webhook.metadata_userId := Some "u1";
            Webhook.sub_status := "canceled";
            Webhook.items := [ {| Webhook.item_price_id := "price_premium";
                                  Webhook.item_quantity := 1 |} ];
            Webhook.s_cancel_at_period_end := false;
            Webhook.s_current_period_start := 1700000000;
            Webhook.s_current_period_end := 1702592000;
            Webhook.s_canceled_at := None; Webhook.s_cancel_at := None;
            Webhook.s_ended_at := Some 8640000000001; Webhook.s_trial_start := None;
            Webhook.s_trial_end := None |} |}.

Definition empty_store : db :=
  {| profiles := ∅; usage_logs := []; subscriptions := ∅; prices := catalogue |}.

Definition new_user : auth_user := {| au_id := "u2"; au_email := "bob@example.com" |}.

(** The store once the signup trigger has run for [new_user]. *)
Definition trigger_created : db :=
  {| profiles :=
       <["u2" := {| email := "bob@example.com"; username := Some "bob";
                    subscription_tier := Some "free";
                    subscription_status := Some "active";
                    stripe_customer_id := None;
                    usage_credits := Some 10; usage_limit := 10 |}]> ∅;
     usage_logs := []; subscriptions := ∅; prices := catalogue |}.

End Scenario.

(* ===================================================================== *)
(** ** The [api/stripe] route: customers and subscriptions *)
(* ===================================================================== *)

Module Billing.
Import JsString JsError TierPolicy Store.

Inductive body :=
| Error (error : string)
| CustomerJson (customerId : string)
| SubscriptionJson (subscription : Webhook.stripe_subscription).

Record response := { http_status : nat; http_body : body }.

Definition json (b : body) (st : nat) : response :=
  {| http_status := st; http_body := b |}.

(** The route's outer [catch], lines 547-555: status 500 and
    [{ error: error instanceof Error ? error.message : 'Stripe operation failed' }]. *)
Definition thrown (e : thrown_value) : response :=
  json (Error (message_or "Stripe operation failed" e)) 500.

(** What one request meets: which store calls fail, what the calls of the
    Stripe API do, and the clock. *)
Record conditions := {
  fail_select_customer : bool;
  fail_update_customer : bool;
  fail_insert_subscription : bool;
  fail_select_price : bool;
  fail_update_profile : bool;
  fail_update_subscription : bool;
  customers_create : outcome string;                         (* [customer.id] *)
  subscriptions_create : outcome Webhook.stripe_subscription;
  subscriptions_update : outcome Webhook.stripe_subscription;
  now : Z                                                    (* [new Date()] *)
}.

Record customer_request := {
  cr_userId : string;
  cr_email : string;
  cr_name : option string
}.

Definition with_customer (cid : string) (p : profile) : profile :=
  {| email := email p; username := username p;
     subscription_tier := subscription_tier p;
     subscription_status := subscription_status p;
     stripe_customer_id := Some cid;
     usage_credits := usage_credits p; usage_limit := usage_limit p |}.

(** [from('profiles').update({ stripe_customer_id }).eq('id', id)] *)
Definition update_customer (fail : bool) (id cid : string) (d : db) : option db :=
  if fail then None
  else Some (with_profiles (alter (with_customer cid) id (profiles d)) d).

(** [profile?.stripe_customer_id] of
    [from('profiles').select('stripe_customer_id').eq('id', id).single()],
    whose [error] the route does not read. *)
Definition stored_customer (fail : bool) (id : string) (d : db) : option string :=
  match select_profile fail id d with
  | Some p => Webhook.some_text (stripe_customer_id p)
  | None => None
  end.

(** [case 'createCustomer'], lines 212-252. *)
Definition createCustomer (c : conditions) (data : customer_request) (d : db)
  : response * db :=
  if negb (truthy (cr_userId data)) || negb (truthy (cr_email data)) then
    (json (Error "User ID and email are required") 400, d)
  else
    match stored_customer (fail_select_customer c) (cr_userId data) d with
    | Some cid => (json (CustomerJson cid) 200, d)
    | None =>
        match customers_create c with
        | Threw e => (thrown e, d)
        | Returned cid =>
            match update_customer (fail_update_customer c) (cr_userId data) cid d with
            | None => (json (Error "Failed to update profile") 500, d)
            | Some d1 => (json (CustomerJson cid) 200, d1)
            end
        end
    end.

Record subscription_request := {
  sr_customerId : string;
  sr_priceId : string;
  sr_userId : string
}.

(** [from('subscriptions').insert(row)]; [stripe_subscription_id] carries the
    unique index that the webhook's [onConflict] names. *)
Definition insert_subscription (fail : bool) (sid : string) (row : subscription_row)
    (d : db) : option db :=
  if fail then None
  else match subscriptions d !! sid with
       | Some _ => None
       | None => Some (with_subscriptions (<[sid := row]> (subscriptions d)) d)
       end.

(** The row of lines 272-285; the columns it leaves out are NULL.  [None]
    when a time is one [Date] cannot represent and building the row throws
    the RangeError. *)
Definition created_row (data : subscription_request)
    (subscription : Webhook.stripe_subscription) : option subscription_row :=
  start ← Webhook.iso (Webhook.s_current_period_start subscription);
  finish ← Webhook.iso (Webhook.s_current_period_end subscription);
  trial_from ← Webhook.iso_or_null (Webhook.s_trial_start subscription);
  trial_to ← Webhook.iso_or_null (Webhook.s_trial_end subscription);
  Some {| sub_user_id := sr_userId data;
          status := Webhook.sub_status subscription;
          price_id := sr_priceId data;
          quantity := 1;
          cancel_at_period_end := Webhook.s_cancel_at_period_end subscription;
          current_period_start := start;
          current_period_end := finish;
          canceled_at := None; cancel_at := None; ended_at := None;
          trial_start := trial_from;
          trial_end := trial_to |}.

(** The row of [subscriptions] that holds what the new subscription says. *)
Definition row_of (data : subscription_request) (s : Webhook.stripe_subscription)
  : subscription_row :=
  {| sub_user_id := sr_userId data;
     status := Webhook.sub_status s;
     price_id := sr_priceId data;
     quantity := 1;
     cancel_at_period_end := Webhook.s_cancel_at_period_end s;
     current_period_start := Webhook.s_current_period_start s * 1000;
     current_period_end := Webhook.s_current_period_end s * 1000;
     canceled_at := None; cancel_at := None; ended_at := None;
     trial_start := Webhook.ms_or_null (Webhook.s_trial_start s);
     trial_end := Webhook.ms_or_null (Webhook.s_trial_end s) |}.

(** The times the row of [createSubscription] is built from are ones
    [Date] can represent. *)
Definition times_representable (s : Webhook.stripe_subscription) : Prop :=
  Webhook.representable (Webhook.s_current_period_start s) /\
  Webhook.representable (Webhook.s_current_period_end s) /\
  Webhook.representable_or_null (Webhook.s_trial_start s) /\
  Webhook.representable_or_null (Webhook.s_trial_end s).

(** [case 'createSubscription'], lines 254-332. *)
Definition createSubscription (c : conditions) (data : subscription_request) (d : db)
  : response * db :=
  if negb (truthy (sr_customerId data)) || negb (truthy (sr_priceId data)) ||
     negb (truthy (sr_userId data)) then
    (json (Error "Customer ID, price ID, and user ID are required") 400, d)
  else
    match subscriptions_create c with
    | Threw e => (thrown e, d)
    | Returned subscription =>
        match created_row data subscription with
        | None => (thrown invalid_time, d)
        | Some row =>
            match insert_subscription (fail_insert_subscription c)
                    (Webhook.sub_id subscription) row d with
            | None => (json (Error "Failed to store subscription") 500, d)
            | Some d1 =>
                let price := select_price (fail_select_price c) (sr_priceId data) d1 in
                let '(tier, usageLimit) := resolve_createSubscription price in
                match update_profile (fail_update_profile c) (sr_userId data)
                        {| set_subscription_status := Some (Webhook.sub_status subscription);
                           set_subscription_tier := Some tier;
                           set_usage_credits := None;
                           set_usage_limit := Some usageLimit |} d1 with
                | None => (json (Error "Failed to update profile") 500, d1)
                | Some d2 => (json (SubscriptionJson subscription) 200, d2)
                end
            end
        end
    end.

Record cancel_request := {
  cn_subscriptionId : string;
  cn_userId : string
}.

Definition flag_canceled (at_ms : Z) (r : subscription_row) : subscription_row :=
  {| sub_user_id := sub_user_id r; status := status r;
     price_id := price_id r; quantity := quantity r;
     cancel_at_period_end := true;
     current_period_start := current_period_start r;
     current_period_end := current_period_end r;
     canceled_at := Some at_ms; cancel_at := cancel_at r;
     ended_at := ended_at r;
     trial_start := trial_start r; trial_end := trial_end r |}.

(** [from('subscriptions').update({ cancel_at_period_end: true, canceled_at })
      .eq('stripe_subscription_id', sid).eq('user_id', uid)] *)
Definition flag_subscription (fail : bool) (sid uid : string) (at_ms : Z) (d : db)
  : option db :=
  if fail then None
  else Some (with_subscriptions
               (alter (fun r => if String.eqb (sub_user_id r) uid
                                then flag_canceled at_ms r else r)
                  sid (subscriptions d)) d).

(** [case 'cancelSubscription'], lines 363-391. *)
Definition cancelSubscription (c : conditions) (data : cancel_request) (d : db)
  : response * db :=
  if negb (truthy (cn_subscriptionId data)) || negb (truthy (cn_userId data)) then
    (json (Error "Subscription ID and user ID are required") 400, d)
  else
    match subscriptions_update c with
    | Threw e => (thrown e, d)
    | Returned subscription =>
        match flag_subscription (fail_update_subscription c) (cn_subscriptionId data)
                (cn_userId data) (now c) d with
        | None => (json (Error "Failed to update subscription") 500, d)
        | Some d1 => (json (SubscriptionJson subscription) 200, d1)
        end
    end.

End Billing.

(* ===================================================================== *)
(** ** Measures of the ledger *)
(* ===================================================================== *)

Module Ledger.
Import JsNumber Store.

(** The entries of account [id], oldest first. *)
Definition entries_of (id : string) (d : db) : list usage_log :=
  filter (fun l => user_id l = id) (usage_logs d).

(** The credits logged for account [id]; a NULL [credits_used] counts as
    0, as it does in the sum of [getUserUsage]. *)
Definition logged_total (id : string) (d : db) : Z :=
  fold_left (fun sum log => sum + to_Z (credits_used log)) (entries_of id d) 0.


(** The account's stored tier, status and limit. *)
Definition tier_of (id : string) (d : db) : option string :=
  match profiles d !! id with Some p => subscription_tier p | None => None end.

(** From [d] to [d'] no account's balance, limit or tier has changed. *)
Definition balances_kept (d d' : db) : Prop :=
  forall id, credits_of id d' = credits_of id d /\ limit_of id d' = limit_of id d /\
             tier_of id d' = tier_of id d.

(** From [d] to [d'] at most the subscriptions and the row of the account
    [target] have changed. *)
Definition shape (target : option string) (d d' : db) : Prop :=
  exists F ss',
    d' = {| profiles := match target with
                        | Some uid => alter F uid (profiles d)
                        | None => profiles d
                        end;
            usage_logs := usage_logs d; subscriptions := ss'; prices := prices d |}.

(** The row of an account after a refill to [lim] on tier [tier] with
    status [st]: balance and limit are both [lim]. *)
Definition refilled (tier : string) (lim : Z) (st : string) (p : profile) : profile :=
  {| email := email p; username := username p;
     subscription_tier := Some tier; subscription_status := Some st;
     stripe_customer_id := stripe_customer_id p;
     usage_credits := Some lim; usage_limit := lim |}.

(** A balance is NULL, or an integer that is not negative and fits
    PostgreSQL's INTEGER. *)
Definition balance_sound (c : option Z) : Prop :=
  match c with
  | Some z => 0 <= z /\ int4 z = true
  | None => True
  end.

(** No stored balance is negative, and every stored balance and limit fits
    PostgreSQL's INTEGER. *)
Definition ledger_sound (d : db) : Prop :=
  forall id p, profiles d !! id = Some p ->
    balance_sound (usage_credits p) /\ int4 (usage_limit p) = true.

(** One request to the system, with the conditions it meets. *)
Inductive operation :=
| Spend (f : ApiStripe.faults) (data : ApiStripe.usage_request)
| Deliver (c : Webhook.conditions) (request : Webhook.webhook_request)
| NewCustomer (c : Billing.conditions) (data : Billing.customer_request)
| Subscribe (c : Billing.conditions) (data : Billing.subscription_request)
| Cancel (c : Billing.conditions) (data : Billing.cancel_request).

Definition perform (op : operation) (d : db) : db :=
  match op with
  | Spend f data => snd (ApiStripe.recordUsage f data d)
  | Deliver c request => snd (Webhook.action c request d)
  | NewCustomer c data => snd (Billing.createCustomer c data d)
  | Subscribe c data => snd (Billing.createSubscription c data d)
  | Cancel c data => snd (Billing.cancelSubscription c data d)
  end.

(** Requests served one after the other. *)
Definition perform_all (ops : list operation) (d : db) : db :=
  fold_left (fun d op => perform op d) ops d.

(** The account the webhook attributes an event to: the [userId] of the
    subscription's metadata, or the owner of the invoice's subscription row. *)
Definition event_user (event : Webhook.stripe_event) (d : db) : option string :=
  match Webhook.data event with
  | Webhook.SubscriptionCreated s => Webhook.some_text (Webhook.metadata_userId s)
  | Webhook.SubscriptionUpdated s _ => Webhook.some_text (Webhook.metadata_userId s)
  | Webhook.SubscriptionDeleted s => Webhook.some_text (Webhook.metadata_userId s)
  | Webhook.InvoicePaymentSucceeded i =>
      match Webhook.some_text (Webhook.inv_subscription i) with
      | Some sid => sub_user_id <$> subscriptions d !! sid
      | None => None
      end
  | Webhook.InvoicePaymentFailed i =>
      match Webhook.some_text (Webhook.inv_subscription i) with
      | Some sid => sub_user_id <$> subscriptions d !! sid
      | None => None
      end
  | Webhook.OtherEvent _ => None
  end.

End Ledger.

(* ===================================================================== *)
(** ** More concrete events and conditions *)
(* ===================================================================== *)

Module Examples.
Import JsError Store.

Definition created_active : Webhook.stripe_event :=
  {| Webhook.event_id := "evt_5"; Webhook.created := 1700000000;
     Webhook.data := Webhook.SubscriptionCreated (Scenario.subscription_1 "active") |}.

(** [sub_1] leaves its trial: an update into [active]. *)
Definition trial_ended : Webhook.stripe_event :=
  {| Webhook.event_id := "evt_6"; Webhook.created := 1700000600;
     Webhook.data :=
       Webhook.SubscriptionUpdated (Scenario.subscription_1 "active") (Some "trialing") |}.

Definition invoice_failed : Webhook.stripe_event :=
  {| Webhook.event_id := "evt_7"; Webhook.created := 1700000700;
     Webhook.data := Webhook.InvoicePaymentFailed
                       {| Webhook.inv_subscription := Some "sub_1";
                          Webhook.inv_customer := Some "cus_1" |} |}.

(** The store works, except that the update that refills credits fails. *)
Definition refill_fails : Webhook.conditions :=
  {| Webhook.fail_upsert_subscription := false; Webhook.fail_end_subscription := false;
     Webhook.fail_select_subscription := false; Webhook.fail_update_status := false;
     Webhook.fail_select_price := false; Webhook.fail_reset_credits := true;
     Webhook.retrieve := Scenario.stripe_knows |}.

(** A store and a Stripe that work; Stripe answers with [sub_1]. *)
Definition billing_works : Billing.conditions :=
  {| Billing.fail_select_customer := false; Billing.fail_update_customer := false;
     Billing.fail_insert_subscription := false; Billing.fail_select_price := false;
     Billing.fail_update_profile := false; Billing.fail_update_subscription := false;
     Billing.customers_create := Returned "cus_new";
     Billing.subscriptions_create := Returned (Scenario.subscription_1 "incomplete");
     Billing.subscriptions_update := Returned (Scenario.subscription_1 "active");
     Billing.now := 1700000800000 |}.

(** The free account [u1], whose subscription row [sub_1] is in the store. *)
Definition store_with_subscription (credits : Z) : db :=
  {| profiles := {[ "u1" := Scenario.free_profile credits 10 ]};
     usage_logs := [];
     subscriptions := {[ "sub_1" := Scenario.sub_row_1 ]};
     prices := Scenario.catalogue |}.

Definition customer_of_u1 : Billing.customer_request :=
  {| Billing.cr_userId := "u1"; Billing.cr_email := "ada@example.com";
     Billing.cr_name := None |}.

Definition subscribe_u1 : Billing.subscription_request :=
  {| Billing.sr_customerId := "cus_1"; Billing.sr_priceId := "price_premium";
     Billing.sr_userId := "u1" |}.

End Examples.

(* ===================================================================== *)
(** ** Theorems: numbers *)
(* ===================================================================== *)

Section NumberFacts.
Import JsNumber Store.

Lemma integer_of_Z (z : Z) : integer (of_Z z) = Some z.
Proof.
  unfold integer, of_Z, inject_Z. cbn [Qnum Qden].
  by rewrite Z.mod_1_r, Z.div_1_r.
Qed.

(** A number that is an integer is that integer over its denominator. *)
Lemma integer_num (q : Q) (z : Z) :
  integer (Finite q) = Some z -> Qnum q = z * Zpos (Qden q).
Proof.
  unfold integer. destruct (Z.eqb_spec (Qnum q mod Zpos (Qden q)) 0) as [Hm|]; [|done].
  intros [= <-]. rewrite Z.mul_comm. by apply Z_div_exact_full_2.
Qed.

Lemma integer_Finite (n : number) (z : Z) :
  integer n = Some z -> exists q, n = Finite q.
Proof. destruct n; try done. by eexists. Qed.

(** [b < n] for an integer [n]. *)
Lemma lt_integer (b : Z) (n : number) (z : Z) :
  integer n = Some z -> lt (of_Z b) n = (b <? z).
Proof.
  intros H. destruct (integer_Finite n z H) as [q ->].
  apply integer_num in H. unfold lt, of_Z, Qlt_bool, inject_Z. cbn [Qnum Qden].
  rewrite H. pose proof (Pos2Z.is_pos (Qden q)).
  destruct (Z.ltb_spec (b * Z.pos (Qden q)) (z * Z.pos (Qden q) * 1)),
    (Z.ltb_spec b z); try done; nia.
Qed.

(** [b >= n] for an integer [n]. *)
Lemma ge_integer (b : Z) (n : number) (z : Z) :
  integer n = Some z -> ge (of_Z b) n = (z <=? b).
Proof.
  intros H. destruct (integer_Finite n z H) as [q Hq].
  unfold ge. rewrite (lt_integer b n z H). subst n. unfold of_Z.
  destruct (Z.ltb_spec b z), (Z.leb_spec z b); try done; lia.
Qed.

(** [b - n] for an integer [n]. *)
Lemma sub_integer (b : Z) (n : number) (z : Z) :
  integer n = Some z -> integer (sub (of_Z b) n) = Some (b - z).
Proof.
  intros H. destruct (integer_Finite n z H) as [q ->].
  apply integer_num in H. unfold sub, of_Z, integer, inject_Z, Qminus, Qplus, Qopp.
  cbn [Qnum Qden]. rewrite H.
  replace (b * Z.pos (Qden q) + - (z * Z.pos (Qden q)) * 1)
    with ((b - z) * Z.pos (1 * Qden q)) by (cbn [Pos.mul]; lia).
  rewrite Z_mod_mult, Z_div_mult by done. done.
Qed.

Lemma integer_column_integer (n : number) (z : Z) :
  integer n = Some z -> integer_column n = if int4 z then Some (Some z) else None.
Proof.
  intros H. destruct (integer_Finite n z H) as [q ->].
  unfold integer_column. cbn [stringify]. by rewrite H.
Qed.

Lemma integer_column_of_Z (z : Z) :
  integer_column (of_Z z) = if int4 z then Some (Some z) else None.
Proof. apply integer_column_integer, integer_of_Z. Qed.

(** What an INTEGER column stores is an integer of 32 bits that the number
    is, or NULL for a number that is not finite. *)
Lemma integer_column_Some (n : number) (v : option Z) :
  integer_column n = Some v ->
  match v with
  | Some z => integer n = Some z /\ int4 z = true
  | None => n = Infinity \/ n = NegInfinity \/ n = NaN
  end.
Proof.
  unfold integer_column. destruct n as [q| | |]; cbn [stringify].
  - destruct (integer (Finite q)) as [z|]; [|done].
    destruct (int4 z) eqn:Hr; [|done]. by intros [= <-].
  - intros [= <-]. by left.
  - intros [= <-]. by right; left.
  - intros [= <-]. by right; right.
Qed.

(** The balance the route writes after a spend of the integer [z]. *)
Lemma integer_column_sub (b : Z) (n : number) (z : Z) :
  integer n = Some z ->
  integer_column (sub (of_Z b) n) = if int4 (b - z) then Some (Some (b - z)) else None.
Proof. intros H. by apply integer_column_integer, sub_integer. Qed.

(** [b < n + m] when [n] is the integer [z]: the same as [b - z < m]. *)
Lemma lt_add_integer (b : Z) (n m : number) (z : Z) :
  integer n = Some z -> lt (of_Z b) (add n m) = lt (of_Z (b - z)) m.
Proof.
  intros H. destruct (integer_Finite n z H) as [q ->].
  apply integer_num in H. destruct m as [r| | |]; try done.
  unfold add, lt, of_Z, Qlt_bool, inject_Z, Qplus. cbn [Qnum Qden].
  rewrite H, Pos2Z.inj_mul.
  pose proof (Pos2Z.is_pos (Qden q)). pose proof (Pos2Z.is_pos (Qden r)).
  destruct (Z.ltb_spec (b * (Z.pos (Qden q) * Z.pos (Qden r)))
              ((z * Z.pos (Qden q) * Z.pos (Qden r) + Qnum r * Z.pos (Qden q)) * 1)),
    (Z.ltb_spec ((b - z) * Z.pos (Qden r)) (Qnum r * 1)); try done; nia.
Qed.

End NumberFacts.

(* ===================================================================== *)
(** ** Theorems: strings and tier policy *)
(* ===================================================================== *)

Section StringFacts.
Import JsString.

Lemma toLowerCase_append (a b : string) :
  toLowerCase (String.append a b) = String.append (toLowerCase a) (toLowerCase b).
Proof.
  induction a as [|c a IH]; simpl; [reflexivity|]. by rewrite IH.
Qed.

Lemma toLowerCase_split (s a b : string) :
  toLowerCase s = String.append a b ->
  exists s1 s2, s = String.append s1 s2 /\ toLowerCase s1 = a /\ toLowerCase s2 = b.
Proof.
  revert s. induction a as [|c a IH]; intros s H; simpl in H.
  - exists EmptyString, s. auto.
  - destruct s as [|d s]; simpl in H; [discriminate|].
    injection H as Hc Hs. destruct (IH _ Hs) as (s1 & s2 & -> & H1 & H2).
    exists (String d s1), s2. simpl. rewrite Hc, H1. auto.
Qed.

Lemma startsWith_spec (p s : string) :
  startsWith p s = true <-> exists r, s = String.append p r.
Proof.
  revert s. induction p as [|a p IH]; intros s; simpl.
  - split; [intros _; by exists s | done].
  - destruct s as [|b s].
    + split; [discriminate | intros [r Hr]; discriminate].
    + rewrite andb_true_iff, Ascii.eqb_eq, IH. split.
      * intros [-> [r ->]]. by exists r.
      * intros [r Hr]. injection Hr as -> ->. split; [done | by exists r].
Qed.

Lemma includes_spec (s sub : string) :
  includes s sub = true <->
  exists pre post, s = String.append pre (String.append sub post).
Proof.
  induction s as [|c s IH].
  - simpl. rewrite orb_false_r, startsWith_spec. split.
    + intros [r Hr]. by exists EmptyString, r.
    + intros (pre & post & H). destruct pre; [by exists post | discriminate].
  - cbn [includes]. rewrite orb_true_iff, startsWith_spec, IH. split.
    + intros [[r Hr] | (pre & post & ->)].
      * by exists EmptyString, r.
      * by exists (String c pre), post.
    + intros (pre & post & H). destruct pre as [|d pre].
      * left. by exists post.
      * right. simpl in H. injection H as _ ->. by exists pre, post.
Qed.

(** The resolver's test [name.toLowerCase().includes(sub)] is the
    case-insensitive substring test. *)
Lemma includes_lower_spec (s sub : string) :
  includes (toLowerCase s) sub = true <-> contains_ci s sub.
Proof.
  rewrite includes_spec. unfold contains_ci. split.
  - intros (pre & post & H).
    apply toLowerCase_split in H as (s1 & s23 & -> & H1 & H23).
    apply toLowerCase_split in H23 as (s2 & s3 & -> & H2 & H3).
    by exists s1, s2, s3.
  - intros (pre & mid & post & -> & <-).
    exists (toLowerCase pre), (toLowerCase post).
    by rewrite !toLowerCase_append.
Qed.

Lemma includes_lower_false (s sub : string) :
  includes (toLowerCase s) sub = false <-> ~ contains_ci s sub.
Proof.
  rewrite <- includes_lower_spec. destruct (includes _ _); split; done.
Qed.

End StringFacts.

(* ===================================================================== *)
(** ** Theorems: tier resolution *)
(* ===================================================================== *)

Section TierFacts.
Import JsString TierPolicy.

Lemma resolve_named (price : option price_row) (nm : string) :
  product_name price = Some nm ->
  resolve price =
    if includes (toLowerCase nm) "premium" then ("premium", 2000)
    else if includes (toLowerCase nm) "enterprise" then ("enterprise", 10000)
    else ("basic", 500).
Proof.
  intros H. unfold resolve. rewrite H. destruct nm; reflexivity.
Qed.

Lemma resolve_routes_agree (price : option price_row) :
  resolve_createSubscription price = resolve price.
Proof.
  unfold resolve_createSubscription, resolve_tier, resolve.
  destruct (product_name price) as [nm|]; [|reflexivity].
  destruct (truthy nm); [|reflexivity]. cbn zeta.
  destruct (includes (toLowerCase nm) "premium"); [reflexivity|].
  destruct (includes (toLowerCase nm) "enterprise"); reflexivity.
Qed.

End TierFacts.

(** C7, as stated, fails: a product name that contains "enterprise" does not
    always resolve to (enterprise, 10000).  "Enterprise Premium" contains
    "enterprise" and resolves to (premium, 2000), because the resolver tests
    "premium" first. *)
Lemma C7_enterprise_name_resolves_to_premium :
  JsString.contains_ci "Enterprise Premium" "enterprise" /\
  TierPolicy.resolve (TierPolicy.named "Enterprise Premium") = ("premium", 2000) /\
  TierPolicy.resolve (TierPolicy.named "Enterprise Premium") <> ("enterprise", 10000).
Proof.
  split; [|split].
  - exists "", "Enterprise", " Premium". split; reflexivity.
  - reflexivity.
  - discriminate.
Qed.

(** C7, amended: tier resolution classifies a product name by
    case-insensitive substring match, "premium" first: a name containing
    "premium" resolves to (premium, 2000); a name containing "enterprise" but
    not "premium" resolves to (enterprise, 10000); every other input --
    a name with neither, an empty name, missing price or product data --
    resolves to (basic, 500).  Both copies of the resolver (webhook and
    createSubscription) agree, "Acme Premium Plan" resolves to (premium, 2000)
    and "Acme Basic" to (basic, 500). *)
Theorem C7_tier_resolution (price : option TierPolicy.price_row) :
  (forall nm, TierPolicy.product_name price = Some nm ->
     JsString.contains_ci nm "premium" ->
     TierPolicy.resolve price = ("premium", 2000)) /\
  (forall nm, TierPolicy.product_name price = Some nm ->
     JsString.contains_ci nm "enterprise" -> ~ JsString.contains_ci nm "premium" ->
     TierPolicy.resolve price = ("enterprise", 10000)) /\
  (forall nm, TierPolicy.product_name price = Some nm ->
     ~ JsString.contains_ci nm "premium" -> ~ JsString.contains_ci nm "enterprise" ->
     TierPolicy.resolve price = ("basic", 500)) /\
  (TierPolicy.product_name price = None -> TierPolicy.resolve price = ("basic", 500)) /\
  TierPolicy.resolve_createSubscription price = TierPolicy.resolve price /\
  TierPolicy.resolve (TierPolicy.named "Acme Premium Plan") = ("premium", 2000) /\
  TierPolicy.resolve (TierPolicy.named "Acme Basic") = ("basic", 500).
Proof.
  repeat split.
  - intros nm Hn Hp. rewrite (resolve_named _ _ Hn).
    apply includes_lower_spec in Hp. by rewrite Hp.
  - intros nm Hn He Hp. rewrite (resolve_named _ _ Hn).
    apply includes_lower_spec in He. apply includes_lower_false in Hp.
    by rewrite Hp, He.
  - intros nm Hn Hp He. rewrite (resolve_named _ _ Hn).
    apply includes_lower_false in Hp, He. by rewrite Hp, He.
  - intros Hn. unfold TierPolicy.resolve. by rewrite Hn.
  - apply resolve_routes_agree.
Qed.

Lemma C7_tier_resolution_witness :
  TierPolicy.resolve (TierPolicy.named "Gold ENTERPRISE") = ("enterprise", 10000).
Proof.
  apply (proj1 (proj2 (C7_tier_resolution (TierPolicy.named "Gold ENTERPRISE")))
           "Gold ENTERPRISE").
  - reflexivity.
  - exists "Gold ", "ENTERPRISE", "". split; reflexivity.
  - apply includes_lower_false. reflexivity.
Defined.

(* ===================================================================== *)
(** ** Theorems: the spend path *)
(* ===================================================================== *)

Section SpendFacts.
Import JsString JsNumber Store ApiStripe.

Lemma insert_usage_log_Some fl data cu d d1 :
  insert_usage_log fl (userId data) (actionType data) cu (req_metadata data) d = Some d1 ->
  exists v p, integer_column cu = Some v /\ profiles d !! userId data = Some p /\
              d1 = logged data v p d /\
              match minus_null (usage_credits p) v with
              | Some z => int4 z = true
              | None => True
              end.
Proof.
  unfold insert_usage_log. destruct (integer_column cu) as [v|]; [|discriminate].
  unfold insert_usage_log_row. destruct fl; [discriminate|]. cbn [user_id].
  destruct (profiles d !! userId data) as [p|] eqn:Hp; [|discriminate].
  unfold update_usage_credits. cbn [user_id credits_used with_usage_logs profiles].
  rewrite Hp. destruct (minus_null (usage_credits p) v) as [z|] eqn:Hm.
  - destruct (int4 z) eqn:Hr; [|discriminate]. intros [= <-]. exists v, p.
    unfold logged. by rewrite Hm.
  - intros [= <-]. exists v, p. unfold logged. by rewrite Hm.
Qed.

(** On a store whose log has the entry, the route's own update writes the
    balance it computed. *)
Lemma update_after_insert data v p d n c :
  integer_column n = Some c ->
  update_usage_credits_to false (userId data) n (logged data v p d)
    = Some (charged data v c p d).
Proof.
  intros Hn. unfold update_usage_credits_to, update_profile, update_in_range.
  rewrite Hn. cbn [credits_update set_usage_credits set_usage_limit].
  assert (match c with Some z => int4 z | None => true end = true) as ->.
  { apply integer_column_Some in Hn. destruct c; [by destruct Hn|done]. }
  cbn. unfold logged, charged, with_profiles, with_usage_logs. cbn.
  do 2 f_equal. by rewrite alter_insert_eq.
Qed.

(** Every run of [recordUsage] either leaves the store as it was and is
    not accepted, or appends its entry; it then either writes the balance
    it computed and replies success, or fails at that last update and leaves
    the balance the trigger wrote. *)
Lemma recordUsage_run f data d :
  (snd (recordUsage f data d) = d /\ accepted (fst (recordUsage f data d)) = false) \/
  exists cu v p,
    creditsUsed data = Some cu /\ integer_column cu = Some v /\
    profiles d !! userId data = Some p /\
    lt (of_column (usage_credits p)) cu = false /\
    match minus_null (usage_credits p) v with Some z => int4 z = true | None => True end /\
    ((exists c,
        integer_column (sub (of_column (usage_credits p)) cu) = Some c /\
        recordUsage f data d =
          (json (Recorded cu (sub (of_column (usage_credits p)) cu) (usage_limit p)) 200,
           charged data v c p d)) \/
     (recordUsage f data d =
        (json (Error "Failed to update credits") 500, logged data v p d) /\
      (fail_update_credits f = true \/
       integer_column (sub (of_column (usage_credits p)) cu) = None))).
Proof.
  unfold recordUsage. destruct (missing_input data); [by left|].
  destruct (creditsUsed data) as [cu|]; [|by left].
  unfold select_profile. destruct (fail_select_profile f); [by left|].
  destruct (profiles d !! userId data) as [p|] eqn:Hp; [|by left].
  destruct (lt (of_column (usage_credits p)) cu) eqn:Hlt; [by left|].
  destruct (insert_usage_log _ _ _ _ _ d) as [d1|] eqn:Hi; [|by left].
  apply insert_usage_log_Some in Hi as (v & p' & Hv & Hp' & -> & Ht).
  assert (p' = p) as -> by congruence.
  right. exists cu, v, p.
  split; [done|]. split; [done|]. split; [done|]. split; [done|]. split; [done|].
  destruct (integer_column (sub (of_column (usage_credits p)) cu)) as [c|] eqn:Hc.
  - destruct (fail_update_credits f) eqn:Hf.
    + right. unfold update_usage_credits_to, update_profile. rewrite Hc. by auto.
    + left. exists c. split; [done|]. by rewrite (update_after_insert data v p d _ c Hc).
  - right. unfold update_usage_credits_to. rewrite Hc. by auto.
Qed.

(** An entry with an integer in [credits_used]: the balance covered it, and
    the balance the route computes is the one lower by it. *)
Lemma covered_integer (p : profile) (cu : number) (z : Z) :
  integer_column cu = Some (Some z) ->
  lt (of_column (usage_credits p)) cu = false ->
  integer cu = Some z /\ int4 z = true /\ z <= to_Z (usage_credits p) /\
  integer_column (sub (of_column (usage_credits p)) cu) =
    if int4 (to_Z (usage_credits p) - z) then Some (Some (to_Z (usage_credits p) - z))
    else None.
Proof.
  intros Hv Hlt. apply integer_column_Some in Hv as [Hz Hr].
  unfold of_column in *. rewrite (lt_integer _ _ _ Hz) in Hlt.
  rewrite (integer_column_sub _ _ _ Hz).
  repeat split; try done. by apply Z.ltb_ge.
Qed.

(** An entry with NULL in [credits_used]: the amount was [-Infinity] or
    NaN, and the balance the route computes is NULL. *)
Lemma covered_null (p : profile) (cu : number) :
  integer_column cu = Some None ->
  lt (of_column (usage_credits p)) cu = false ->
  (cu = NegInfinity \/ cu = NaN) /\
  integer_column (sub (of_column (usage_credits p)) cu) = Some None.
Proof.
  intros Hv Hlt. apply integer_column_Some in Hv as [-> | [-> | ->]]; try done; auto.
Qed.

(** The outcomes of a call, told apart by what the entry holds. *)
Lemma recordUsage_cases f data d :
  (snd (recordUsage f data d) = d /\ accepted (fst (recordUsage f data d)) = false) \/
  (exists cu z p,
     creditsUsed data = Some cu /\ integer cu = Some z /\ int4 z = true /\
     profiles d !! userId data = Some p /\ z <= to_Z (usage_credits p) /\
     int4 (to_Z (usage_credits p) - z) = true /\
     recordUsage f data d =
       (json (Recorded cu (sub (of_column (usage_credits p)) cu) (usage_limit p)) 200,
        spent data z p d)) \/
  (exists cu p,
     creditsUsed data = Some cu /\ (cu = NegInfinity \/ cu = NaN) /\
     profiles d !! userId data = Some p /\
     recordUsage f data d =
       (json (Recorded cu (sub (of_column (usage_credits p)) cu) (usage_limit p)) 200,
        charged data None None p d)) \/
  (exists cu v p,
     creditsUsed data = Some cu /\ integer_column cu = Some v /\
     profiles d !! userId data = Some p /\
     recordUsage f data d =
       (json (Error "Failed to update credits") 500, logged data v p d) /\
     (forall z, v = Some z -> integer cu = Some z /\ z <= to_Z (usage_credits p)) /\
     (v = None -> cu = NegInfinity \/ cu = NaN) /\
     (fail_update_credits f = true \/ (usage_credits p = None /\ v <> None))).
Proof.
  destruct (recordUsage_run f data d)
    as [H|(cu & v & p & Hcu & Hv & Hp & Hlt & Ht & [(c & Hc & Hr) | [Hr Hf]])];
    [by left|..].
  - destruct v as [z|].
    + destruct (covered_integer p cu z Hv Hlt) as (Hz & Hi & Hle & Hs).
      rewrite Hs in Hc. destruct (int4 _) eqn:Hr2; [|done]. injection Hc as <-.
      right; left. by exists cu, z, p.
    + destruct (covered_null p cu Hv Hlt) as (Hn & Hs).
      rewrite Hs in Hc. injection Hc as <-.
      right; right; left. by exists cu, p.
  - right; right; right. exists cu, v, p.
    split; [done|]. split; [done|]. split; [done|]. split; [done|].
    split; [|split].
    + intros z ->. by destruct (covered_integer p cu z Hv Hlt) as (? & _ & ? & _).
    + intros ->. by destruct (covered_null p cu Hv Hlt).
    + destruct Hf as [Hf|Hf]; [by left|]. right.
      destruct v as [z|].
      * destruct (covered_integer p cu z Hv Hlt) as (Hz & Hi & Hle & Hs).
        rewrite Hs in Hf. destruct (int4 (to_Z (usage_credits p) - z)) eqn:Hr2; [done|].
        split; [|done]. destruct (usage_credits p) as [b|]; [|done].
        cbn in Ht, Hr2. congruence.
      * destruct (covered_null p cu Hv Hlt) as (_ & Hs). congruence.
Qed.

Lemma recordUsage_accepted f data d :
  accepted (fst (recordUsage f data d)) = true ->
  exists cu p,
    creditsUsed data = Some cu /\ profiles d !! userId data = Some p /\
    ((exists z, integer cu = Some z /\ int4 z = true /\ z <= to_Z (usage_credits p) /\
                int4 (to_Z (usage_credits p) - z) = true /\
                snd (recordUsage f data d) = spent data z p d) \/
     ((cu = NegInfinity \/ cu = NaN) /\
      snd (recordUsage f data d) = charged data None None p d)).
Proof.
  intros Ha.
  destruct (recordUsage_cases f data d)
    as [[_ Hn]|[(cu & z & p & H1 & H2 & H3 & H4 & H5 & H6 & Hr)
               |[(cu & p & H1 & H2 & H3 & Hr)|(cu & v & p & _ & _ & _ & Hr & _)]]].
  - congruence.
  - exists cu, p. repeat split; [done..|]. left. exists z. by rewrite Hr.
  - exists cu, p. repeat split; [done..|]. right. by rewrite Hr.
  - by rewrite Hr in Ha.
Qed.

Lemma charged_lookup data v c p d id :
  profiles (charged data v c p d) !! id =
    if decide (userId data = id)
    then Some (apply_update (credits_update c) p)
    else profiles d !! id.
Proof. unfold charged. cbn [profiles with_profiles]. apply lookup_insert. Qed.

Lemma spent_lookup data cu p d id :
  profiles (spent data cu p d) !! id =
    if decide (userId data = id)
    then Some (apply_update (credits_update (Some (to_Z (usage_credits p) - cu))) p)
    else profiles d !! id.
Proof. apply charged_lookup. Qed.

Lemma logged_lookup data v p d id :
  profiles (logged data v p d) !! id =
    if decide (userId data = id)
    then Some (apply_update (credits_update (minus_null (usage_credits p) v)) p)
    else profiles d !! id.
Proof. apply charged_lookup. Qed.

(** The store after a call, whatever its outcome: as it was, or with the
    call's entry and a balance for the spender that is NULL or not
    negative when the spender's balance was. *)
Lemma recordUsage_store f data d :
  snd (recordUsage f data d) = d \/
  exists v c p,
    profiles d !! userId data = Some p /\
    snd (recordUsage f data d) = charged data v c p d /\
    ((forall b, usage_credits p = Some b -> 0 <= b) -> forall z, c = Some z -> 0 <= z).
Proof.
  destruct (recordUsage_cases f data d)
    as [[H _]|[(cu & z & p & H1 & H2 & H3 & H4 & H5 & H6 & Hr)
              |[(cu & p & H1 & H2 & H3 & Hr)|(cu & v & p & H1 & H2 & H3 & Hr & H4 & H5 & _)]]].
  - by left.
  - right. exists (Some z), (Some (to_Z (usage_credits p) - z)), p.
    rewrite Hr. repeat split; [done..|]. intros _ ? [= <-]. lia.
  - right. exists None, None, p. rewrite Hr. by repeat split.
  - right. exists v, (minus_null (usage_credits p) v), p. rewrite Hr.
    repeat split; [done..|]. intros Hb z'.
    destruct (usage_credits p) as [b|] eqn:Eb; [|done]. destruct v as [z|]; [|done].
    cbn. intros [= <-]. destruct (H4 z eq_refl) as [_ Hle]. cbn in Hle. lia.
Qed.

Lemma recordUsage_nonneg f data d id :
  balance_nonneg id d -> balance_nonneg id (snd (recordUsage f data d)).
Proof.
  intros Hd.
  destruct (recordUsage_store f data d) as [-> | (v & c & p & Hp & -> & Hc)]; [done|].
  intros q z. rewrite charged_lookup. case_decide as Hid.
  - intros [= <-]. cbn. subst id. apply Hc. intros b. by apply Hd.
  - apply Hd.
Qed.

Lemma spend_all_nonneg calls d id :
  balance_nonneg id d -> balance_nonneg id (spend_all calls d).
Proof.
  revert d. induction calls as [|[f data] calls IH]; intros d Hd; [done|].
  cbn. apply IH. by apply recordUsage_nonneg.
Qed.

(** A handler that runs alone, await by await, is [recordUsage]. *)
Lemma steps_alone f data d :
  steps 3 f (Received data) d =
    (Replied (fst (recordUsage f data d)), snd (recordUsage f data d)).
Proof.
  unfold recordUsage. cbn [steps step].
  destruct (missing_input data); [done|].
  destruct (creditsUsed data) as [cu|]; [|done].
  destruct (select_profile _ _ _) as [p|]; [|done]. cbn [step].
  destruct (lt _ _); [done|].
  destruct (insert_usage_log _ _ _ _ _ d) as [d1|]; [|done]. cbn [step].
  by destruct (update_usage_credits_to _ _ _ _).
Qed.

(** A run of turns of one handler is that handler stepping alone. *)
Lemma run_first n f1 f2 w :
  run_schedule f1 f2 (replicate n First) w =
  {| first := fst (steps n f1 (first w) (store w)); second := second w;
     store := snd (steps n f1 (first w) (store w)) |}.
Proof.
  revert w. induction n as [|n IH]; intros w; [by destruct w|].
  unfold run_schedule in *. cbn [replicate fold_left steps]. rewrite IH.
  unfold sched_step. by destruct (step f1 (first w) (store w)).
Qed.

Lemma run_second n f1 f2 w :
  run_schedule f1 f2 (replicate n Second) w =
  {| first := first w; second := fst (steps n f2 (second w) (store w));
     store := snd (steps n f2 (second w) (store w)) |}.
Proof.
  revert w. induction n as [|n IH]; intros w; [by destruct w|].
  unfold run_schedule in *. cbn [replicate fold_left steps]. rewrite IH.
  unfold sched_step. by destruct (step f2 (second w) (store w)).
Qed.

(** Run one after the other, two handlers are two calls of [recordUsage]. *)
Lemma run_one_after_the_other f1 f2 a b d :
  run_schedule f1 f2 one_after_the_other
    {| first := Received a; second := Received b; store := d |} =
  {| first := Replied (fst (recordUsage f1 a d));
     second := Replied (fst (recordUsage f2 b (snd (recordUsage f1 a d))));
     store := snd (recordUsage f2 b (snd (recordUsage f1 a d))) |}.
Proof.
  change one_after_the_other with (replicate 3 First ++ replicate 3 Second)%list.
  unfold run_schedule. rewrite fold_left_app.
  fold (run_schedule f1 f2 (replicate 3 First)
          {| first := Received a; second := Received b; store := d |}).
  rewrite run_first. cbn [first second store].
  fold (run_schedule f1 f2 (replicate 3 Second)
          {| first := fst (steps 3 f1 (Received a) d); second := Received b;
             store := snd (steps 3 f1 (Received a) d) |}).
  rewrite run_second. cbn [first second store].
  by rewrite !steps_alone.
Qed.

End SpendFacts.

Section SpendWorkingFacts.
Import JsString JsNumber Store ApiStripe.

(** With the store working, a spend of an integer that the balance covers
    and that fits the INTEGER columns is accepted. *)
Lemma recordUsage_spends f data d p cu z :
  truthy (userId data) = true -> truthy (actionType data) = true ->
  creditsUsed data = Some cu -> integer cu = Some z ->
  profiles d !! userId data = Some p ->
  fail_select_profile f = false -> fail_insert_log f = false ->
  fail_update_credits f = false ->
  z <= to_Z (usage_credits p) -> int4 z = true ->
  int4 (to_Z (usage_credits p) - z) = true ->
  recordUsage f data d =
    (json (Recorded cu (sub (of_column (usage_credits p)) cu) (usage_limit p)) 200,
     spent data z p d).
Proof.
  intros Hu Ha Hc Hz Hp Hf1 Hf2 Hf3 Hle Hi Hr.
  unfold recordUsage, missing_input, select_profile.
  rewrite Hu, Ha, Hc, Hf1, Hp, Hf2, Hf3. cbn [negb orb].
  unfold of_column. rewrite (lt_integer _ _ _ Hz).
  destruct (Z.ltb_spec (to_Z (usage_credits p)) z); [lia|].
  unfold insert_usage_log, insert_usage_log_row.
  rewrite (integer_column_integer _ _ Hz), Hi. cbn [user_id]. rewrite Hp.
  unfold update_usage_credits. cbn [user_id credits_used with_usage_logs profiles].
  rewrite Hp.
  assert (match minus_null (usage_credits p) (Some z) with
          | Some z0 => int4 z0
          | None => true
          end = true) as ->.
  { destruct (usage_credits p) as [b|]; [|done]. exact Hr. }
  fold (log_row data (Some z)).
  fold (charged data (Some z) (minus_null (usage_credits p) (Some z)) p d).
  fold (logged data (Some z) p d).
  rewrite (update_after_insert data (Some z) p d _ (Some (to_Z (usage_credits p) - z))).
  - done.
  - by rewrite (integer_column_sub _ _ _ Hz), Hr.
Qed.

(** With the store working, a spend of [-Infinity] or of NaN is accepted:
    NULL is logged and NULL is left for the balance. *)
Lemma recordUsage_voids f data d p cu :
  truthy (userId data) = true -> truthy (actionType data) = true ->
  creditsUsed data = Some cu -> cu = NegInfinity \/ cu = NaN ->
  profiles d !! userId data = Some p ->
  fail_select_profile f = false -> fail_insert_log f = false ->
  fail_update_credits f = false ->
  recordUsage f data d =
    (json (Recorded cu (sub (of_column (usage_credits p)) cu) (usage_limit p)) 200,
     charged data None None p d).
Proof.
  intros Hu Ha Hc Hn Hp Hf1 Hf2 Hf3.
  unfold recordUsage, missing_input, select_profile.
  rewrite Hu, Ha, Hc, Hf1, Hp, Hf2, Hf3. cbn [negb orb].
  assert (lt (of_column (usage_credits p)) cu = false) as ->
    by (by destruct Hn as [-> | ->]).
  assert (integer_column cu = Some None) as Hv by (by destruct Hn as [-> | ->]).
  unfold insert_usage_log, insert_usage_log_row. rewrite Hv. cbn [user_id]. rewrite Hp.
  unfold update_usage_credits. cbn [user_id credits_used with_usage_logs profiles].
  rewrite Hp.
  assert (minus_null (usage_credits p) None = None) as Hm
    by (by destruct (usage_credits p)).
  rewrite Hm.
  fold (log_row data None). fold (charged data None None p d).
  replace (charged data None None p d) with (logged data None p d)
    by (unfold logged; by rewrite Hm).
  rewrite (update_after_insert data None p d _ None).
  - unfold logged. by rewrite Hm.
  - by destruct Hn as [-> | ->].
Qed.

(** The status of the route's reply is 400 only for the missing-input
    reply. *)
Lemma recordUsage_400 f data d :
  http_status (fst (recordUsage f data d)) = 400%nat <-> missing_input data = true.
Proof.
  unfold recordUsage. destruct (missing_input data) eqn:Hm; [done|].
  unfold missing_input in Hm.
  destruct (creditsUsed data) as [cu|]; [|by rewrite !orb_true_r in Hm].
  destruct (select_profile _ _ _) as [p|]; [|done].
  destruct (lt _ _); [done|].
  destruct (insert_usage_log _ _ _ _ _ _); [|done].
  by destruct (update_usage_credits_to _ _ _ _).
Qed.

End SpendWorkingFacts.

(** C2: when spend is called with creditsUsed strictly greater than the
    account's current balance, the store is left exactly as it was -- no
    usage_logs entry, no change of usage_credits -- whatever the store
    conditions; and the call, for a request that names its user and action
    and whose read of the account succeeds, fails with 403 "Insufficient
    credits" carrying the account's current balance.  creditsUsed is any
    number, [Infinity] included, and the comparison is the route's own, in
    which a NULL balance counts as 0. *)
Theorem C2_insufficient_credits_no_mutation
    (f : ApiStripe.faults) (data : ApiStripe.usage_request) (d : Store.db)
    (p : Store.profile) (cu : JsNumber.number) :
  ApiStripe.creditsUsed data = Some cu ->
  Store.profiles d !! ApiStripe.userId data = Some p ->
  JsNumber.lt (JsNumber.of_column (Store.usage_credits p)) cu = true ->
  snd (ApiStripe.recordUsage f data d) = d /\
  ApiStripe.accepted (fst (ApiStripe.recordUsage f data d)) = false /\
  (JsString.truthy (ApiStripe.userId data) = true ->
   JsString.truthy (ApiStripe.actionType data) = true ->
   ApiStripe.fail_select_profile f = false ->
   ApiStripe.insufficient (fst (ApiStripe.recordUsage f data d)) (Store.usage_credits p) /\
   ApiStripe.recordUsage f data d =
     (ApiStripe.json (ApiStripe.Insufficient "Insufficient credits" (Store.usage_credits p)) 403,
      d)).
Proof.
  intros Hc Hp Hlt.
  assert (snd (ApiStripe.recordUsage f data d) = d /\
          ApiStripe.accepted (fst (ApiStripe.recordUsage f data d)) = false) as [Hs Ha].
  { destruct (recordUsage_run f data d)
      as [H|(cu' & v & p' & Hc' & _ & Hp' & Hge & _)]; [done|].
    assert (cu' = cu) as -> by congruence. assert (p' = p) as -> by congruence.
    congruence. }
  split; [done|]. split; [done|]. intros Hu Hact Hf.
  assert (ApiStripe.recordUsage f data d =
    (ApiStripe.json (ApiStripe.Insufficient "Insufficient credits" (Store.usage_credits p)) 403, d))
    as ->; [|done].
  unfold ApiStripe.recordUsage, ApiStripe.missing_input, Store.select_profile.
  rewrite Hu, Hact, Hc, Hf, Hp. cbn [negb orb]. by rewrite Hlt.
Qed.

Lemma C2_insufficient_credits_no_mutation_witness :
  snd (ApiStripe.recordUsage ApiStripe.no_faults (Scenario.spend 8) (Scenario.store_with 5))
    = Scenario.store_with 5 /\
  ApiStripe.recordUsage ApiStripe.no_faults (Scenario.spend 8) (Scenario.store_with 5) =
    (ApiStripe.json (ApiStripe.Insufficient "Insufficient credits" (Some 5)) 403,
     Scenario.store_with 5).
Proof.
  split.
  - apply (proj1 (C2_insufficient_credits_no_mutation ApiStripe.no_faults (Scenario.spend 8)
             (Scenario.store_with 5) (Scenario.free_profile 5 10) (JsNumber.of_Z 8)
             eq_refl eq_refl eq_refl)).
  - apply (proj2 (proj2 (C2_insufficient_credits_no_mutation ApiStripe.no_faults
             (Scenario.spend 8) (Scenario.store_with 5) (Scenario.free_profile 5 10)
             (JsNumber.of_Z 8) eq_refl eq_refl eq_refl)) eq_refl eq_refl eq_refl).
Defined.

Section SpendBalanceFacts.
Import JsString JsNumber Store ApiStripe.

Lemma charged_logs data v c p d :
  usage_logs (charged data v c p d) = (usage_logs d ++ [log_row data v])%list.
Proof. done. Qed.

(** What one call does to the balance of an account: nothing, or the call
    is a spend of that account whose entry is now in the log, and which
    was accepted or failed at the route's last update. *)
Lemma recordUsage_balance f data d id :
  credits_of id (snd (recordUsage f data d)) = credits_of id d \/
  (id = userId data /\
   exists v,
     usage_logs (snd (recordUsage f data d)) = (usage_logs d ++ [log_row data v])%list /\
     (accepted (fst (recordUsage f data d)) = true \/
      update_failed (fst (recordUsage f data d))) /\
     (forall c z, credits_of id d = Some (Some c) -> v = Some z ->
        z <= c /\ credits_of id (snd (recordUsage f data d)) = Some (Some (c - z))) /\
     (v = None -> credits_of id (snd (recordUsage f data d)) = Some None)).
Proof.
  destruct (decide (userId data = id)) as [Hid|Hid].
  2:{ left. destruct (recordUsage_store f data d) as [-> | (v & c & p & _ & -> & _)];
        [done|]. unfold credits_of. by rewrite charged_lookup, decide_False. }
  subst id.
  destruct (recordUsage_cases f data d)
    as [[-> _]|[(cu & z & p & H1 & H2 & H3 & H4 & H5 & H6 & Hr)
               |[(cu & p & H1 & H2 & H3 & Hr)|(cu & v & p & H1 & H2 & H3 & Hr & H4 & H5 & _)]]].
  - by left.
  - right. split; [done|]. exists (Some z). rewrite Hr. cbn [fst snd].
    split; [done|]. split; [by left|]. unfold credits_of.
    rewrite spent_lookup, decide_True, H4 by done. cbn. split; [|done].
    intros c z' [= Hc] [= <-]. rewrite Hc in *. cbn in *. done.
  - right. split; [done|]. exists None. rewrite Hr. cbn [fst snd].
    split; [done|]. split; [by left|]. unfold credits_of.
    rewrite charged_lookup, decide_True by done. done.
  - right. split; [done|]. exists v. rewrite Hr. cbn [fst snd].
    split; [done|]. split; [by right|]. unfold credits_of.
    rewrite logged_lookup, decide_True, H3 by done. cbn. split.
    + intros c z [= Hc] ->. rewrite Hc in *. cbn.
      destruct (H4 z eq_refl) as [_ Hle]. done.
    + intros ->. by destruct (usage_credits p).
Qed.

End SpendBalanceFacts.

(** C3, as stated, fails twice.  The balance does decrease through a spend
    that is not accepted: on a balance of 10, a spend of 5 whose last store
    call (the route's own update of usage_credits) fails is answered 500
    "Failed to update credits", and the balance is 5, because the trigger on
    usage_logs has already charged the entry.  And the balance does not
    remain a number that is at least 0: a spend of -Infinity (the JSON text
    -1e400) is accepted and leaves NULL in usage_credits. *)
Lemma C3_unaccepted_spend_lowers_balance :
  Store.credits_of "u1" (Scenario.store_with 10) = Some (Some 10) /\
  ApiStripe.accepted
    (fst (ApiStripe.recordUsage Scenario.update_fails (Scenario.spend 5)
            (Scenario.store_with 10))) = false /\
  fst (ApiStripe.recordUsage Scenario.update_fails (Scenario.spend 5)
         (Scenario.store_with 10))
    = ApiStripe.json (ApiStripe.Error "Failed to update credits") 500 /\
  Store.credits_of "u1"
    (snd (ApiStripe.recordUsage Scenario.update_fails (Scenario.spend 5)
            (Scenario.store_with 10))) = Some (Some 5) /\
  ApiStripe.accepted
    (fst (ApiStripe.recordUsage ApiStripe.no_faults
            (Scenario.spend_number JsNumber.NegInfinity) (Scenario.store_with 10))) = true /\
  Store.credits_of "u1"
    (snd (ApiStripe.recordUsage ApiStripe.no_faults
            (Scenario.spend_number JsNumber.NegInfinity) (Scenario.store_with 10)))
    = Some None.
Proof. repeat split; vm_compute; reflexivity. Qed.

(** C3, amended: for every account whose balance is not negative, after
    any sequence of spend calls (for any accounts, any amounts, each under
    any store conditions) its balance is never a negative number: it is an
    integer that is at least 0, or NULL.  A further spend call changes the
    balance only when the call is a spend of that account and appends its
    entry to usage_logs; the call is then accepted, or answered 500 "Failed
    to update credits".  When the entry holds an integer the balance covered
    it and goes down by exactly that integer; when the entry holds NULL (the
    amount was not finite) the balance becomes NULL. *)
Theorem C3_balance_never_negative
    (calls : list (ApiStripe.faults * ApiStripe.usage_request)) (d : Store.db)
    (id : string) :
  ApiStripe.balance_nonneg id d ->
  ApiStripe.balance_nonneg id (ApiStripe.spend_all calls d) /\
  forall f data,
    Store.credits_of id (snd (ApiStripe.recordUsage f data (ApiStripe.spend_all calls d)))
      = Store.credits_of id (ApiStripe.spend_all calls d) \/
    (id = ApiStripe.userId data /\
     exists v,
       Store.usage_logs (snd (ApiStripe.recordUsage f data (ApiStripe.spend_all calls d)))
         = (Store.usage_logs (ApiStripe.spend_all calls d) ++ [ApiStripe.log_row data v])%list /\
       (ApiStripe.accepted
          (fst (ApiStripe.recordUsage f data (ApiStripe.spend_all calls d))) = true \/
        ApiStripe.update_failed
          (fst (ApiStripe.recordUsage f data (ApiStripe.spend_all calls d)))) /\
       (forall c z,
          Store.credits_of id (ApiStripe.spend_all calls d) = Some (Some c) -> v = Some z ->
          0 <= c /\ z <= c /\
          Store.credits_of id
            (snd (ApiStripe.recordUsage f data (ApiStripe.spend_all calls d)))
            = Some (Some (c - z))) /\
       (v = None ->
        Store.credits_of id
          (snd (ApiStripe.recordUsage f data (ApiStripe.spend_all calls d))) = Some None)).
Proof.
  intros Hd. pose proof (spend_all_nonneg calls d id Hd) as Hn. split; [done|].
  set (d0 := ApiStripe.spend_all calls d) in *. clearbody d0.
  intros f data.
  destruct (recordUsage_balance f data d0 id) as [H|(Hid & v & Hl & Ha & Hz & Hv)];
    [by left|].
  right. split; [done|]. exists v. split; [done|]. split; [done|]. split; [|done].
  intros c z Hc ->. destruct (Hz c z Hc eq_refl) as [Hle Hc'].
  split; [|done]. unfold Store.credits_of in Hc.
  destruct (Store.profiles d0 !! id) as [q|] eqn:Hq; [|done].
  injection Hc as Hc. by apply (Hn q c).
Qed.

Lemma C3_balance_never_negative_witness :
  ApiStripe.balance_nonneg "u1"
    (ApiStripe.spend_all
       [(ApiStripe.no_faults, Scenario.spend 5); (Scenario.update_fails, Scenario.spend 8);
        (ApiStripe.no_faults, Scenario.spend_number JsNumber.NegInfinity)]
       (Scenario.store_with 10)).
Proof.
  apply (C3_balance_never_negative
           [(ApiStripe.no_faults, Scenario.spend 5); (Scenario.update_fails, Scenario.spend 8);
            (ApiStripe.no_faults, Scenario.spend_number JsNumber.NegInfinity)]
           (Scenario.store_with 10) "u1").
  intros p c H. vm_compute in H. injection H as <-. intros [= <-]. lia.
Defined.

(** C9, as stated, fails: the route does not reject a spend with
    creditsUsed <= 0.  On an account with 10 credits a spend of -5 is
    accepted, logged, and raises the balance to 15; a spend of 0 is accepted
    and logged. *)
Lemma C9_nonpositive_spend_is_processed :
  ApiStripe.recordUsage ApiStripe.no_faults (Scenario.spend (-5)) (Scenario.store_with 10)
    = (ApiStripe.json
         (ApiStripe.Recorded (JsNumber.of_Z (-5)) (JsNumber.of_Z 15) 10) 200,
       ApiStripe.spent (Scenario.spend (-5)) (-5) (Scenario.free_profile 10 10)
         (Scenario.store_with 10)) /\
  Store.credits_of "u1"
    (snd (ApiStripe.recordUsage ApiStripe.no_faults (Scenario.spend (-5))
            (Scenario.store_with 10))) = Some (Some 15) /\
  Store.usage_logs
    (snd (ApiStripe.recordUsage ApiStripe.no_faults (Scenario.spend (-5))
            (Scenario.store_with 10)))
    = [ApiStripe.log_row (Scenario.spend (-5)) (Some (-5))] /\
  ApiStripe.accepted
    (fst (ApiStripe.recordUsage ApiStripe.no_faults (Scenario.spend 0)
            (Scenario.store_with 10))) = true /\
  Store.usage_logs
    (snd (ApiStripe.recordUsage ApiStripe.no_faults (Scenario.spend 0)
            (Scenario.store_with 10)))
    = [ApiStripe.log_row (Scenario.spend 0) (Some 0)].
Proof. repeat split; vm_compute; reflexivity. Qed.

(** C9, amended: the spend route validates presence and type only.  A
    request is rejected with 400 exactly when userId or actionType is
    missing or creditsUsed is not a number: the missing-input reply is given
    in that case, no other reply of the route has status 400, and a rejected
    request leaves the store unchanged (no usage_logs entry, no change of
    usage_credits).  The sign of creditsUsed is not examined: with the store
    working, a spend of an integer that is 0 or negative, by an account whose
    balance is not negative, is accepted whenever the amount and the new
    balance fit an INTEGER column; its entry is logged and the balance is
    raised by the amount. *)
Theorem C9_missing_input_rejected
    (f : ApiStripe.faults) (data : ApiStripe.usage_request) (d : Store.db) :
  (ApiStripe.missing_input data = true <->
     ApiStripe.userId data = "" \/ ApiStripe.actionType data = "" \/
     ApiStripe.creditsUsed data = None) /\
  (ApiStripe.http_status (fst (ApiStripe.recordUsage f data d)) = 400%nat <->
     ApiStripe.userId data = "" \/ ApiStripe.actionType data = "" \/
     ApiStripe.creditsUsed data = None) /\
  (ApiStripe.missing_input data = true ->
     ApiStripe.recordUsage f data d =
       (ApiStripe.json (ApiStripe.Error "User ID, action type, and credits used are required") 400,
        d)) /\
  (forall cu z p b,
     ApiStripe.userId data <> "" -> ApiStripe.actionType data <> "" ->
     ApiStripe.creditsUsed data = Some cu -> JsNumber.integer cu = Some z -> z <= 0 ->
     Store.profiles d !! ApiStripe.userId data = Some p ->
     Store.usage_credits p = Some b -> 0 <= b ->
     Store.int4 z = true -> Store.int4 (b - z) = true ->
     ApiStripe.fail_select_profile f = false -> ApiStripe.fail_insert_log f = false ->
     ApiStripe.fail_update_credits f = false ->
     ApiStripe.accepted (fst (ApiStripe.recordUsage f data d)) = true /\
     snd (ApiStripe.recordUsage f data d) = ApiStripe.spent data z p d /\
     Store.credits_of (ApiStripe.userId data) (snd (ApiStripe.recordUsage f data d))
       = Some (Some (b - z))).
Proof.
  assert (ApiStripe.missing_input data = true <->
            ApiStripe.userId data = "" \/ ApiStripe.actionType data = "" \/
            ApiStripe.creditsUsed data = None) as Hm.
  { unfold ApiStripe.missing_input.
    destruct (ApiStripe.userId data), (ApiStripe.actionType data),
      (ApiStripe.creditsUsed data); cbn; intuition congruence. }
  split; [done|]. split; [by rewrite recordUsage_400|]. split.
  - intros H. unfold ApiStripe.recordUsage. by rewrite H.
  - intros cu z p b Hu Ha Hc Hz Hle Hp Hb Hb0 Hi Hr Hf1 Hf2 Hf3.
    assert (JsString.truthy (ApiStripe.userId data) = true) as Hu'
      by (by destruct (ApiStripe.userId data)).
    assert (JsString.truthy (ApiStripe.actionType data) = true) as Ha'
      by (by destruct (ApiStripe.actionType data)).
    rewrite (recordUsage_spends f data d p cu z Hu' Ha' Hc Hz Hp Hf1 Hf2 Hf3);
      rewrite ?Hb; cbn [JsNumber.to_Z]; [|lia|done|done].
    cbn [fst snd]. split; [done|]. split; [done|].
    unfold Store.credits_of. rewrite spent_lookup, decide_True by done.
    cbn. by rewrite Hb.
Qed.

Lemma C9_missing_input_rejected_witness :
  ApiStripe.recordUsage ApiStripe.no_faults
    {| ApiStripe.userId := "u1"; ApiStripe.actionType := "chat";
       ApiStripe.creditsUsed := None; ApiStripe.req_metadata := None |}
    (Scenario.store_with 10) =
  (ApiStripe.json (ApiStripe.Error "User ID, action type, and credits used are required") 400,
   Scenario.store_with 10).
Proof.
  apply (proj1 (proj2 (proj2 (C9_missing_input_rejected ApiStripe.no_faults
           {| ApiStripe.userId := "u1"; ApiStripe.actionType := "chat";
              ApiStripe.creditsUsed := None; ApiStripe.req_metadata := None |}
           (Scenario.store_with 10))))).
  reflexivity.
Defined.

(** C1, as stated, fails: spend is not an atomic read-check-write.  Two
    handlers for the same account, each spending 8 of a balance of 10 and
    taking turns at their awaits, both reply success: each reads the balance
    10 before the other writes.  The log then holds both entries (16
    credits) while the balance reads 2. *)
Lemma C1_interleaved_spends_both_succeed :
  Store.credits_of "u1" (Scenario.store_with 10) = Some (Some 10) /\
  8 + 8 > 10 /\
  ApiStripe.replied_accepted
    (ApiStripe.first
       (ApiStripe.run_schedule ApiStripe.no_faults ApiStripe.no_faults
          [ApiStripe.First; ApiStripe.Second; ApiStripe.First; ApiStripe.Second;
           ApiStripe.First; ApiStripe.Second]
          {| ApiStripe.first := ApiStripe.Received (Scenario.spend 8);
             ApiStripe.second := ApiStripe.Received (Scenario.spend 8);
             ApiStripe.store := Scenario.store_with 10 |})) = true /\
  ApiStripe.replied_accepted
    (ApiStripe.second
       (ApiStripe.run_schedule ApiStripe.no_faults ApiStripe.no_faults
          [ApiStripe.First; ApiStripe.Second; ApiStripe.First; ApiStripe.Second;
           ApiStripe.First; ApiStripe.Second]
          {| ApiStripe.first := ApiStripe.Received (Scenario.spend 8);
             ApiStripe.second := ApiStripe.Received (Scenario.spend 8);
             ApiStripe.store := Scenario.store_with 10 |})) = true /\
  Store.credits_of "u1"
    (ApiStripe.store
       (ApiStripe.run_schedule ApiStripe.no_faults ApiStripe.no_faults
          [ApiStripe.First; ApiStripe.Second; ApiStripe.First; ApiStripe.Second;
           ApiStripe.First; ApiStripe.Second]
          {| ApiStripe.first := ApiStripe.Received (Scenario.spend 8);
             ApiStripe.second := ApiStripe.Received (Scenario.spend 8);
             ApiStripe.store := Scenario.store_with 10 |})) = Some (Some 2) /\
  length (Store.usage_logs
    (ApiStripe.store
       (ApiStripe.run_schedule ApiStripe.no_faults ApiStripe.no_faults
          [ApiStripe.First; ApiStripe.Second; ApiStripe.First; ApiStripe.Second;
           ApiStripe.First; ApiStripe.Second]
          {| ApiStripe.first := ApiStripe.Received (Scenario.spend 8);
             ApiStripe.second := ApiStripe.Received (Scenario.spend 8);
             ApiStripe.store := Scenario.store_with 10 |}))) = 2%nat.
Proof. repeat split; vm_compute; reflexivity. Qed.

(** C1, amended: when one spend call returns before the next begins, two
    spend calls for the same account whose combined creditsUsed exceeds the
    balance never both succeed, whatever the store conditions of either
    call.  The amounts are any numbers, and "exceeds" is the comparison of
    JavaScript, in which a NULL balance counts as 0.  (Handlers whose awaits
    interleave are not covered: the route reads, checks and writes in
    separate store calls.) *)
Theorem C1_sequential_spends_never_overdraw
    (f1 f2 : ApiStripe.faults) (a b : ApiStripe.usage_request) (d : Store.db)
    (p : Store.profile) (ca cb : JsNumber.number) :
  ApiStripe.userId a = ApiStripe.userId b ->
  Store.profiles d !! ApiStripe.userId a = Some p ->
  ApiStripe.creditsUsed a = Some ca ->
  ApiStripe.creditsUsed b = Some cb ->
  JsNumber.lt (JsNumber.of_column (Store.usage_credits p)) (JsNumber.add ca cb) = true ->
  ApiStripe.accepted (fst (ApiStripe.recordUsage f1 a d)) &&
  ApiStripe.accepted
    (fst (ApiStripe.recordUsage f2 b (snd (ApiStripe.recordUsage f1 a d)))) = false /\
  ApiStripe.replied_accepted
    (ApiStripe.first
       (ApiStripe.run_schedule f1 f2 ApiStripe.one_after_the_other
          {| ApiStripe.first := ApiStripe.Received a;
             ApiStripe.second := ApiStripe.Received b; ApiStripe.store := d |})) &&
  ApiStripe.replied_accepted
    (ApiStripe.second
       (ApiStripe.run_schedule f1 f2 ApiStripe.one_after_the_other
          {| ApiStripe.first := ApiStripe.Received a;
             ApiStripe.second := ApiStripe.Received b; ApiStripe.store := d |})) = false.
Proof.
  intros Hab Hp Ha Hb Hlt. rewrite run_one_after_the_other.
  cbn [ApiStripe.first ApiStripe.second ApiStripe.replied_accepted].
  enough (ApiStripe.accepted (fst (ApiStripe.recordUsage f1 a d)) &&
          ApiStripe.accepted
            (fst (ApiStripe.recordUsage f2 b (snd (ApiStripe.recordUsage f1 a d)))) = false)
    by done.
  destruct (ApiStripe.accepted (fst (ApiStripe.recordUsage f1 a d))) eqn:H1; [|done].
  apply recordUsage_accepted in H1 as (ca' & p' & Ha' & Hp' & Hcase).
  assert (ca' = ca) as -> by congruence. assert (p' = p) as -> by congruence.
  cbn [andb].
  destruct Hcase as [(z & Hz & _ & _ & _ & ->) | [Hn _]].
  - unfold ApiStripe.recordUsage.
    destruct (ApiStripe.missing_input b); [done|]. rewrite Hb.
    unfold Store.select_profile. destruct (ApiStripe.fail_select_profile f2); [done|].
    rewrite spent_lookup, decide_True by done.
    cbn [Store.apply_update Store.credits_update Store.set_usage_credits
           Store.usage_credits].
    unfold JsNumber.of_column in *. cbn [JsNumber.to_Z].
    by rewrite <- (lt_add_integer _ ca cb z Hz), Hlt.
  - exfalso. destruct Hn as [-> | ->]; by destruct cb.
Qed.

Lemma C1_sequential_spends_never_overdraw_witness :
  ApiStripe.accepted
    (fst (ApiStripe.recordUsage ApiStripe.no_faults (Scenario.spend 8) (Scenario.store_with 10))) &&
  ApiStripe.accepted
    (fst (ApiStripe.recordUsage ApiStripe.no_faults (Scenario.spend 8)
            (snd (ApiStripe.recordUsage ApiStripe.no_faults (Scenario.spend 8)
                    (Scenario.store_with 10))))) = false.
Proof.
  eapply proj1.
  apply (C1_sequential_spends_never_overdraw ApiStripe.no_faults ApiStripe.no_faults
           (Scenario.spend 8) (Scenario.spend 8) (Scenario.store_with 10)
           (Scenario.free_profile 10 10) (JsNumber.of_Z 8) (JsNumber.of_Z 8));
    reflexivity.
Defined.

(* ===================================================================== *)
(** ** Theorems: the usage gate *)
(* ===================================================================== *)

Section GateFacts.
Import JsString JsNumber Store ApiStripe UsageGate.

(** A read of the usage changes nothing in the store. *)
Lemma action_GetUserUsage f t uid d :
  snd (action f (post t (GetUserUsage uid)) d) = d.
Proof.
  unfold action, post. cbn.
  destruct (negb (truthy (t_stripeKey t))); [done|].
  by destruct (negb (truthy (t_supabaseUrl t)) || negb (truthy (t_supabaseKey t))).
Qed.

(** The route, reached with the tracker's credentials. *)
Lemma action_post f t c d :
  truthy (t_stripeKey t) = true -> truthy (t_supabaseUrl t) = true ->
  truthy (t_supabaseKey t) = true ->
  action f (post t c) d =
    match c with
    | RecordUsage data => recordUsage f data d
    | GetUserUsage uid => (getUserUsage f uid d, d)
    end.
Proof. intros Hk Hl Hs. unfold action, post. cbn. by rewrite Hk, Hl, Hs. Qed.

Lemma tracker_getUserUsage_wire c t w :
  snd (tracker_getUserUsage c t w) =
    {| behind := behind w; sent := sent w ++ [post t (GetUserUsage (t_userId t))] |}.
Proof.
  unfold tracker_getUserUsage, fetch. destruct (network_error c); [done|].
  pose proof (action_GetUserUsage (server c) t (t_userId t) (behind w)) as H.
  destruct (action _ _ _) as [r d']. cbn in H. subst d'.
  by destruct (negb (ok r)).
Qed.

Lemma hasEnoughCredits_wire c t n w :
  snd (hasEnoughCredits c t n w) =
    {| behind := behind w; sent := sent w ++ [post t (GetUserUsage (t_userId t))] |}.
Proof.
  unfold hasEnoughCredits. rewrite <- (tracker_getUserUsage_wire c t w).
  destruct (tracker_getUserUsage c t w) as [[e|b] w']; [done|]. by destruct b.
Qed.

(** The pre-check says yes only on a reply that shows an account whose
    balance is at least the amount. *)
Lemma hasEnoughCredits_true c t n w :
  fst (hasEnoughCredits c t n w) = true ->
  exists p, profiles (behind w) !! t_userId t = Some p /\
            ge (of_column (usage_credits p)) n = true.
Proof.
  unfold hasEnoughCredits, tracker_getUserUsage, fetch.
  destruct (network_error c); [done|].
  unfold action, post. cbn.
  destruct (negb (truthy (t_stripeKey t))); [done|].
  destruct (negb (truthy (t_supabaseUrl t)) || negb (truthy (t_supabaseKey t))); [done|].
  unfold getUserUsage, select_profile, select_usage_logs.
  destruct (negb (truthy (t_userId t))); [done|].
  destruct (fail_select_profile (server c)); [done|].
  destruct (profiles (behind w) !! t_userId t) as [p|]; [|done].
  destruct (fail_select_logs (server c)); [done|]. cbn. intros H. by exists p.
Qed.

Lemma hasEnoughCredits_short (c : conditions) (t : UsageTrackerOptions) (n : number)
    (w : wire) (p : profile) :
  profiles (behind w) !! t_userId t = Some p ->
  ge (of_column (usage_credits p)) n = false ->
  fst (hasEnoughCredits c t n w) = false.
Proof.
  intros Hp Hlt. destruct (fst (hasEnoughCredits c t n w)) eqn:H; [|done].
  apply hasEnoughCredits_true in H as (q & Hq & Hge). congruence.
Qed.

(** The tracker's spend: one request given to [fetch], and the store as
    it was or as that one call of the route left it. *)
Lemma tracker_recordUsage_wire c t a n m w :
  sent (snd (tracker_recordUsage c t a n m w)) =
    (sent w ++ [post t (RecordUsage (spend_request t a n m))])%list /\
  ((behind (snd (tracker_recordUsage c t a n m w)) = behind w /\
    success (fst (tracker_recordUsage c t a n m w)) = false) \/
   (truthy (t_stripeKey t) = true /\ truthy (t_supabaseUrl t) = true /\
    truthy (t_supabaseKey t) = true /\ network_error c = None /\
    tracker_recordUsage c t a n m w =
      (let r := recordUsage (server c) (spend_request t a n m) (behind w) in
       (if negb (ok (fst r)) then failed (data_error (http_body (fst r)))
        else match http_body (fst r) with
             | Recorded cu cr ul =>
                 {| success := true; r_creditsUsed := Some (stringify cu);
                    r_creditsRemaining := Some (stringify cr);
                    r_usageLimit := Some (stringify (of_Z ul)); r_error := None |}
             | _ =>
                 {| success := true; r_creditsUsed := None; r_creditsRemaining := None;
                    r_usageLimit := None; r_error := None |}
             end,
        {| behind := snd r;
           sent := sent w ++ [post t (RecordUsage (spend_request t a n m))] |})))).
Proof.
  unfold tracker_recordUsage, fetch. destruct (network_error c); [by split; [|left]|].
  destruct (truthy (t_stripeKey t)) eqn:Hk.
  2:{ unfold action, post. cbn. rewrite Hk. cbn. by split; [|left]. }
  destruct (truthy (t_supabaseUrl t)) eqn:Hl.
  2:{ unfold action, post. cbn. rewrite Hk, Hl. cbn. by split; [|left]. }
  destruct (truthy (t_supabaseKey t)) eqn:Hs.
  2:{ unfold action, post. cbn. rewrite Hk, Hl, Hs. cbn. by split; [|left]. }
  rewrite action_post by done.
  destruct (recordUsage _ _ _) as [r d'] eqn:Hr. cbn [fst snd].
  split.
  - destruct (negb (ok r)); [done|]. by destruct (http_body r).
  - right. repeat split; try done.
    destruct (negb (ok r)); [done|]. by destruct (http_body r).
Qed.

Lemma recordUsage_ok_accepted f data d :
  ok (fst (recordUsage f data d)) = accepted (fst (recordUsage f data d)).
Proof.
  unfold recordUsage. destruct (missing_input data); [done|].
  destruct (creditsUsed data); [|done].
  destruct (select_profile _ _ _); [|done].
  destruct (lt _ _); [done|].
  destruct (insert_usage_log _ _ _ _ _ _); [|done].
  by destruct (update_usage_credits_to _ _ _ _).
Qed.

(** The tracker reports success exactly when the route accepted. *)
Lemma tracker_recordUsage_cases c t a n m w :
  (behind (snd (tracker_recordUsage c t a n m w)) = behind w /\
   success (fst (tracker_recordUsage c t a n m w)) = false) \/
  (behind (snd (tracker_recordUsage c t a n m w)) =
     snd (recordUsage (server c) (spend_request t a n m) (behind w)) /\
   success (fst (tracker_recordUsage c t a n m w)) =
     accepted (fst (recordUsage (server c) (spend_request t a n m) (behind w))) /\
   r_error (fst (tracker_recordUsage c t a n m w)) =
     (if accepted (fst (recordUsage (server c) (spend_request t a n m) (behind w)))
      then None
      else data_error
             (http_body (fst (recordUsage (server c) (spend_request t a n m)
                                (behind w)))))).
Proof.
  destruct (tracker_recordUsage_wire c t a n m w) as [_ [H|(_ & _ & _ & _ & ->)]];
    [by left|].
  right. cbn zeta. cbn [fst snd behind].
  pose proof (recordUsage_ok_accepted (server c) (spend_request t a n m) (behind w)) as Hok.
  destruct (recordUsage _ _ _) as [r d']. cbn [fst snd] in *.
  split; [done|]. rewrite <- Hok. unfold accepted in Hok.
  destruct (ok r) eqn:Ho; cbn [negb]; [|done].
  revert Hok. destruct (http_body r); cbn; intros Hok; done.
Qed.

(** The tracker's spend, when the route answers 403: the reply's
    [creditsRemaining] is dropped and replaced by 0. *)
Lemma tracker_recordUsage_short (c : conditions) (t : UsageTrackerOptions)
    (a : string) (q : Q) (m : option string) (w : wire) (p : profile) :
  network_error c = None -> fail_select_profile (server c) = false ->
  truthy (t_userId t) = true -> truthy a = true ->
  truthy (t_stripeKey t) = true -> truthy (t_supabaseUrl t) = true ->
  truthy (t_supabaseKey t) = true ->
  profiles (behind w) !! t_userId t = Some p ->
  lt (of_column (usage_credits p)) (Finite q) = true ->
  fst (tracker_recordUsage c t a (Finite q) m w) = failed (Some "Insufficient credits") /\
  behind (snd (tracker_recordUsage c t a (Finite q) m w)) = behind w.
Proof.
  intros Hn Hf Hu Ha Hk Hl Hs Hp Hlt. unfold tracker_recordUsage, fetch. rewrite Hn.
  rewrite action_post by done.
  unfold recordUsage, spend_request, missing_input, select_profile.
  cbn [ApiStripe.userId ApiStripe.actionType creditsUsed parsed stringify].
  rewrite Hu, Ha, Hf, Hp. cbn [negb orb]. by rewrite Hlt.
Qed.

(** The middleware's run, once the credentials are there. *)
Lemma checkAndRecordUsage_run check spend options d :
  truthy (userId options) = true -> truthy (stripeKey options) = true ->
  truthy (supabaseUrl options) = true -> truthy (supabaseKey options) = true ->
  checkAndRecordUsage check spend options d =
    let w1 := {| behind := d;
                 sent := [post (new_UsageTracker options) (GetUserUsage (userId options))] |} in
    if negb (fst (hasEnoughCredits check (new_UsageTracker options)
                    (creditsRequired options) {| behind := d; sent := [] |})) then
      finish {| allowed := false; error := Some "Insufficient credits" |} w1
    else
      let r := tracker_recordUsage spend (new_UsageTracker options) (actionType options)
                 (creditsRequired options) (metadata options) w1 in
      if negb (success (fst r)) then
        finish {| allowed := false; error := r_error (fst r) |} (snd r)
      else finish {| allowed := true; error := None |} (snd r).
Proof.
  intros Hu Hk Hl Hs. unfold checkAndRecordUsage. rewrite Hu, Hk, Hl, Hs. cbn [negb orb].
  pose proof (hasEnoughCredits_wire check (new_UsageTracker options)
                (creditsRequired options) {| behind := d; sent := [] |}) as Hw.
  destruct (hasEnoughCredits _ _ _ _) as [h w1]. cbn [fst snd behind sent app] in *.
  subst w1. cbn [new_UsageTracker t_userId]. cbn zeta.
  destruct (negb h); [done|].
  by destruct (tracker_recordUsage _ _ _ _ _ _).
Qed.

(** What the middleware has posted and done to the store, in every run. *)
Lemma checkAndRecordUsage_effect check spend options d :
  (posted (checkAndRecordUsage check spend options d) = [] /\
   store_after (checkAndRecordUsage check spend options d) = d) \/
  (posted (checkAndRecordUsage check spend options d) = ["getUserUsage"] /\
   store_after (checkAndRecordUsage check spend options d) = d) \/
  (posted (checkAndRecordUsage check spend options d) = ["getUserUsage"; "recordUsage"] /\
   (store_after (checkAndRecordUsage check spend options d) = d \/
    store_after (checkAndRecordUsage check spend options d) =
      snd (recordUsage (server spend) (spend_of options) d))).
Proof.
  destruct (truthy (userId options)) eqn:Hu.
  2:{ left. unfold checkAndRecordUsage. by rewrite Hu. }
  destruct (truthy (stripeKey options)) eqn:Hk.
  2:{ left. unfold checkAndRecordUsage. by rewrite Hu, Hk. }
  destruct (truthy (supabaseUrl options)) eqn:Hl.
  2:{ left. unfold checkAndRecordUsage. by rewrite Hu, Hk, Hl. }
  destruct (truthy (supabaseKey options)) eqn:Hs.
  2:{ left. unfold checkAndRecordUsage. by rewrite Hu, Hk, Hl, Hs. }
  right. rewrite (checkAndRecordUsage_run check spend options d Hu Hk Hl Hs). cbn zeta.
  destruct (negb _); [by left|]. right.
  set (w1 := {| behind := d; sent := _ |}).
  destruct (tracker_recordUsage_wire spend (new_UsageTracker options) (actionType options)
              (creditsRequired options) (metadata options) w1) as [Hsent _].
  destruct (tracker_recordUsage_cases spend (new_UsageTracker options) (actionType options)
              (creditsRequired options) (metadata options) w1) as [[Hb _]|[Hb _]].
  - split.
    + destruct (negb _); unfold finish; cbn [posted]; by rewrite Hsent.
    + left. by destruct (negb _).
  - split.
    + destruct (negb _); unfold finish; cbn [posted]; by rewrite Hsent.
    + right. by destruct (negb _).
Qed.

End GateFacts.

(** C8, as stated, fails: a denial for insufficient credits does not carry
    the remaining balance, and it comes from a separate read, not from a
    spend call.  Asking for 8 credits on a balance of 5 and on a balance of
    3 gives the same result, [{ allowed: false, error: 'Insufficient
    credits' }]; the only request posted is getUserUsage, and no spend call
    is made. *)
Lemma C8_denial_carries_no_balance :
  Store.credits_of "u1" (Scenario.store_with 5) = Some (Some 5) /\
  Store.credits_of "u1" (Scenario.store_with 3) = Some (Some 3) /\
  UsageGate.denied_insufficient
    (UsageGate.result (UsageGate.checkAndRecordUsage UsageGate.fair UsageGate.fair
                         (Scenario.gate_options 8) (Scenario.store_with 5))) /\
  UsageGate.result (UsageGate.checkAndRecordUsage UsageGate.fair UsageGate.fair
                      (Scenario.gate_options 8) (Scenario.store_with 5)) =
  UsageGate.result (UsageGate.checkAndRecordUsage UsageGate.fair UsageGate.fair
                      (Scenario.gate_options 8) (Scenario.store_with 3)) /\
  UsageGate.posted (UsageGate.checkAndRecordUsage UsageGate.fair UsageGate.fair
                      (Scenario.gate_options 8) (Scenario.store_with 5)) = ["getUserUsage"] /\
  UsageGate.spend_calls (UsageGate.checkAndRecordUsage UsageGate.fair UsageGate.fair
                           (Scenario.gate_options 8) (Scenario.store_with 5)) = 0%nat /\
  UsageGate.r_creditsRemaining
    (fst (UsageGate.tracker_recordUsage UsageGate.fair
            (UsageGate.new_UsageTracker (Scenario.gate_options 8)) "chat"
            (JsNumber.of_Z 8) None
            {| UsageGate.behind := Scenario.store_with 5; UsageGate.sent := [] |}))
    = Some (JsNumber.JsonNumber 0).
Proof. repeat split; vm_compute; reflexivity. Qed.

(** C8, amended: checkAndRecordUsage first reads the balance (one
    getUserUsage request) and then posts at most one spend (recordUsage)
    request, none when the read says the balance is short: the store it
    leaves is the store it found, or the store that one call of the spend
    route leaves on it, so the log grows by at most one entry.  When the
    account's balance does not cover creditsRequired the result is exactly
    [{ allowed: false, error: 'Insufficient credits' }] -- the error text
    only, no balance -- whatever the conditions of the read, the store is
    unchanged and no spend call is made; the tracker's own spend, answered
    403 by the route, reports creditsRemaining 0. *)
Theorem C8_gate_reads_then_spends_at_most_once
    (check spend : UsageGate.conditions) (options : UsageGate.UsageMiddlewareOptions)
    (d : Store.db) :
  (UsageGate.spend_calls (UsageGate.checkAndRecordUsage check spend options d) <= 1)%nat /\
  (UsageGate.posted (UsageGate.checkAndRecordUsage check spend options d) = [] \/
   UsageGate.posted (UsageGate.checkAndRecordUsage check spend options d) = ["getUserUsage"] \/
   UsageGate.posted (UsageGate.checkAndRecordUsage check spend options d)
     = ["getUserUsage"; "recordUsage"]) /\
  (UsageGate.store_after (UsageGate.checkAndRecordUsage check spend options d) = d \/
   UsageGate.spend_calls (UsageGate.checkAndRecordUsage check spend options d) = 1%nat /\
   UsageGate.store_after (UsageGate.checkAndRecordUsage check spend options d) =
     snd (ApiStripe.recordUsage (UsageGate.server spend) (UsageGate.spend_of options) d)) /\
  (exists added,
     Store.usage_logs (UsageGate.store_after (UsageGate.checkAndRecordUsage check spend options d))
       = (Store.usage_logs d ++ added)%list /\ (length added <= 1)%nat) /\
  (forall p,
     JsString.truthy (UsageGate.userId options) = true ->
     JsString.truthy (UsageGate.stripeKey options) = true ->
     JsString.truthy (UsageGate.supabaseUrl options) = true ->
     JsString.truthy (UsageGate.supabaseKey options) = true ->
     Store.profiles d !! UsageGate.userId options = Some p ->
     JsNumber.ge (JsNumber.of_column (Store.usage_credits p))
       (UsageGate.creditsRequired options) = false ->
     UsageGate.checkAndRecordUsage check spend options d =
       {| UsageGate.result :=
            {| UsageGate.allowed := false; UsageGate.error := Some "Insufficient credits" |};
          UsageGate.store_after := d;
          UsageGate.posted := ["getUserUsage"] |} /\
     (forall q,
        UsageGate.creditsRequired options = JsNumber.Finite q ->
        UsageGate.network_error spend = None ->
        ApiStripe.fail_select_profile (UsageGate.server spend) = false ->
        JsString.truthy (UsageGate.actionType options) = true ->
        fst (UsageGate.tracker_recordUsage spend (UsageGate.new_UsageTracker options)
               (UsageGate.actionType options) (UsageGate.creditsRequired options)
               (UsageGate.metadata options)
               {| UsageGate.behind := d; UsageGate.sent := [] |})
          = UsageGate.failed (Some "Insufficient credits") /\
        UsageGate.behind
          (snd (UsageGate.tracker_recordUsage spend (UsageGate.new_UsageTracker options)
                  (UsageGate.actionType options) (UsageGate.creditsRequired options)
                  (UsageGate.metadata options)
                  {| UsageGate.behind := d; UsageGate.sent := [] |})) = d)).
Proof.
  pose proof (checkAndRecordUsage_effect check spend options d) as He.
  split; [|split; [|split; [|split]]].
  - unfold UsageGate.spend_calls.
    destruct He as [[-> _]|[[-> _]|[-> _]]]; vm_compute; lia.
  - destruct He as [[-> _]|[[-> _]|[-> _]]]; auto.
  - unfold UsageGate.spend_calls.
    destruct He as [[_ ->]|[[_ ->]|[-> [-> | ->]]]]; auto.
  - assert (exists added : list Store.usage_log,
              Store.usage_logs d = (Store.usage_logs d ++ added)%list /\
              (length added <= 1)%nat) as Hsame.
    { exists []. split; [by rewrite app_nil_r | cbn; lia]. }
    destruct He as [[_ ->]|[[_ ->]|[_ [-> | ->]]]]; try done.
    destruct (recordUsage_store (UsageGate.server spend) (UsageGate.spend_of options) d)
      as [-> | (v & c & q & _ & -> & _)]; [done|].
    eexists. split; [reflexivity | cbn; lia].
  - intros p Hu Hk Hl Hs Hp Hge. split.
    + rewrite (checkAndRecordUsage_run check spend options d Hu Hk Hl Hs). cbn zeta.
      by rewrite (hasEnoughCredits_short check (UsageGate.new_UsageTracker options)
                    (UsageGate.creditsRequired options)
                    {| UsageGate.behind := d; UsageGate.sent := [] |} p Hp Hge).
    + intros q Hq Hn Hf Ha. rewrite Hq in *.
      apply (tracker_recordUsage_short spend (UsageGate.new_UsageTracker options)
               (UsageGate.actionType options) q (UsageGate.metadata options)
               {| UsageGate.behind := d; UsageGate.sent := [] |} p); try done.
      revert Hge. unfold JsNumber.ge, JsNumber.of_column, JsNumber.of_Z.
      by destruct (JsNumber.lt _ _).
Qed.

Lemma C8_gate_reads_then_spends_at_most_once_witness :
  UsageGate.checkAndRecordUsage UsageGate.fair UsageGate.fair
    (Scenario.gate_options 8) (Scenario.store_with 5) =
  {| UsageGate.result :=
       {| UsageGate.allowed := false; UsageGate.error := Some "Insufficient credits" |};
     UsageGate.store_after := Scenario.store_with 5;
     UsageGate.posted := ["getUserUsage"] |}.
Proof.
  apply (proj2 (proj2 (proj2 (proj2
           (C8_gate_reads_then_spends_at_most_once UsageGate.fair UsageGate.fair
              (Scenario.gate_options 8) (Scenario.store_with 5)))))
           (Scenario.free_profile 5 10));
    reflexivity.
Defined.

(* ===================================================================== *)
(** ** Theorems: the webhook *)
(* ===================================================================== *)

Section WebhookFacts.
Import JsString JsError TierPolicy Store Webhook.

Lemma resolve_limit_in_range (price : option price_row) :
  int4 (snd (resolve price)) = true.
Proof.
  unfold resolve. destruct (product_name price) as [nm|]; [|done].
  destruct (truthy nm); [|done]. cbn zeta.
  destruct (includes _ "premium"); [done|].
  by destruct (includes _ "enterprise").
Qed.

(** [toISOString] returns exactly for the seconds [Date] can represent. *)
Lemma iso_Some (s : Z) : representable s -> iso s = Some (s * 1000).
Proof.
  unfold representable, iso. intros H. cbn zeta.
  destruct (_ && _) eqn:E; [done|].
  apply andb_false_iff in E as [E|E]; apply Z.leb_gt in E; unfold max_time_ms in E; lia.
Qed.

Lemma iso_None (s : Z) : ~ representable s -> iso s = None.
Proof.
  unfold representable, iso. intros H. cbn zeta.
  destruct (_ && _) eqn:E; [|done].
  apply andb_true_iff in E as [E1 E2]. apply Z.leb_le in E1, E2.
  unfold max_time_ms in *. lia.
Qed.

Lemma iso_or_null_Some (t : option Z) :
  representable_or_null t -> iso_or_null t = Some (ms_or_null t).
Proof.
  destruct t as [s|]; [|done]. intros H. unfold iso_or_null, ms_or_null.
  destruct (s =? 0); [done|]. by rewrite (iso_Some s H).
Qed.

Lemma iso_cases (s : Z) : iso s = None \/ representable s.
Proof.
  destruct (iso s) eqn:E; [right|by left].
  unfold iso in E. cbn zeta in E. destruct (_ && _) eqn:E'; [|done].
  apply andb_true_iff in E' as [E1 E2]. apply Z.leb_le in E1, E2.
  unfold representable, max_time_ms in *. lia.
Qed.

Lemma iso_or_null_cases (t : option Z) : iso_or_null t = None \/ representable_or_null t.
Proof.
  destruct t as [z|]; [|by right]. cbn. destruct (Z.eqb_spec z 0) as [->|_].
  - right. unfold representable. lia.
  - destruct (iso_cases z) as [-> | ?]; [by left|by right].
Qed.

(** Building the row of the upsert succeeds when there is a first item and
    the times are representable, and gives the row of the event. *)
Lemma upsert_row_Returned uid s item rest :
  items s = item :: rest -> times_representable s ->
  upsert_row uid s = Returned (item, row_of uid item s).
Proof.
  intros Hi (H1 & H2 & H3 & H4 & H5 & H6 & H7). unfold upsert_row. rewrite Hi.
  rewrite (iso_Some _ H1), (iso_Some _ H2), (iso_or_null_Some _ H3),
    (iso_or_null_Some _ H4), (iso_or_null_Some _ H5), (iso_or_null_Some _ H6),
    (iso_or_null_Some _ H7).
  done.
Qed.

(** Two stores that differ only in how the same row updates are grouped. *)
Ltac same_store :=
  rewrite ?insert_insert_eq, ?alter_alter_eq;
  f_equal; f_equal; try (apply alter_ext; intros [] _; reflexivity).

Lemma subscription_changed_replay c b s prev d :
  subscription_changed c b s prev (snd (subscription_changed c b s prev d))
  = subscription_changed c b s prev d.
Proof.
  destruct d as [ps ls ss pr]. unfold subscription_changed.
  destruct (some_text (metadata_userId s)) as [uid|]; [|done].
  destruct (upsert_row uid s) as [[item row]|e]; [|done].
  unfold upsert_subscription. destruct (fail_upsert_subscription c); [done|].
  unfold update_profile, select_price, with_subscriptions, with_profiles. cbn.
  destruct (fail_update_status c); cbn.
  { by same_store. }
  destruct (refill b s prev); cbn.
  2:{ by same_store. }
  pose proof (resolve_limit_in_range
                (if fail_select_price c then None else pr !! item_price_id item)) as Hr.
  destruct (resolve (if fail_select_price c then None else pr !! item_price_id item))
    as [tier lim] eqn:Hres.
  cbn in Hr. unfold update_in_range. cbn. rewrite Hr. cbn.
  destruct (fail_reset_credits c); cbn; rewrite Hres.
  - by same_store.
  - rewrite Hr. cbn. by same_store.
Qed.

Lemma subscription_deleted_replay c s d :
  subscription_deleted c s (snd (subscription_deleted c s d))
  = subscription_deleted c s d.
Proof.
  destruct d as [ps ls ss pr]. unfold subscription_deleted.
  destruct (some_text (metadata_userId s)) as [uid|]; [|done].
  destruct (iso (or_zero (s_ended_at s))) as [ended|]; [|done].
  unfold end_subscription. destruct (fail_end_subscription c); [done|].
  unfold update_profile, with_subscriptions, with_profiles. cbn.
  destruct (fail_update_status c); cbn; by same_store.
Qed.

Lemma invoice_payment_succeeded_replay c i d :
  invoice_payment_succeeded c i (snd (invoice_payment_succeeded c i d))
  = invoice_payment_succeeded c i d.
Proof.
  destruct d as [ps ls ss pr]. unfold invoice_payment_succeeded.
  destruct (some_text (inv_subscription i)) as [sid|]; [|done].
  destruct (some_text (inv_customer i)) as [cid|]; [|done].
  unfold select_subscription_user. cbn.
  destruct (fail_select_subscription c); [done|]. cbn.
  destruct (ss !! sid) as [row|] eqn:Hrow; cbn; [|by rewrite Hrow].
  destruct (retrieve c sid) as [sub|e]; cbn; [|by rewrite Hrow].
  destruct (items sub) as [|item rest]; cbn; [by rewrite Hrow|].
  unfold select_price, update_profile, with_profiles. cbn.
  pose proof (resolve_limit_in_range
                (if fail_select_price c then None else pr !! item_price_id item)) as Hr.
  destruct (resolve (if fail_select_price c then None else pr !! item_price_id item))
    as [tier lim] eqn:Hres.
  cbn in Hr. unfold update_in_range. cbn. rewrite Hr. cbn.
  destruct (fail_reset_credits c); cbn; rewrite Hrow; cbn; rewrite ?Hres; [done|].
  rewrite Hr. cbn. by same_store.
Qed.

Lemma invoice_payment_failed_replay c i d :
  invoice_payment_failed c i (snd (invoice_payment_failed c i d))
  = invoice_payment_failed c i d.
Proof.
  destruct d as [ps ls ss pr]. unfold invoice_payment_failed.
  destruct (some_text (inv_subscription i)) as [sid|]; [|done].
  unfold select_subscription_user. cbn.
  destruct (fail_select_subscription c); [done|]. cbn.
  destruct (ss !! sid) as [row|] eqn:Hrow; [|by cbn; rewrite Hrow]. cbn.
  unfold update_profile, with_profiles. cbn.
  destruct (fail_update_status c) eqn:Hf; cbn; rewrite Hrow; cbn; [done|].
  by same_store.
Qed.

Lemma handle_replay c ev d :
  handle c ev (snd (handle c ev d)) = handle c ev d.
Proof.
  unfold handle. destruct (data ev).
  - apply subscription_changed_replay.
  - apply subscription_changed_replay.
  - apply subscription_deleted_replay.
  - apply invoice_payment_succeeded_replay.
  - apply invoice_payment_failed_replay.
  - done.
Qed.

Lemma some_text_Some (uid : string) :
  truthy uid = true -> some_text (Some uid) = Some uid.
Proof. intros H. unfold some_text. by rewrite H. Qed.

(** The handler reads neither the event's id nor its time. *)
Lemma handle_data_only c ev ev' d :
  data ev = data ev' -> handle c ev d = handle c ev' d.
Proof. intros H. unfold handle. by rewrite H. Qed.

Lemma apply_handle c ev d : apply c ev d = snd (handle c ev d).
Proof. done. Qed.

Lemma action_replay c request d :
  action c request (snd (action c request d)) = action c request d.
Proof.
  unfold action. destruct (negb _); [done|].
  destruct (some_text (signature request)); [|done].
  destruct (negb _); [done|].
  destruct (constructEvent request); [|done]. apply handle_replay.
Qed.

Lemma subscription_deleted_calm c s uid d :
  metadata_userId s = Some uid -> truthy uid = true ->
  representable_or_null (s_ended_at s) ->
  fail_end_subscription c = false -> fail_update_status c = false ->
  subscription_deleted c s d =
    (received,
     with_profiles (alter (apply_update downgrade) uid (profiles d))
       (with_subscriptions
          (alter (mark_ended (sub_status s) (or_zero (s_ended_at s) * 1000)) (sub_id s)
             (subscriptions d)) d)).
Proof.
  intros Hm Hu Ht He Hs. unfold subscription_deleted, end_subscription, update_profile.
  rewrite Hm, (some_text_Some _ Hu), iso_Some, He, Hs; [done|].
  destruct (s_ended_at s); [done|]. unfold representable. cbn. lia.
Qed.

(** A deleted event whose [ended_at] is out of the range of [Date] is
    answered 500 before any store call. *)
Lemma subscription_deleted_out_of_range c s uid d :
  metadata_userId s = Some uid -> truthy uid = true ->
  ~ representable_or_null (s_ended_at s) ->
  subscription_deleted c s d = (thrown invalid_time, d).
Proof.
  intros Hm Hu Ht. unfold subscription_deleted.
  rewrite Hm, (some_text_Some _ Hu), iso_None; [done|].
  by destruct (s_ended_at s).
Qed.

Lemma subscription_deleted_effect c ev s uid p d :
  data ev = SubscriptionDeleted s ->
  metadata_userId s = Some uid -> truthy uid = true ->
  representable_or_null (s_ended_at s) ->
  fail_end_subscription c = false -> fail_update_status c = false ->
  profiles d !! uid = Some p ->
  fst (action c (delivery ev) d) = received /\
  profiles (apply c ev d) !! uid = Some (apply_update downgrade p) /\
  usage_logs (apply c ev d) = usage_logs d.
Proof.
  intros Hev Hm Hu Ht He Hs Hp.
  unfold apply, action, delivery. cbn. unfold handle. rewrite Hev.
  rewrite (subscription_deleted_calm c s uid d Hm Hu Ht He Hs).
  cbn. by rewrite lookup_alter_eq, Hp.
Qed.

Lemma subscription_changed_status c b s prev uid item rest d :
  metadata_userId s = Some uid -> truthy uid = true -> items s = item :: rest ->
  times_representable s ->
  fail_upsert_subscription c = false -> fail_update_status c = false ->
  subscriptions (snd (subscription_changed c b s prev d)) !! sub_id s
    = Some (row_of uid item s) /\
  (is_Some (profiles d !! uid) ->
   account_status uid (snd (subscription_changed c b s prev d)) = Some (sub_status s)).
Proof.
  intros Hm Hu Hi Ht Hf Hs. destruct d as [ps ls ss pr].
  unfold subscription_changed, upsert_subscription, update_profile, select_price.
  rewrite Hm, (some_text_Some _ Hu), (upsert_row_Returned uid s item rest Hi Ht), Hf, Hs.
  cbn. unfold account_status.
  destruct (refill b s prev); cbn.
  - pose proof (resolve_limit_in_range
                  (if fail_select_price c then None else pr !! item_price_id item)) as Hr.
    destruct (resolve _) as [tier lim]. cbn in Hr.
    unfold update_in_range. cbn. rewrite Hr. cbn.
    destruct (fail_reset_credits c); cbn.
    + rewrite lookup_insert_eq, lookup_alter_eq. split; [done|].
      intros [p ->]. done.
    + rewrite lookup_insert_eq, !lookup_alter_eq. split; [done|].
      intros [p ->]. done.
  - rewrite lookup_insert_eq, lookup_alter_eq. split; [done|].
    intros [p ->]. done.
Qed.

(** A created or updated event with a time out of the range of [Date] is
    answered 500 before any store call. *)
Lemma subscription_changed_out_of_range c b s prev uid item rest d :
  metadata_userId s = Some uid -> truthy uid = true -> items s = item :: rest ->
  ~ times_representable s ->
  subscription_changed c b s prev d = (thrown invalid_time, d).
Proof.
  intros Hm Hu Hi Ht. unfold subscription_changed.
  rewrite Hm, (some_text_Some _ Hu). unfold upsert_row. rewrite Hi.
  pose proof iso_cases as Hiso. pose proof iso_or_null_cases as Hnull.
  destruct (Hiso (s_current_period_start s)) as [-> | H1]; [done|].
  destruct (Hiso (s_current_period_end s)) as [E | H2].
  { rewrite E. clear E.
    by destruct (iso (s_current_period_start s)); cbn. }
  destruct (Hnull (s_canceled_at s)) as [E | H3].
  { rewrite E. clear E.
    by destruct (iso (s_current_period_start s)), (iso (s_current_period_end s)); cbn. }
  destruct (Hnull (s_cancel_at s)) as [E | H4].
  { rewrite E. clear E.
    by destruct (iso (s_current_period_start s)), (iso (s_current_period_end s)), (iso_or_null (s_canceled_at s)); cbn. }
  destruct (Hnull (s_ended_at s)) as [E | H5].
  { rewrite E. clear E.
    by destruct (iso (s_current_period_start s)), (iso (s_current_period_end s)), (iso_or_null (s_canceled_at s)), (iso_or_null (s_cancel_at s)); cbn. }
  destruct (Hnull (s_trial_start s)) as [E | H6].
  { rewrite E. clear E.
    by destruct (iso (s_current_period_start s)), (iso (s_current_period_end s)), (iso_or_null (s_canceled_at s)), (iso_or_null (s_cancel_at s)), (iso_or_null (s_ended_at s)); cbn. }
  destruct (Hnull (s_trial_end s)) as [E | H7].
  { rewrite E. clear E.
    by destruct (iso (s_current_period_start s)), (iso (s_current_period_end s)), (iso_or_null (s_canceled_at s)), (iso_or_null (s_cancel_at s)), (iso_or_null (s_ended_at s)), (iso_or_null (s_trial_start s)); cbn. }
  by destruct Ht.
Qed.

End WebhookFacts.

(** C6, as stated, fails twice.  Not every "subscription deleted" event
    downgrades: one whose ended_at is beyond the range of Date (8640000000001
    seconds) makes the handler throw while it builds its first update; it is
    answered 500 and the account stays premium and active.  And the limit the
    event sets, 100, is not the free-tier default of the schema: an account
    created by the signup trigger has the default limit, 10, and the event
    raises it to 100. *)
Lemma C6_deleted_event_out_of_range_changes_nothing :
  fst (Webhook.action (Webhook.calm Scenario.stripe_knows)
         (Webhook.delivery Scenario.deleted_out_of_range) (Scenario.premium_store 1500))
    = Webhook.reply "Webhook error: Invalid time value" 500 /\
  Webhook.apply (Webhook.calm Scenario.stripe_knows) Scenario.deleted_out_of_range
    (Scenario.premium_store 1500) = Scenario.premium_store 1500 /\
  Webhook.account_status "u1"
    (Webhook.apply (Webhook.calm Scenario.stripe_knows) Scenario.deleted_out_of_range
       (Scenario.premium_store 1500)) = Some "active" /\
  Store.handle_new_user Scenario.new_user Scenario.empty_store
    = Some Scenario.trigger_created /\
  Store.limit_of "u2" Scenario.trigger_created = Some Store.default_usage_limit /\
  Store.limit_of "u2"
    (Webhook.apply (Webhook.calm Scenario.stripe_knows) (Scenario.deleted_of "u2")
       Scenario.trigger_created) = Some 100 /\
  100 <> Store.default_usage_limit.
Proof. repeat split; vm_compute; (reflexivity || discriminate). Qed.

(** C6, amended: processing a "subscription deleted" event whose ended_at
    is null or a time Date can represent, for an account, with the two store
    calls succeeding, sets the account's status to canceled, its tier to free
    and its limit to 100 -- the free-tier limit of the webhook and of the
    sign-up route, not the 10 that the profiles table has for a default and
    that the signup trigger writes -- and leaves every other column of the
    account, usage_credits among them, and the usage log as they were.  An
    event whose ended_at is out of the range of Date is answered 500 and
    changes nothing. *)
Theorem C6_subscription_deleted_downgrades
    (c : Webhook.conditions) (ev : Webhook.stripe_event) (s : Webhook.stripe_subscription)
    (uid : string) (p : Store.profile) (d : Store.db) :
  Webhook.data ev = Webhook.SubscriptionDeleted s ->
  Webhook.metadata_userId s = Some uid -> JsString.truthy uid = true ->
  Store.profiles d !! uid = Some p ->
  (Webhook.representable_or_null (Webhook.s_ended_at s) ->
   Webhook.fail_end_subscription c = false -> Webhook.fail_update_status c = false ->
   fst (Webhook.action c (Webhook.delivery ev) d) = Webhook.received /\
   Store.profiles (Webhook.apply c ev d) !! uid =
     Some {| Store.email := Store.email p;
             Store.username := Store.username p;
             Store.subscription_tier := Some "free";
             Store.subscription_status := Some "canceled";
             Store.stripe_customer_id := Store.stripe_customer_id p;
             Store.usage_credits := Store.usage_credits p;
             Store.usage_limit := 100 |} /\
   Store.credits_of uid (Webhook.apply c ev d) = Store.credits_of uid d /\
   Store.limit_of uid (Webhook.apply c ev d) = Some 100 /\
   Store.usage_logs (Webhook.apply c ev d) = Store.usage_logs d) /\
  (forall user, Store.usage_limit (ApiAuth.signUp_profile user) = 100) /\
  Store.default_usage_limit = 10 /\
  (~ Webhook.representable_or_null (Webhook.s_ended_at s) ->
   Webhook.action c (Webhook.delivery ev) d
     = (Webhook.reply "Webhook error: Invalid time value" 500, d)).
Proof.
  intros Hev Hm Hu Hp. split; [|split; [done|split; [done|]]].
  - intros Ht He Hs.
    destruct (subscription_deleted_effect c ev s uid p d Hev Hm Hu Ht He Hs Hp)
      as (Hr & Hq & Hl).
    unfold Store.credits_of, Store.limit_of. by rewrite Hr, Hq, Hl, Hp.
  - intros Ht. unfold Webhook.action, Webhook.delivery. cbn. unfold Webhook.handle.
    rewrite Hev. by rewrite (subscription_deleted_out_of_range c s uid d Hm Hu Ht).
Qed.

Lemma C6_subscription_deleted_downgrades_witness :
  Store.profiles
    (Webhook.apply (Webhook.calm Scenario.stripe_knows) Scenario.deleted
       (Scenario.premium_store 1500)) !! "u1"
  = Some {| Store.email := "ada@example.com"; Store.username := Some "ada";
            Store.subscription_tier := Some "free";
            Store.subscription_status := Some "canceled";
            Store.stripe_customer_id := Some "cus_1";
            Store.usage_credits := Some 1500; Store.usage_limit := 100 |}.
Proof.
  apply (proj1 (proj2 (proj1 (C6_subscription_deleted_downgrades
           (Webhook.calm Scenario.stripe_knows) Scenario.deleted
           (Scenario.subscription_1 "canceled") "u1" (Scenario.premium_profile 1500)
           (Scenario.premium_store 1500)
           eq_refl eq_refl eq_refl eq_refl) I eq_refl eq_refl))).
Defined.

(** C5, as stated, fails: the webhook keeps no record of the last applied
    event and never compares event times.  After the later "updated:
    status=active" event, the earlier "updated: status=past_due" event is
    applied like any other: the stored subscription and the account both
    end with status past_due. *)
Lemma C5_stale_update_overwrites :
  Webhook.created Scenario.updated_past_due < Webhook.created Scenario.updated_active /\
  Webhook.stored_status "sub_1"
    (Webhook.apply (Webhook.calm Scenario.stripe_knows) Scenario.updated_active
       (Scenario.premium_store 1500)) = Some "active" /\
  Webhook.stored_status "sub_1"
    (Webhook.apply (Webhook.calm Scenario.stripe_knows) Scenario.updated_past_due
       (Webhook.apply (Webhook.calm Scenario.stripe_knows) Scenario.updated_active
          (Scenario.premium_store 1500))) = Some "past_due" /\
  Webhook.account_status "u1"
    (Webhook.apply (Webhook.calm Scenario.stripe_knows) Scenario.updated_past_due
       (Webhook.apply (Webhook.calm Scenario.stripe_knows) Scenario.updated_active
          (Scenario.premium_store 1500))) = Some "past_due".
Proof. repeat split; vm_compute; reflexivity. Qed.

(** C5, amended: an incoming subscription created/updated event that the
    handler can store -- it names its user, has a first item, and its times
    are ones Date can represent -- always overwrites the stored
    SubscriptionRecord and the account's status, whatever the event's own
    time and whatever was applied before (the last delivered event wins):
    after the event is processed, the stored subscription is, column by
    column, what the event's subscription says, and the account, when it
    exists, has the event's status.  The handler reads neither the id nor the
    time of an event. *)
Theorem C5_last_delivered_update_wins
    (c : Webhook.conditions) (ev : Webhook.stripe_event) (s : Webhook.stripe_subscription)
    (prev : option string) (uid : string) (item : Webhook.stripe_item)
    (rest : list Webhook.stripe_item) (d : Store.db) :
  Webhook.data ev = Webhook.SubscriptionUpdated s prev \/
  Webhook.data ev = Webhook.SubscriptionCreated s ->
  Webhook.metadata_userId s = Some uid -> JsString.truthy uid = true ->
  Webhook.items s = item :: rest ->
  Webhook.times_representable s ->
  Webhook.fail_upsert_subscription c = false -> Webhook.fail_update_status c = false ->
  Store.subscriptions (Webhook.apply c ev d) !! Webhook.sub_id s
    = Some (Webhook.row_of uid item s) /\
  Webhook.stored_status (Webhook.sub_id s) (Webhook.apply c ev d)
    = Some (Webhook.sub_status s) /\
  (is_Some (Store.profiles d !! uid) ->
   Webhook.account_status uid (Webhook.apply c ev d) = Some (Webhook.sub_status s)) /\
  (forall ev', Webhook.data ev' = Webhook.data ev ->
     Webhook.apply c ev' d = Webhook.apply c ev d).
Proof.
  intros Hev Hm Hu Hi Ht Hf Hs. rewrite apply_handle.
  assert (Store.subscriptions (snd (Webhook.handle c ev d)) !! Webhook.sub_id s
            = Some (Webhook.row_of uid item s) /\
          (is_Some (Store.profiles d !! uid) ->
           Webhook.account_status uid (snd (Webhook.handle c ev d))
             = Some (Webhook.sub_status s))) as [Hrow Hacc].
  { unfold Webhook.handle.
    destruct Hev as [-> | ->]; by eapply subscription_changed_status. }
  split; [done|]. split; [|split; [done|]].
  - unfold Webhook.stored_status. by rewrite Hrow.
  - intros ev' H. rewrite !apply_handle. f_equal. by apply handle_data_only.
Qed.

Lemma C5_last_delivered_update_wins_witness :
  Webhook.stored_status "sub_1"
    (Webhook.apply (Webhook.calm Scenario.stripe_knows) Scenario.updated_past_due
       (Scenario.premium_store 1500)) = Some "past_due".
Proof.
  refine (proj1 (proj2 (C5_last_delivered_update_wins
           (Webhook.calm Scenario.stripe_knows) Scenario.updated_past_due
           (Scenario.subscription_1 "past_due") None "u1"
           {| Webhook.item_price_id := "price_premium"; Webhook.item_quantity := 1 |} []
           (Scenario.premium_store 1500)
           (or_introl eq_refl) eq_refl eq_refl eq_refl _ eq_refl eq_refl))).
  unfold Webhook.times_representable, Webhook.representable. cbn. lia.
Defined.

(** C4, as stated, fails: there is no idempotency store, and a replayed
    event re-executes its writes.  After "invoice paid" refills the account
    to 2000 and a spend of 5 brings it to 1995, a replay of the same event
    (same id) is answered "received" and refills the account to 2000 again:
    applying the event twice does not give the state of applying it once. *)
Lemma C4_replay_after_spend_refills :
  Store.credits_of "u1"
    (ApiStripe.spend_all [(ApiStripe.no_faults, Scenario.spend 5)]
       (Webhook.apply (Webhook.calm Scenario.stripe_knows) Scenario.invoice_paid
          (Scenario.premium_store 120))) = Some (Some 1995) /\
  Store.credits_of "u1"
    (Webhook.apply (Webhook.calm Scenario.stripe_knows) Scenario.invoice_paid
       (ApiStripe.spend_all [(ApiStripe.no_faults, Scenario.spend 5)]
          (Webhook.apply (Webhook.calm Scenario.stripe_knows) Scenario.invoice_paid
             (Scenario.premium_store 120)))) = Some (Some 2000) /\
  fst (Webhook.action (Webhook.calm Scenario.stripe_knows)
         (Webhook.delivery Scenario.invoice_paid)
         (ApiStripe.spend_all [(ApiStripe.no_faults, Scenario.spend 5)]
            (Webhook.apply (Webhook.calm Scenario.stripe_knows) Scenario.invoice_paid
               (Scenario.premium_store 120)))) = Webhook.received.
Proof. repeat split; vm_compute; reflexivity. Qed.

(** C4, amended: delivering the same request twice in immediate succession,
    under the same conditions, gives the same response and the same store as
    delivering it once, for every request and every store: every write of
    the webhook is an absolute assignment.  The webhook consults no
    idempotency store -- two events with the same data are handled alike
    whatever their ids -- so a replay re-executes its writes. *)
Theorem C4_immediate_replay_changes_nothing
    (c : Webhook.conditions) (request : Webhook.webhook_request) (d : Store.db) :
  Webhook.action c request (snd (Webhook.action c request d)) = Webhook.action c request d /\
  (forall ev, Webhook.apply c ev (Webhook.apply c ev d) = Webhook.apply c ev d) /\
  (forall ev ev', Webhook.data ev = Webhook.data ev' ->
     Webhook.action c (Webhook.delivery ev) d = Webhook.action c (Webhook.delivery ev') d).
Proof.
  split; [|split].
  - apply action_replay.
  - intros ev. unfold Webhook.apply. by rewrite action_replay.
  - intros ev ev' H. by apply handle_data_only.
Qed.

Lemma C4_immediate_replay_changes_nothing_witness :
  Webhook.action (Webhook.calm Scenario.stripe_knows)
    (Webhook.delivery Scenario.invoice_paid) (Scenario.premium_store 120) =
  Webhook.action (Webhook.calm Scenario.stripe_knows)
    (Webhook.delivery {| Webhook.event_id := "evt_invoice_2"; Webhook.created := 1700000500;
                         Webhook.data := Webhook.data Scenario.invoice_paid |})
    (Scenario.premium_store 120).
Proof.
  apply (proj2 (proj2 (C4_immediate_replay_changes_nothing
           (Webhook.calm Scenario.stripe_knows) (Webhook.delivery Scenario.invoice_paid)
           (Scenario.premium_store 120)))).
  reflexivity.
Defined.

(* ===================================================================== *)
(** ** Theorems: the free-tier limit *)
(* ===================================================================== *)

Section SignUpFacts.
Import JsString Store ApiAuth.


(** With the signup trigger in place the route's own insert meets the row
    the trigger has just written and fails on the primary key: the account
    keeps the trigger's row. *)
Lemma signUp_after_trigger uid fail email password d :
  truthy email = true -> truthy password = true ->
  profiles d !! uid = None ->
  credits_of uid (snd (signUp (auth_with_trigger uid) fail email password d))
    = Some (Some 10) /\
  limit_of uid (snd (signUp (auth_with_trigger uid) fail email password d)) = Some 10.
Proof.
  intros He Hw Hp. unfold signUp. rewrite He, Hw. cbn.
  unfold auth_with_trigger, handle_new_user, insert_profile. cbn. rewrite Hp.
  unfold credits_of, limit_of. cbn. rewrite lookup_insert_eq. cbn.
  destruct fail; cbn; by rewrite lookup_insert_eq.
Qed.

(** Without that trigger the route's insert creates the account. *)
Lemma signUp_without_trigger uid email password d :
  truthy email = true -> truthy password = true ->
  profiles d !! uid = None ->
  credits_of uid (snd (signUp (auth_without_trigger uid) false email password d))
    = Some (Some 100) /\
  limit_of uid (snd (signUp (auth_without_trigger uid) false email password d)) = Some 100.
Proof.
  intros He Hw Hp. unfold signUp. rewrite He, Hw. cbn.
  unfold insert_profile. cbn. rewrite Hp.
  unfold credits_of, limit_of. cbn. by rewrite lookup_insert_eq.
Qed.

End SignUpFacts.



(* ===================================================================== *)
(** ** Further properties: the spend path *)
(* ===================================================================== *)

Section SpendLedgerFacts.
Import JsString JsNumber Store ApiStripe Ledger.

Lemma entries_of_charged data v c p d id :
  entries_of id (charged data v c p d) =
  (entries_of id d ++ if decide (userId data = id) then [log_row data v] else [])%list.
Proof.
  unfold entries_of, charged. cbn [usage_logs with_profiles with_usage_logs].
  rewrite filter_app. by f_equal.
Qed.

Lemma logged_total_charged data v c p d id :
  logged_total id (charged data v c p d) =
  logged_total id d + if decide (userId data = id) then to_Z v else 0.
Proof.
  unfold logged_total. rewrite entries_of_charged, fold_left_app.
  case_decide; cbn; lia.
Qed.

(** With an integer balance, the store a failed last update leaves is the
    store an accepted spend leaves. *)
Lemma logged_spent data z p d b :
  usage_credits p = Some b -> logged data (Some z) p d = spent data z p d.
Proof. intros H. unfold logged, spent. by rewrite H. Qed.

(** One call keeps [balance + logged credits] of an account whose balance
    is an integer, unless it is a spend of [-Infinity] or NaN by that
    account. *)
Lemma recordUsage_conserves f data d id c :
  credits_of id d = Some (Some c) ->
  (userId data = id -> countable data) ->
  exists c', credits_of id (snd (recordUsage f data d)) = Some (Some c') /\
             c' + logged_total id (snd (recordUsage f data d)) = c + logged_total id d.
Proof.
  intros Hc Hcount. unfold credits_of in *.
  destruct (recordUsage_cases f data d)
    as [[-> _]|[(cu & z & p & H1 & H2 & H3 & H4 & H5 & H6 & Hr)
               |[(cu & p & H1 & H2 & H3 & Hr)|(cu & v & p & H1 & H2 & H3 & Hr & H4 & H5 & _)]]].
  - by exists c.
  - rewrite Hr. cbn [snd]. unfold spent.
    rewrite charged_lookup, logged_total_charged. case_decide as Hid.
    + subst id. rewrite H4 in Hc. injection Hc as Hc. rewrite Hc. cbn.
      eexists. split; [done|]. lia.
    + exists c. split; [done|]. lia.
  - rewrite Hr. cbn [snd]. rewrite charged_lookup, logged_total_charged.
    case_decide as Hid.
    + destruct (Hcount Hid) as [Hn1 Hn2]. rewrite H1 in Hn1, Hn2.
      destruct H2 as [-> | ->]; done.
    + exists c. split; [done|]. lia.
  - rewrite Hr. cbn [snd]. unfold logged.
    rewrite charged_lookup, logged_total_charged. case_decide as Hid.
    + subst id. rewrite H3 in Hc. injection Hc as Hc. rewrite Hc.
      destruct v as [z|].
      * cbn. eexists. split; [done|]. lia.
      * destruct (Hcount eq_refl) as [Hn1 Hn2]. rewrite H1 in Hn1, Hn2.
        destruct (H5 eq_refl) as [-> | ->]; done.
    + exists c. split; [done|]. lia.
Qed.

Lemma spend_all_snoc calls f data d :
  spend_all (calls ++ [(f, data)]) d = snd (recordUsage f data (spend_all calls d)).
Proof. unfold spend_all. by rewrite fold_left_app. Qed.

(** What one call leaves alone. *)
Lemma recordUsage_frame f data d :
  subscriptions (snd (recordUsage f data d)) = subscriptions d /\
  prices (snd (recordUsage f data d)) = prices d /\
  (exists added, usage_logs (snd (recordUsage f data d)) = (usage_logs d ++ added)%list) /\
  forall id,
    limit_of id (snd (recordUsage f data d)) = limit_of id d /\
    tier_of id (snd (recordUsage f data d)) = tier_of id d /\
    Webhook.account_status id (snd (recordUsage f data d)) = Webhook.account_status id d /\
    (is_Some (profiles (snd (recordUsage f data d)) !! id) <-> is_Some (profiles d !! id)) /\
    (id <> userId data ->
     profiles (snd (recordUsage f data d)) !! id = profiles d !! id).
Proof.
  destruct (recordUsage_store f data d) as [-> | (v & c & p & Hp & -> & _)].
  - repeat split; try done. exists []. by rewrite app_nil_r.
  - split; [done|]. split; [done|]. split; [by eexists|].
    intros id. unfold limit_of, tier_of, Webhook.account_status.
    rewrite charged_lookup. case_decide as Hid.
    + subst id. rewrite Hp. cbn. repeat split; try done; by eauto.
    + done.
Qed.

End SpendLedgerFacts.

(** X1: over any sequence of spend calls, under any store failures, the
    balance of an account that starts with an integer balance, plus the
    credits logged for it in usage_logs, stays what it was: every credit that
    leaves the balance is in the log, and every logged credit has left the
    balance.  The one exception is excluded by hypothesis: a spend by that
    account of -Infinity or NaN, which the route accepts and which leaves
    NULL for the balance. *)
Theorem X1_spends_conserve_balance_plus_log
    (calls : list (ApiStripe.faults * ApiStripe.usage_request)) (d : Store.db)
    (id : string) (c : Z) :
  Store.credits_of id d = Some (Some c) ->
  Forall (fun call => ApiStripe.userId (snd call) = id -> ApiStripe.countable (snd call))
    calls ->
  exists c',
    Store.credits_of id (ApiStripe.spend_all calls d) = Some (Some c') /\
    c' + Ledger.logged_total id (ApiStripe.spend_all calls d)
      = c + Ledger.logged_total id d.
Proof.
  revert c. induction calls as [|[f data] calls IH] using rev_ind; intros c Hc Hall.
  - by exists c.
  - apply Forall_app in Hall as [Hall Hlast]. apply Forall_inv in Hlast. cbn [snd] in Hlast.
    destruct (IH c Hc Hall) as (c1 & H1 & E1). rewrite spend_all_snoc.
    destruct (recordUsage_conserves f data _ id c1 H1 Hlast) as (c2 & H2 & E2).
    exists c2. split; [done|]. lia.
Qed.

Lemma X1_spends_conserve_balance_plus_log_witness :
  exists c',
    Store.credits_of "u1"
      (ApiStripe.spend_all
         [(ApiStripe.no_faults, Scenario.spend 5); (Scenario.update_fails, Scenario.spend 8);
          (Scenario.update_fails, Scenario.spend 3)]
         (Scenario.store_with 10)) = Some (Some c') /\
    c' + Ledger.logged_total "u1"
           (ApiStripe.spend_all
              [(ApiStripe.no_faults, Scenario.spend 5); (Scenario.update_fails, Scenario.spend 8);
               (Scenario.update_fails, Scenario.spend 3)]
              (Scenario.store_with 10))
      = 10 + Ledger.logged_total "u1" (Scenario.store_with 10).
Proof.
  apply (X1_spends_conserve_balance_plus_log
           [(ApiStripe.no_faults, Scenario.spend 5); (Scenario.update_fails, Scenario.spend 8);
            (Scenario.update_fails, Scenario.spend 3)]
           (Scenario.store_with 10) "u1" 10).
  - reflexivity.
  - repeat constructor; discriminate.
Defined.

(** X2: a sequence of spend calls changes nothing but balances and the log:
    subscriptions and prices are untouched, the log only grows at its end,
    no account is created or removed, and the limit, tier and status of every
    account stay what they were. *)
Theorem X2_spends_touch_only_balances_and_log
    (calls : list (ApiStripe.faults * ApiStripe.usage_request)) (d : Store.db) :
  Store.subscriptions (ApiStripe.spend_all calls d) = Store.subscriptions d /\
  Store.prices (ApiStripe.spend_all calls d) = Store.prices d /\
  (exists added,
     Store.usage_logs (ApiStripe.spend_all calls d) = (Store.usage_logs d ++ added)%list) /\
  forall id,
    Store.limit_of id (ApiStripe.spend_all calls d) = Store.limit_of id d /\
    Ledger.tier_of id (ApiStripe.spend_all calls d) = Ledger.tier_of id d /\
    Webhook.account_status id (ApiStripe.spend_all calls d) = Webhook.account_status id d /\
    (is_Some (Store.profiles (ApiStripe.spend_all calls d) !! id)
       <-> is_Some (Store.profiles d !! id)).
Proof.
  induction calls as [|[f data] calls IH] using rev_ind.
  - repeat split; try done. exists []. by rewrite app_nil_r.
  - rewrite spend_all_snoc.
    destruct IH as (Hs & Hp & [added Hl] & Hid).
    destruct (recordUsage_frame f data (ApiStripe.spend_all calls d))
      as (Hs' & Hp' & [added' Hl'] & Hid').
    split; [congruence|]. split; [congruence|]. split.
    + exists (added ++ added')%list. rewrite Hl', Hl. by rewrite app_assoc.
    + intros id. destruct (Hid id) as (A1 & A2 & A3 & A4).
      destruct (Hid' id) as (B1 & B2 & B3 & B4 & _).
      repeat split; try congruence; tauto.
Qed.

Section SpendMoreFacts.
Import JsString JsNumber Store ApiStripe Ledger.






Lemma fold_sum_acc (l : list usage_log) (a : Z) :
  fold_left (fun sum log => sum + to_Z (credits_used log)) l a =
  a + fold_left (fun sum log => sum + to_Z (credits_used log)) l 0.
Proof.
  revert a. induction l as [|x l IH]; intros a; cbn [fold_left]; [lia|].
  rewrite (IH (a + to_Z (credits_used x))), (IH (0 + to_Z (credits_used x))). lia.
Qed.

Lemma fold_sum_rev (l : list usage_log) :
  fold_left (fun sum log => sum + to_Z (credits_used log)) (rev l) 0 =
  fold_left (fun sum log => sum + to_Z (credits_used log)) l 0.
Proof.
  induction l as [|x l IH]; [done|]. cbn [rev]. rewrite fold_left_app. cbn [fold_left].
  rewrite IH. rewrite (fold_sum_acc l (0 + to_Z (credits_used x))). lia.
Qed.

End SpendMoreFacts.

(** X3: with the store working, a spend request that names its user and
    action on an existing account and carries a number is accepted exactly
    when the number is an integer that the balance covers (a NULL balance
    counting as 0) and both it and the new balance fit an INTEGER column, or
    the number is -Infinity or NaN.  An accepted spend of an integer replies
    creditsRemaining = balance - creditsUsed, appends its entry, and leaves
    exactly that balance in the store; an accepted spend of -Infinity or NaN
    appends an entry with NULL credits and leaves NULL for the balance. *)
Theorem X3_spend_accepted_exactly_when_covered
    (f : ApiStripe.faults) (data : ApiStripe.usage_request) (d : Store.db)
    (p : Store.profile) (cu : JsNumber.number) :
  JsString.truthy (ApiStripe.userId data) = true ->
  JsString.truthy (ApiStripe.actionType data) = true ->
  ApiStripe.creditsUsed data = Some cu ->
  Store.profiles d !! ApiStripe.userId data = Some p ->
  ApiStripe.fail_select_profile f = false ->
  ApiStripe.fail_insert_log f = false ->
  ApiStripe.fail_update_credits f = false ->
  (ApiStripe.accepted (fst (ApiStripe.recordUsage f data d)) = true <->
     (exists z, JsNumber.integer cu = Some z /\
                z <= JsNumber.to_Z (Store.usage_credits p) /\ Store.int4 z = true /\
                Store.int4 (JsNumber.to_Z (Store.usage_credits p) - z) = true) \/
     cu = JsNumber.NegInfinity \/ cu = JsNumber.NaN) /\
  (forall z, JsNumber.integer cu = Some z ->
     ApiStripe.accepted (fst (ApiStripe.recordUsage f data d)) = true ->
     ApiStripe.recordUsage f data d =
       (ApiStripe.json
          (ApiStripe.Recorded cu
             (JsNumber.sub (JsNumber.of_column (Store.usage_credits p)) cu)
             (Store.usage_limit p)) 200,
        ApiStripe.spent data z p d) /\
     JsNumber.integer (JsNumber.sub (JsNumber.of_column (Store.usage_credits p)) cu)
       = Some (JsNumber.to_Z (Store.usage_credits p) - z) /\
     Store.credits_of (ApiStripe.userId data) (snd (ApiStripe.recordUsage f data d))
       = Some (Some (JsNumber.to_Z (Store.usage_credits p) - z))) /\
  (cu = JsNumber.NegInfinity \/ cu = JsNumber.NaN ->
     ApiStripe.recordUsage f data d =
       (ApiStripe.json
          (ApiStripe.Recorded cu
             (JsNumber.sub (JsNumber.of_column (Store.usage_credits p)) cu)
             (Store.usage_limit p)) 200,
        ApiStripe.charged data None None p d) /\
     JsNumber.stringify (JsNumber.sub (JsNumber.of_column (Store.usage_credits p)) cu)
       = JsNumber.JsonNull /\
     Store.credits_of (ApiStripe.userId data) (snd (ApiStripe.recordUsage f data d))
       = Some None).
Proof.
  intros Hu Ha Hc Hp Hf1 Hf2 Hf3.
  assert (forall z, JsNumber.integer cu = Some z ->
            ApiStripe.accepted (fst (ApiStripe.recordUsage f data d)) = true ->
            z <= JsNumber.to_Z (Store.usage_credits p) /\ Store.int4 z = true /\
            Store.int4 (JsNumber.to_Z (Store.usage_credits p) - z) = true) as Hint.
  { intros z Hz Hacc.
    destruct (recordUsage_accepted f data d Hacc) as (cu' & p' & Hc' & Hp' & Hcase).
    assert (cu' = cu) as -> by congruence. assert (p' = p) as -> by congruence.
    destruct Hcase as [(z' & Hz' & H1 & H2 & H3 & _) | [[-> | ->] _]]; [|done..].
    assert (z' = z) as -> by congruence. done. }
  split; [split|split].
  - intros Hacc.
    destruct (recordUsage_accepted f data d Hacc) as (cu' & p' & Hc' & Hp' & Hcase).
    assert (cu' = cu) as -> by congruence. assert (p' = p) as -> by congruence.
    destruct Hcase as [(z & Hz & H1 & H2 & H3 & _) | [Hn _]]; [left|by right].
    by exists z.
  - intros [(z & Hz & Hle & Hi & Hr) | Hn].
    + by rewrite (recordUsage_spends f data d p cu z).
    + by rewrite (recordUsage_voids f data d p cu).
  - intros z Hz Hacc. destruct (Hint z Hz Hacc) as (Hle & Hi & Hr).
    rewrite (recordUsage_spends f data d p cu z) by done.
    split; [done|]. split; [by apply sub_integer|]. cbn [snd]. unfold Store.credits_of.
    by rewrite spent_lookup, decide_True by done.
  - intros Hn. rewrite (recordUsage_voids f data d p cu) by done.
    split; [done|]. split; [by destruct Hn as [-> | ->]|].
    cbn [snd]. unfold Store.credits_of.
    by rewrite charged_lookup, decide_True by done.
Qed.

Lemma X3_spend_accepted_exactly_when_covered_witness :
  ApiStripe.accepted
    (fst (ApiStripe.recordUsage ApiStripe.no_faults (Scenario.spend 4) (Scenario.store_with 10)))
    = true <->
  (exists z, JsNumber.integer (JsNumber.of_Z 4) = Some z /\
             z <= 10 /\ Store.int4 z = true /\ Store.int4 (10 - z) = true) \/
  JsNumber.of_Z 4 = JsNumber.NegInfinity \/ JsNumber.of_Z 4 = JsNumber.NaN.
Proof.
  apply (proj1 (X3_spend_accepted_exactly_when_covered ApiStripe.no_faults (Scenario.spend 4)
           (Scenario.store_with 10) (Scenario.free_profile 10 10) (JsNumber.of_Z 4)
           eq_refl eq_refl eq_refl eq_refl eq_refl eq_refl eq_refl)).
Defined.


(** X6: getUserUsage answers with the account's row and with entries of
    that account only, at most 100 of them, and totalUsed is their sum (an
    entry with NULL credits counting as 0); when the account has at most 100
    entries they are all there, newest first, and totalUsed is the total
    logged for the account.  The store is not changed. *)
Theorem X6_getUserUsage_reports_own_entries
    (f : ApiStripe.faults) (uid : string) (d : Store.db)
    (p : Store.profile) (logs : list Store.usage_log) (total : Z) :
  ApiStripe.getUserUsage f uid d = ApiStripe.json (ApiStripe.Usage p logs total) 200 ->
  Store.profiles d !! uid = Some p /\
  Forall (fun l => Store.user_id l = uid) logs /\
  (length logs <= 100)%nat /\
  total = fold_left (fun sum log => sum + JsNumber.to_Z (Store.credits_used log)) logs 0 /\
  ((length (Ledger.entries_of uid d) <= 100)%nat ->
   logs = rev (Ledger.entries_of uid d) /\ total = Ledger.logged_total uid d).
Proof.
  unfold ApiStripe.getUserUsage, Store.select_profile, Store.select_usage_logs.
  destruct (negb _); [discriminate|].
  destruct (ApiStripe.fail_select_profile f); [discriminate|].
  destruct (Store.profiles d !! uid) as [q|]; [|discriminate].
  destruct (ApiStripe.fail_select_logs f); [discriminate|].
  intros [= -> <- <-]. fold (Ledger.entries_of uid d).
  split; [done|]. split; [|split; [|split; [done|]]].
  - apply Forall_take, Forall_rev, Forall_forall. intros x Hx.
    by apply list_elem_of_filter in Hx as [? _].
  - rewrite length_take. lia.
  - intros Hle. rewrite take_ge by (by rewrite length_rev).
    split; [done|]. unfold Ledger.logged_total. apply fold_sum_rev.
Qed.

Lemma X6_getUserUsage_reports_own_entries_witness :
  Store.profiles
    (ApiStripe.spend_all [(ApiStripe.no_faults, Scenario.spend 4)] (Scenario.store_with 10))
    !! "u1" = Some (Scenario.free_profile 6 10) /\
  Forall (fun l => Store.user_id l = "u1") [ApiStripe.log_row (Scenario.spend 4) (Some 4)].
Proof.
  refine (let H := X6_getUserUsage_reports_own_entries ApiStripe.no_faults "u1"
             (ApiStripe.spend_all [(ApiStripe.no_faults, Scenario.spend 4)]
                (Scenario.store_with 10))
             (Scenario.free_profile 6 10) [ApiStripe.log_row (Scenario.spend 4) (Some 4)] 4
             eq_refl in conj (proj1 H) (proj1 (proj2 H))).
Defined.

(* ===================================================================== *)
(** ** Further properties: the usage gate *)
(* ===================================================================== *)

Section GateMoreFacts.
Import JsString JsNumber Store ApiStripe UsageGate.

(** [typeof] finds a number in the posted body: the tracker was given that
    number, and it is finite. *)
Lemma parsed_Some (n m : number) :
  parsed n = Some m -> n = m /\ exists q, n = Finite q.
Proof. destruct n; try done. intros [= <-]. split; [done|]. by eexists. Qed.

Lemma parsed_integer (n : number) (z : Z) :
  integer n = Some z -> parsed n = Some n.
Proof. intros H. by destruct (integer_Finite n z H) as [q ->]. Qed.

(** The pre-check says yes only when its round trip reached the route and
    both reads of the store worked. *)
Lemma hasEnoughCredits_reached c t n w :
  fst (hasEnoughCredits c t n w) = true ->
  network_error c = None /\ fail_select_profile (server c) = false /\
  fail_select_logs (server c) = false.
Proof.
  unfold hasEnoughCredits, tracker_getUserUsage, fetch.
  destruct (network_error c); [done|].
  unfold action, post. cbn.
  destruct (negb (truthy (t_stripeKey t))); [done|].
  destruct (negb (truthy (t_supabaseUrl t)) || negb (truthy (t_supabaseKey t))); [done|].
  unfold getUserUsage, select_profile, select_usage_logs.
  destruct (negb (truthy (t_userId t))); [done|].
  destruct (fail_select_profile (server c)); [done|].
  destruct (profiles (behind w) !! t_userId t) as [p|]; [|done].
  by destruct (fail_select_logs (server c)).
Qed.

(** The pre-check, with network and store working. *)
Lemma hasEnoughCredits_fair t n w p :
  truthy (t_userId t) = true -> truthy (t_stripeKey t) = true ->
  truthy (t_supabaseUrl t) = true -> truthy (t_supabaseKey t) = true ->
  profiles (behind w) !! t_userId t = Some p ->
  fst (hasEnoughCredits fair t n w) = ge (of_column (usage_credits p)) n.
Proof.
  intros Hu Hk Hl Hs Hp. unfold hasEnoughCredits, tracker_getUserUsage, fetch.
  cbn [network_error fair server]. rewrite action_post by done.
  unfold getUserUsage, select_profile, select_usage_logs. rewrite Hu. cbn.
  by rewrite Hp.
Qed.

(** The tracker's spend, when its request reaches the route. *)
Lemma tracker_recordUsage_reached c t a n m w :
  truthy (t_stripeKey t) = true ->
  truthy (t_supabaseUrl t) = true -> truthy (t_supabaseKey t) = true ->
  network_error c = None ->
  behind (snd (tracker_recordUsage c t a n m w)) =
    snd (recordUsage (server c) (spend_request t a n m) (behind w)) /\
  success (fst (tracker_recordUsage c t a n m w)) =
    accepted (fst (recordUsage (server c) (spend_request t a n m) (behind w))).
Proof.
  intros Hk Hl Hs Hn. unfold tracker_recordUsage, fetch. rewrite Hn.
  rewrite action_post by done.
  pose proof (recordUsage_ok_accepted (server c) (spend_request t a n m) (behind w)) as Hok.
  destruct (recordUsage _ _ _) as [r d']. cbn [fst snd] in *.
  rewrite <- Hok. unfold accepted in Hok.
  destruct (ok r) eqn:Ho; cbn [negb]; [|done].
  revert Hok. by destruct (http_body r).
Qed.

(** The middleware's run once the pre-check said yes. *)
Lemma checkAndRecordUsage_after_check check spend options d :
  truthy (userId options) = true -> truthy (stripeKey options) = true ->
  truthy (supabaseUrl options) = true -> truthy (supabaseKey options) = true ->
  fst (hasEnoughCredits check (new_UsageTracker options) (creditsRequired options)
         {| behind := d; sent := [] |}) = true ->
  posted (checkAndRecordUsage check spend options d) = ["getUserUsage"; "recordUsage"] /\
  ((store_after (checkAndRecordUsage check spend options d) = d /\
    allowed (result (checkAndRecordUsage check spend options d)) = false) \/
   (store_after (checkAndRecordUsage check spend options d) =
      snd (recordUsage (server spend) (spend_of options) d) /\
    allowed (result (checkAndRecordUsage check spend options d)) =
      accepted (fst (recordUsage (server spend) (spend_of options) d)) /\
    error (result (checkAndRecordUsage check spend options d)) =
      (if accepted (fst (recordUsage (server spend) (spend_of options) d)) then None
       else data_error (http_body (fst (recordUsage (server spend) (spend_of options) d)))))).
Proof.
  intros Hu Hk Hl Hs He.
  rewrite (checkAndRecordUsage_run check spend options d Hu Hk Hl Hs). cbn zeta.
  rewrite He. cbn [negb].
  set (w1 := {| behind := d; sent := _ |}).
  destruct (tracker_recordUsage_wire spend (new_UsageTracker options) (actionType options)
              (creditsRequired options) (metadata options) w1) as [Hsent _].
  split.
  { destruct (negb _); unfold finish; cbn [posted]; by rewrite Hsent. }
  destruct (tracker_recordUsage_cases spend (new_UsageTracker options) (actionType options)
              (creditsRequired options) (metadata options) w1)
    as [[Hb Hsu]|(Hb & Hsu & Her)].
  - left. rewrite Hsu. cbn [negb finish store_after result allowed]. by rewrite Hb.
  - right. fold (spend_of options) in Hb, Hsu, Her. cbn [behind w1] in Hb, Hsu, Her.
    rewrite Hsu. destruct (accepted _) eqn:Hacc; cbn [negb finish store_after result allowed error].
    + by rewrite Hb.
    + by rewrite Hb, Her.
Qed.

(** An allowed request: what the middleware found and what it left. *)
Lemma checkAndRecordUsage_allowed check spend options d :
  allowed (result (checkAndRecordUsage check spend options d)) = true ->
  truthy (userId options) = true /\ truthy (stripeKey options) = true /\
  truthy (supabaseUrl options) = true /\ truthy (supabaseKey options) = true /\
  fst (hasEnoughCredits check (new_UsageTracker options) (creditsRequired options)
         {| behind := d; sent := [] |}) = true.
Proof.
  intros H.
  destruct (truthy (userId options)) eqn:Hu.
  2:{ unfold checkAndRecordUsage in H. by rewrite Hu in H. }
  destruct (truthy (stripeKey options)) eqn:Hk.
  2:{ unfold checkAndRecordUsage in H. by rewrite Hu, Hk in H. }
  destruct (truthy (supabaseUrl options)) eqn:Hl.
  2:{ unfold checkAndRecordUsage in H. by rewrite Hu, Hk, Hl in H. }
  destruct (truthy (supabaseKey options)) eqn:Hs.
  2:{ unfold checkAndRecordUsage in H. by rewrite Hu, Hk, Hl, Hs in H. }
  repeat split; try done.
  rewrite (checkAndRecordUsage_run check spend options d Hu Hk Hl Hs) in H. cbn zeta in H.
  by destruct (fst (hasEnoughCredits _ _ _ _)).
Qed.

Lemma checkAndRecordUsage_charged check spend options d :
  allowed (result (checkAndRecordUsage check spend options d)) = true ->
  exists p z,
    profiles d !! userId options = Some p /\
    integer (creditsRequired options) = Some z /\
    z <= to_Z (usage_credits p) /\ int4 z = true /\
    int4 (to_Z (usage_credits p) - z) = true /\
    store_after (checkAndRecordUsage check spend options d) = spent (spend_of options) z p d /\
    posted (checkAndRecordUsage check spend options d) = ["getUserUsage"; "recordUsage"] /\
    error (result (checkAndRecordUsage check spend options d)) = None.
Proof.
  intros Hall.
  destruct (checkAndRecordUsage_allowed _ _ _ _ Hall) as (Hu & Hk & Hl & Hs & He).
  destruct (checkAndRecordUsage_after_check check spend options d Hu Hk Hl Hs He)
    as [Hposted [[_ Hno]|(Hst & Hacc & Herr)]]; [congruence|].
  rewrite Hall in Hacc. symmetry in Hacc. rewrite Hacc in Herr.
  destruct (recordUsage_accepted _ _ _ Hacc) as (cu & p & Hcu & Hp & Hcase).
  cbn in Hcu, Hp. apply parsed_Some in Hcu as [Hcu [q Hq]]. subst cu.
  destruct Hcase as [(z & Hz & H1 & H2 & H3 & Hsp) | [[Hn | Hn] _]];
    [|congruence..].
  exists p, z. rewrite Hst, Hsp. by repeat split.
Qed.

End GateMoreFacts.

(** X7: the gate never allows without charging.  Whenever
    checkAndRecordUsage answers allowed, under any network and store
    conditions, the account existed, creditsRequired was an integer that the
    balance covered (a NULL balance counting as 0), exactly one spend was
    posted after the read, its entry is in the log, and the balance is lower
    by creditsRequired. *)
Theorem X7_allowed_means_charged
    (check spend : UsageGate.conditions) (options : UsageGate.UsageMiddlewareOptions)
    (d : Store.db) :
  UsageGate.allowed (UsageGate.result (UsageGate.checkAndRecordUsage check spend options d))
    = true ->
  exists p z,
    Store.profiles d !! UsageGate.userId options = Some p /\
    JsNumber.integer (UsageGate.creditsRequired options) = Some z /\
    z <= JsNumber.to_Z (Store.usage_credits p) /\
    UsageGate.store_after (UsageGate.checkAndRecordUsage check spend options d) =
      ApiStripe.spent (UsageGate.spend_of options) z p d /\
    Store.usage_logs (UsageGate.store_after (UsageGate.checkAndRecordUsage check spend options d))
      = (Store.usage_logs d ++
         [{| Store.user_id := UsageGate.userId options;
             Store.action_type := UsageGate.actionType options;
             Store.credits_used := Some z;
             Store.metadata := UsageGate.metadata options |}])%list /\
    Store.credits_of (UsageGate.userId options)
      (UsageGate.store_after (UsageGate.checkAndRecordUsage check spend options d))
      = Some (Some (JsNumber.to_Z (Store.usage_credits p) - z)) /\
    UsageGate.posted (UsageGate.checkAndRecordUsage check spend options d)
      = ["getUserUsage"; "recordUsage"] /\
    UsageGate.error (UsageGate.result (UsageGate.checkAndRecordUsage check spend options d))
      = None.
Proof.
  intros Hall.
  destruct (checkAndRecordUsage_charged _ _ _ _ Hall)
    as (p & z & Hp & Hz & Hle & _ & _ & Hst & Hposted & Herr).
  exists p, z. rewrite Hst. repeat split; try done.
  unfold Store.credits_of. rewrite spent_lookup. cbn. by rewrite decide_True.
Qed.

Lemma X7_allowed_means_charged_witness :
  exists p z,
    Store.profiles (Scenario.store_with 10) !! "u1" = Some p /\
    JsNumber.integer (JsNumber.of_Z 4) = Some z /\
    z <= JsNumber.to_Z (Store.usage_credits p) /\
    UsageGate.store_after
      (UsageGate.checkAndRecordUsage UsageGate.fair UsageGate.fair (Scenario.gate_options 4)
         (Scenario.store_with 10)) =
      ApiStripe.spent (UsageGate.spend_of (Scenario.gate_options 4)) z p
        (Scenario.store_with 10) /\
    Store.usage_logs
      (UsageGate.store_after
         (UsageGate.checkAndRecordUsage UsageGate.fair UsageGate.fair (Scenario.gate_options 4)
            (Scenario.store_with 10)))
      = (Store.usage_logs (Scenario.store_with 10) ++
         [{| Store.user_id := "u1"; Store.action_type := "chat";
             Store.credits_used := Some z; Store.metadata := None |}])%list /\
    Store.credits_of "u1"
      (UsageGate.store_after
         (UsageGate.checkAndRecordUsage UsageGate.fair UsageGate.fair (Scenario.gate_options 4)
            (Scenario.store_with 10)))
      = Some (Some (JsNumber.to_Z (Store.usage_credits p) - z)) /\
    UsageGate.posted
      (UsageGate.checkAndRecordUsage UsageGate.fair UsageGate.fair (Scenario.gate_options 4)
         (Scenario.store_with 10)) = ["getUserUsage"; "recordUsage"] /\
    UsageGate.error
      (UsageGate.result
         (UsageGate.checkAndRecordUsage UsageGate.fair UsageGate.fair (Scenario.gate_options 4)
            (Scenario.store_with 10))) = None.
Proof.
  apply (X7_allowed_means_charged UsageGate.fair UsageGate.fair (Scenario.gate_options 4)
           (Scenario.store_with 10)).
  reflexivity.
Defined.

(** X9: every failure of the gate's pre-check read is reported as
    "Insufficient credits".  With credentials present, if the getUserUsage
    round trip fails -- the network is down, the read of the account or of
    its log fails, or the account does not exist -- the gate answers
    [{ allowed: false, error: 'Insufficient credits' }] whatever the balance,
    posts no spend and leaves the store unchanged. *)
Theorem X9_failed_precheck_reads_as_insufficient
    (check spend : UsageGate.conditions) (options : UsageGate.UsageMiddlewareOptions)
    (d : Store.db) :
  JsString.truthy (UsageGate.userId options) = true ->
  JsString.truthy (UsageGate.stripeKey options) = true ->
  JsString.truthy (UsageGate.supabaseUrl options) = true ->
  JsString.truthy (UsageGate.supabaseKey options) = true ->
  (UsageGate.network_error check <> None \/
   ApiStripe.fail_select_profile (UsageGate.server check) = true \/
   ApiStripe.fail_select_logs (UsageGate.server check) = true \/
   Store.profiles d !! UsageGate.userId options = None) ->
  UsageGate.checkAndRecordUsage check spend options d =
    {| UsageGate.result :=
         {| UsageGate.allowed := false; UsageGate.error := Some "Insufficient credits" |};
       UsageGate.store_after := d;
       UsageGate.posted := ["getUserUsage"] |}.
Proof.
  intros Hu Hk Hl Hs Hfail.
  rewrite (checkAndRecordUsage_run check spend options d Hu Hk Hl Hs). cbn zeta.
  destruct (fst (UsageGate.hasEnoughCredits _ _ _ _)) eqn:He; [|done].
  destruct (hasEnoughCredits_reached _ _ _ _ He) as (H1 & H2 & H3).
  apply hasEnoughCredits_true in He as (p & Hp & _). cbn in Hp.
  destruct Hfail as [?|[?|[?|?]]]; congruence.
Qed.

Lemma X9_failed_precheck_reads_as_insufficient_witness :
  UsageGate.checkAndRecordUsage
    {| UsageGate.network_error := Some "fetch failed"; UsageGate.server := ApiStripe.no_faults |}
    UsageGate.fair (Scenario.gate_options 4) (Scenario.store_with 10) =
  {| UsageGate.result :=
       {| UsageGate.allowed := false; UsageGate.error := Some "Insufficient credits" |};
     UsageGate.store_after := Scenario.store_with 10;
     UsageGate.posted := ["getUserUsage"] |}.
Proof.
  apply (X9_failed_precheck_reads_as_insufficient
           {| UsageGate.network_error := Some "fetch failed";
              UsageGate.server := ApiStripe.no_faults |}
           UsageGate.fair (Scenario.gate_options 4) (Scenario.store_with 10)
           eq_refl eq_refl eq_refl eq_refl).
  left. discriminate.
Defined.

(** X10: a denial has not charged the account, with one exception.  When
    checkAndRecordUsage answers not allowed, the store is as it was, unless
    the route's last store call (its own update of usage_credits) did not go
    through after the entry was logged: then the error is "Failed to update
    credits" and the entry is in the log although the request was denied.
    If the balance was an integer, that update failed in the store and the
    balance is lower by creditsRequired; if the balance was NULL it still
    is. *)
Theorem X10_denied_means_not_charged_unless_last_update_failed
    (check spend : UsageGate.conditions) (options : UsageGate.UsageMiddlewareOptions)
    (d : Store.db) :
  UsageGate.allowed (UsageGate.result (UsageGate.checkAndRecordUsage check spend options d))
    = false ->
  UsageGate.store_after (UsageGate.checkAndRecordUsage check spend options d) = d \/
  (UsageGate.error (UsageGate.result (UsageGate.checkAndRecordUsage check spend options d))
     = Some "Failed to update credits" /\
   exists p z,
     Store.profiles d !! UsageGate.userId options = Some p /\
     JsNumber.integer (UsageGate.creditsRequired options) = Some z /\
     z <= JsNumber.to_Z (Store.usage_credits p) /\
     ((exists b, Store.usage_credits p = Some b /\
         ApiStripe.fail_update_credits (UsageGate.server spend) = true /\
         UsageGate.store_after (UsageGate.checkAndRecordUsage check spend options d) =
           ApiStripe.spent (UsageGate.spend_of options) z p d) \/
      (Store.usage_credits p = None /\
         UsageGate.store_after (UsageGate.checkAndRecordUsage check spend options d) =
           ApiStripe.charged (UsageGate.spend_of options) (Some z) None p d))).
Proof.
  intros Hden.
  destruct (JsString.truthy (UsageGate.userId options)) eqn:Hu.
  2:{ left. unfold UsageGate.checkAndRecordUsage. by rewrite Hu. }
  destruct (JsString.truthy (UsageGate.stripeKey options)) eqn:Hk.
  2:{ left. unfold UsageGate.checkAndRecordUsage. by rewrite Hu, Hk. }
  destruct (JsString.truthy (UsageGate.supabaseUrl options)) eqn:Hl.
  2:{ left. unfold UsageGate.checkAndRecordUsage. by rewrite Hu, Hk, Hl. }
  destruct (JsString.truthy (UsageGate.supabaseKey options)) eqn:Hs.
  2:{ left. unfold UsageGate.checkAndRecordUsage. by rewrite Hu, Hk, Hl, Hs. }
  destruct (fst (UsageGate.hasEnoughCredits check (UsageGate.new_UsageTracker options)
                   (UsageGate.creditsRequired options)
                   {| UsageGate.behind := d; UsageGate.sent := [] |})) eqn:He.
  2:{ left. rewrite (checkAndRecordUsage_run check spend options d Hu Hk Hl Hs).
      cbn zeta. by rewrite He. }
  destruct (checkAndRecordUsage_after_check check spend options d Hu Hk Hl Hs He)
    as [_ [[Hst _]|(Hst & Hacc & Herr)]]; [by left|].
  rewrite Hden in Hacc. symmetry in Hacc. rewrite Hacc in Herr.
  rewrite Hst, Herr.
  destruct (recordUsage_cases (UsageGate.server spend) (UsageGate.spend_of options) d)
    as [[-> _]|[(cu & z & p & H1 & H2 & H3 & H4 & H5 & H6 & Hr)
               |[(cu & p & H1 & H2 & H3 & Hr)
                |(cu & v & p & H1 & H2 & H3 & Hr & H4 & H5 & H6)]]].
  - by left.
  - rewrite Hr in Hacc. cbn in Hacc. discriminate.
  - rewrite Hr in Hacc. cbn in Hacc. discriminate.
  - right. rewrite Hr. cbn [fst snd ApiStripe.json ApiStripe.http_body UsageGate.data_error].
    split; [done|]. cbn in H1, H3. apply parsed_Some in H1 as [H1 [q Hq]]. subst cu.
    destruct v as [z|]; [|destruct (H5 eq_refl); congruence].
    destruct (H4 z eq_refl) as [Hz Hle]. exists p, z.
    split; [done|]. split; [done|]. split; [done|].
    destruct (Store.usage_credits p) as [b|] eqn:Hb.
    + left. exists b. split; [done|].
      destruct H6 as [H6|[H6 _]]; [|done]. split; [done|].
      by apply (logged_spent _ _ _ _ b).
    + right. split; [done|]. unfold ApiStripe.logged. by rewrite Hb.
Qed.

Lemma X10_denied_means_not_charged_unless_last_update_failed_witness :
  UsageGate.store_after
    (UsageGate.checkAndRecordUsage UsageGate.fair UsageGate.fair (Scenario.gate_options 40)
       (Scenario.store_with 10)) = Scenario.store_with 10 \/
  (UsageGate.error
     (UsageGate.result
        (UsageGate.checkAndRecordUsage UsageGate.fair UsageGate.fair (Scenario.gate_options 40)
           (Scenario.store_with 10))) = Some "Failed to update credits" /\
   exists p z,
     Store.profiles (Scenario.store_with 10) !! "u1" = Some p /\
     JsNumber.integer (JsNumber.of_Z 40) = Some z /\
     z <= JsNumber.to_Z (Store.usage_credits p) /\
     ((exists b, Store.usage_credits p = Some b /\
         ApiStripe.fail_update_credits (UsageGate.server UsageGate.fair) = true /\
         UsageGate.store_after
           (UsageGate.checkAndRecordUsage UsageGate.fair UsageGate.fair
              (Scenario.gate_options 40) (Scenario.store_with 10)) =
           ApiStripe.spent (UsageGate.spend_of (Scenario.gate_options 40)) z p
             (Scenario.store_with 10)) \/
      (Store.usage_credits p = None /\
         UsageGate.store_after
           (UsageGate.checkAndRecordUsage UsageGate.fair UsageGate.fair
              (Scenario.gate_options 40) (Scenario.store_with 10)) =
           ApiStripe.charged (UsageGate.spend_of (Scenario.gate_options 40)) (Some z) None p
             (Scenario.store_with 10)))).
Proof.
  apply (X10_denied_means_not_charged_unless_last_update_failed UsageGate.fair UsageGate.fair
           (Scenario.gate_options 40) (Scenario.store_with 10)).
  reflexivity.
Defined.

(** X8: with network and store working, the gate's verdict is the
    ledger's.  For a request with credentials and an action type, on an
    existing account, checkAndRecordUsage answers allowed exactly when
    creditsRequired is an integer that the balance covers (a NULL balance
    counting as 0) and both creditsRequired and the new balance fit an
    INTEGER column. *)
Theorem X8_gate_allows_exactly_when_covered
    (options : UsageGate.UsageMiddlewareOptions) (d : Store.db) (p : Store.profile) :
  JsString.truthy (UsageGate.userId options) = true ->
  JsString.truthy (UsageGate.stripeKey options) = true ->
  JsString.truthy (UsageGate.supabaseUrl options) = true ->
  JsString.truthy (UsageGate.supabaseKey options) = true ->
  JsString.truthy (UsageGate.actionType options) = true ->
  Store.profiles d !! UsageGate.userId options = Some p ->
  (UsageGate.allowed
     (UsageGate.result
        (UsageGate.checkAndRecordUsage UsageGate.fair UsageGate.fair options d)) = true <->
   exists z,
     JsNumber.integer (UsageGate.creditsRequired options) = Some z /\
     z <= JsNumber.to_Z (Store.usage_credits p) /\
     Store.int4 z = true /\
     Store.int4 (JsNumber.to_Z (Store.usage_credits p) - z) = true).
Proof.
  intros Hu Hk Hl Hs Ha Hp. split.
  - intros Hall.
    destruct (checkAndRecordUsage_charged _ _ _ _ Hall)
      as (p' & z & Hp' & Hz & Hle & Hi & Hr & _).
    assert (p' = p) as -> by congruence. by exists z.
  - intros (z & Hz & Hle & Hi & Hr).
    rewrite (checkAndRecordUsage_run _ _ options d Hu Hk Hl Hs). cbn zeta.
    rewrite (hasEnoughCredits_fair (UsageGate.new_UsageTracker options) _ _ p) by done.
    unfold JsNumber.of_column. rewrite (ge_integer _ _ _ Hz).
    destruct (Z.leb_spec z (JsNumber.to_Z (Store.usage_credits p))); [|lia]. cbn [negb].
    destruct (tracker_recordUsage_reached UsageGate.fair (UsageGate.new_UsageTracker options)
                (UsageGate.actionType options) (UsageGate.creditsRequired options)
                (UsageGate.metadata options)
                {| UsageGate.behind := d;
                   UsageGate.sent :=
                     [UsageGate.post (UsageGate.new_UsageTracker options)
                        (ApiStripe.GetUserUsage (UsageGate.userId options))] |}
                Hk Hl Hs eq_refl) as [_ Hsu].
    rewrite Hsu. cbn [UsageGate.behind UsageGate.server UsageGate.fair].
    rewrite (recordUsage_spends ApiStripe.no_faults _ d p (UsageGate.creditsRequired options) z);
      try done.
    cbn. by apply parsed_integer with z.
Qed.

Lemma X8_gate_allows_exactly_when_covered_witness :
  UsageGate.allowed
    (UsageGate.result
       (UsageGate.checkAndRecordUsage UsageGate.fair UsageGate.fair (Scenario.gate_options 4)
          (Scenario.store_with 10))) = true <->
  exists z,
    JsNumber.integer (JsNumber.of_Z 4) = Some z /\
    z <= 10 /\ Store.int4 z = true /\ Store.int4 (10 - z) = true.
Proof.
  apply (X8_gate_allows_exactly_when_covered (Scenario.gate_options 4)
           (Scenario.store_with 10) (Scenario.free_profile 10 10)
           eq_refl eq_refl eq_refl eq_refl eq_refl eq_refl).
Defined.

(* ===================================================================== *)
(** ** Further properties: the webhook *)
(* ===================================================================== *)

Section WebhookMoreFacts.
Import JsString TierPolicy JsError Store Webhook Ledger.

Lemma kept_same ps ls ss ss' pr :
  balances_kept {| profiles := ps; usage_logs := ls; subscriptions := ss; prices := pr |}
    {| profiles := ps; usage_logs := ls; subscriptions := ss'; prices := pr |}.
Proof. by intros id. Qed.

(** An update that sets only the status keeps balance, limit and tier. *)
Lemma kept_status st uid ps ls ss ss' pr :
  balances_kept {| profiles := ps; usage_logs := ls; subscriptions := ss; prices := pr |}
    {| profiles := alter (apply_update (status_update st)) uid ps;
       usage_logs := ls; subscriptions := ss'; prices := pr |}.
Proof.
  intros id. unfold credits_of, limit_of, tier_of. cbn [profiles].
  rewrite lookup_alter. case_decide as H; [subst id|done].
  by destruct (ps !! uid).
Qed.

Ltac kept := first [ done | apply kept_same | apply kept_status ].

Lemma subscription_changed_unacknowledged c b s prev d :
  fst (subscription_changed c b s prev d) <> received ->
  balances_kept d (snd (subscription_changed c b s prev d)).
Proof.
  destruct d as [ps ls ss pr]. unfold subscription_changed.
  destruct (some_text (metadata_userId s)) as [uid|]; [|intros _; kept].
  destruct (upsert_row uid s) as [[item row]|e]; [|intros _; kept].
  unfold upsert_subscription. destruct (fail_upsert_subscription c); [intros _; kept|].
  unfold update_profile, select_price, with_subscriptions, with_profiles. cbn.
  destruct (fail_update_status c); cbn; [intros _; kept|].
  destruct (refill b s prev); cbn; [|done].
  destruct (resolve _) as [tier lim].
  destruct (fail_reset_credits c); cbn; [intros _; kept|].
  destruct (negb _); cbn; [intros _; kept|done].
Qed.

Lemma subscription_deleted_unacknowledged c s d :
  fst (subscription_deleted c s d) <> received ->
  balances_kept d (snd (subscription_deleted c s d)).
Proof.
  destruct d as [ps ls ss pr]. unfold subscription_deleted.
  destruct (some_text (metadata_userId s)) as [uid|]; [|intros _; kept].
  destruct (iso _) as [ended|]; [|intros _; kept].
  unfold end_subscription. destruct (fail_end_subscription c); [intros _; kept|].
  unfold update_profile, with_subscriptions, with_profiles. cbn.
  destruct (fail_update_status c); cbn; [intros _; kept|done].
Qed.

Lemma invoice_payment_succeeded_unacknowledged c i d :
  fst (invoice_payment_succeeded c i d) <> received ->
  balances_kept d (snd (invoice_payment_succeeded c i d)).
Proof.
  destruct d as [ps ls ss pr]. unfold invoice_payment_succeeded.
  destruct (some_text (inv_subscription i)) as [sid|]; [|intros _; kept].
  destruct (some_text (inv_customer i)) as [cid|]; [|intros _; kept].
  destruct (select_subscription_user _ _ _) as [uid|]; [|intros _; kept].
  destruct (retrieve c sid) as [sub|e]; [|intros _; kept].
  destruct (items sub) as [|item rest]; [intros _; kept|].
  destruct (resolve _) as [tier lim].
  unfold update_profile. destruct (fail_reset_credits c); [intros _; kept|].
  destruct (negb _); [intros _; kept|done].
Qed.

Lemma invoice_payment_failed_unacknowledged c i d :
  fst (invoice_payment_failed c i d) <> received ->
  balances_kept d (snd (invoice_payment_failed c i d)).
Proof.
  destruct d as [ps ls ss pr]. unfold invoice_payment_failed.
  destruct (some_text (inv_subscription i)) as [sid|]; [|intros _; kept].
  destruct (select_subscription_user _ _ _) as [uid|]; [|intros _; kept].
  unfold update_profile. destruct (fail_update_status c); [intros _; kept|done].
Qed.

Lemma action_unacknowledged c request d :
  fst (action c request d) <> received ->
  balances_kept d (snd (action c request d)).
Proof.
  unfold action. destruct (negb _); [by intros _ id|].
  destruct (some_text (signature request)); [|by intros _ id].
  destruct (negb _); [by intros _ id|].
  destruct (constructEvent request) as [ev|]; [|by intros _ id].
  unfold handle. destruct (data ev).
  - apply subscription_changed_unacknowledged.
  - apply subscription_changed_unacknowledged.
  - apply subscription_deleted_unacknowledged.
  - apply invoice_payment_succeeded_unacknowledged.
  - apply invoice_payment_failed_unacknowledged.
  - done.
Qed.

End WebhookMoreFacts.

Section WebhookShapeFacts.
Import JsString TierPolicy JsError Store Webhook Ledger.

Ltac unchanged :=
  exists (fun p => p); eexists; cbn;
  rewrite ?(alter_id (fun p : profile => p)) by (intros; reflexivity); reflexivity.

Ltac changed :=
  eexists; eexists; cbn; rewrite ?alter_alter_eq; reflexivity.

Lemma subscription_changed_shape c b s prev d :
  shape (some_text (metadata_userId s)) d (snd (subscription_changed c b s prev d)).
Proof.
  destruct d as [ps ls ss pr]. unfold shape, subscription_changed.
  destruct (some_text (metadata_userId s)) as [uid|]; [|unchanged].
  destruct (upsert_row uid s) as [[item row]|e]; [|unchanged].
  unfold upsert_subscription. destruct (fail_upsert_subscription c); [unchanged|].
  unfold update_profile, select_price, with_subscriptions, with_profiles. cbn.
  destruct (fail_update_status c); cbn; [unchanged|].
  destruct (refill b s prev); cbn; [|changed].
  destruct (resolve _) as [tier lim].
  destruct (fail_reset_credits c); cbn; [changed|].
  destruct (negb _); cbn; changed.
Qed.

Lemma subscription_deleted_shape c s d :
  shape (some_text (metadata_userId s)) d (snd (subscription_deleted c s d)).
Proof.
  destruct d as [ps ls ss pr]. unfold shape, subscription_deleted.
  destruct (some_text (metadata_userId s)) as [uid|]; [|unchanged].
  destruct (iso _) as [ended|]; [|unchanged].
  unfold end_subscription. destruct (fail_end_subscription c); [unchanged|].
  unfold update_profile, with_subscriptions, with_profiles. cbn.
  destruct (fail_update_status c); cbn; [unchanged|changed].
Qed.

Lemma invoice_payment_succeeded_shape c i d :
  shape (match some_text (inv_subscription i) with
         | Some sid => sub_user_id <$> subscriptions d !! sid
         | None => None
         end) d (snd (invoice_payment_succeeded c i d)).
Proof.
  destruct d as [ps ls ss pr]. unfold shape, invoice_payment_succeeded.
  destruct (some_text (inv_subscription i)) as [sid|]; [|unchanged].
  unfold select_subscription_user. cbn [subscriptions].
  destruct (ss !! sid) as [row|]; cbn [fmap option_fmap option_map];
    [|destruct (some_text (inv_customer i)); [destruct (fail_select_subscription c)|];
      unchanged].
  destruct (some_text (inv_customer i)) as [cid|]; [|unchanged].
  destruct (fail_select_subscription c); [unchanged|].
  destruct (retrieve c sid) as [sub|e]; [|unchanged].
  destruct (items sub) as [|item rest]; [unchanged|].
  destruct (resolve _) as [tier lim].
  unfold update_profile. destruct (fail_reset_credits c); [unchanged|].
  destruct (negb _); [unchanged|changed].
Qed.

Lemma invoice_payment_failed_shape c i d :
  shape (match some_text (inv_subscription i) with
         | Some sid => sub_user_id <$> subscriptions d !! sid
         | None => None
         end) d (snd (invoice_payment_failed c i d)).
Proof.
  destruct d as [ps ls ss pr]. unfold shape, invoice_payment_failed.
  destruct (some_text (inv_subscription i)) as [sid|]; [|unchanged].
  unfold select_subscription_user. cbn [subscriptions].
  destruct (ss !! sid) as [row|]; cbn [fmap option_fmap option_map];
    [|destruct (fail_select_subscription c); unchanged].
  destruct (fail_select_subscription c); [unchanged|].
  unfold update_profile. destruct (fail_update_status c); [unchanged|changed].
Qed.

Lemma handle_shape c ev d : shape (event_user ev d) d (snd (handle c ev d)).
Proof.
  unfold handle, event_user. destruct (data ev).
  - apply subscription_changed_shape.
  - apply subscription_changed_shape.
  - apply subscription_deleted_shape.
  - apply invoice_payment_succeeded_shape.
  - apply invoice_payment_failed_shape.
  - destruct d as [ps ls ss pr]. by exists (fun p => p), ss.
Qed.

End WebhookShapeFacts.

Section WebhookEffectFacts.
Import JsString TierPolicy JsError Store Webhook Ledger.

Lemma subscription_changed_no_refill c b s prev d :
  refill b s prev = false ->
  balances_kept d (snd (subscription_changed c b s prev d)).
Proof.
  intros Hr. destruct d as [ps ls ss pr]. unfold subscription_changed.
  destruct (some_text (metadata_userId s)) as [uid|]; [|apply kept_same].
  destruct (upsert_row uid s) as [[item row]|e]; [|apply kept_same].
  unfold upsert_subscription. destruct (fail_upsert_subscription c); [apply kept_same|].
  unfold update_profile, with_subscriptions, with_profiles. cbn.
  destruct (fail_update_status c); cbn; [apply kept_same|].
  rewrite Hr. apply kept_status.
Qed.

Lemma refill_update_false s prev :
  sub_status s <> "active" \/ some_text prev = None \/ prev = Some "active" ->
  refill false s prev = false.
Proof.
  unfold refill. intros [H|[H|H]].
  - apply String.eqb_neq in H. by rewrite H.
  - rewrite H. cbn. apply andb_false_r.
  - subst prev. cbn. apply andb_false_r.
Qed.

Lemma refill_update_true s q :
  sub_status s = "active" -> q <> "" -> q <> "active" ->
  refill false s (Some q) = true.
Proof.
  intros Hst Hq1 Hq2. unfold refill, some_text. rewrite Hst, String.eqb_refl.
  destruct q as [|a q]; [done|]. cbn [truthy orb andb].
  apply String.eqb_neq in Hq2. by rewrite Hq2.
Qed.

Lemma refill_created_true s prev :
  sub_status s = "active" -> refill true s prev = true.
Proof. intros Hst. unfold refill. by rewrite Hst, String.eqb_refl. Qed.

Lemma resolve_is_paid_tier (price : option price_row) :
  resolve price = ("basic", 500) \/ resolve price = ("premium", 2000) \/
  resolve price = ("enterprise", 10000).
Proof.
  unfold resolve. destruct (product_name price) as [nm|]; [|by left].
  destruct (truthy nm); [|by left]. cbn zeta.
  destruct (includes _ "premium"); [by right; left|].
  destruct (includes _ "enterprise"); [by right; right|by left].
Qed.

Lemma subscription_changed_refills c b s prev uid item rest p d :
  refill b s prev = true ->
  metadata_userId s = Some uid -> truthy uid = true -> items s = item :: rest ->
  times_representable s ->
  fail_upsert_subscription c = false -> fail_update_status c = false ->
  fail_reset_credits c = false ->
  profiles d !! uid = Some p ->
  fst (subscription_changed c b s prev d) = received /\
  profiles (snd (subscription_changed c b s prev d)) !! uid =
    Some (refilled (fst (resolve (select_price (fail_select_price c) (item_price_id item) d)))
                   (snd (resolve (select_price (fail_select_price c) (item_price_id item) d)))
                   (sub_status s) p).
Proof.
  intros Hr Hm Hu Hi Ht Hf1 Hf2 Hf3 Hp. destruct d as [ps ls ss pr].
  unfold subscription_changed, upsert_subscription, update_profile, select_price.
  rewrite Hm, (some_text_Some _ Hu), (upsert_row_Returned uid s item rest Hi Ht).
  rewrite Hf1, Hf2, Hr, Hf3. cbn.
  pose proof (resolve_limit_in_range
                (if fail_select_price c then None else pr !! item_price_id item)) as Hl.
  destruct (resolve _) as [tier lim]. cbn in Hl.
  unfold update_in_range. cbn. rewrite Hl. cbn.
  split; [done|]. cbn in Hp. by rewrite !lookup_alter_eq, Hp.
Qed.

End WebhookEffectFacts.

(** X11: a request the webhook cannot take for a verified Stripe event --
    not a POST, no signature header, secrets missing, or a signature that
    does not verify -- is answered 405 or 400 and leaves the store
    unchanged, whatever the store conditions. *)
Theorem X11_unverified_delivery_changes_nothing
    (c : Webhook.conditions) (request : Webhook.webhook_request) (d : Store.db) :
  Webhook.method request <> "POST" \/
  Webhook.some_text (Webhook.signature request) = None \/
  Webhook.secrets_present request = false \/
  Webhook.constructEvent request = None ->
  snd (Webhook.action c request d) = d /\
  (Webhook.http_status (fst (Webhook.action c request d)) = 405%nat \/
   Webhook.http_status (fst (Webhook.action c request d)) = 400%nat) /\
  fst (Webhook.action c request d) <> Webhook.received.
Proof.
  intros H. unfold Webhook.action.
  destruct (String.eqb_spec (Webhook.method request) "POST") as [Hm|Hm]; cbn [negb];
    [|by repeat split; [left|]].
  destruct (Webhook.some_text (Webhook.signature request)) eqn:Hs;
    [|by repeat split; [right|]].
  destruct (Webhook.secrets_present request) eqn:Hp; cbn [negb];
    [|by repeat split; [right|]].
  destruct (Webhook.constructEvent request) eqn:He; [|by repeat split; [right|]].
  destruct H as [?|[?|[?|?]]]; done.
Qed.

Lemma X11_unverified_delivery_changes_nothing_witness :
  snd (Webhook.action (Webhook.calm Scenario.stripe_knows)
         {| Webhook.method := "POST"; Webhook.signature := Some "t=1,v1=bad";
            Webhook.secrets_present := true; Webhook.constructEvent := None |}
         (Scenario.premium_store 120)) = Scenario.premium_store 120.
Proof.
  apply (proj1 (X11_unverified_delivery_changes_nothing (Webhook.calm Scenario.stripe_knows)
           {| Webhook.method := "POST"; Webhook.signature := Some "t=1,v1=bad";
              Webhook.secrets_present := true; Webhook.constructEvent := None |}
           (Scenario.premium_store 120)
           (or_intror (or_intror (or_intror eq_refl))))).
Defined.

(** X12: whatever the event and the store conditions, the webhook never
    touches the usage log or the prices, never creates or removes an
    account, and changes the row of no account other than the one the event
    is attributed to (the userId of the subscription's metadata, or the owner
    of the invoice's subscription row). *)
Theorem X12_webhook_touches_only_the_events_account
    (c : Webhook.conditions) (ev : Webhook.stripe_event) (d : Store.db) :
  Store.usage_logs (Webhook.apply c ev d) = Store.usage_logs d /\
  Store.prices (Webhook.apply c ev d) = Store.prices d /\
  (forall id, is_Some (Store.profiles (Webhook.apply c ev d) !! id)
              <-> is_Some (Store.profiles d !! id)) /\
  (forall id, Ledger.event_user ev d <> Some id ->
              Store.profiles (Webhook.apply c ev d) !! id = Store.profiles d !! id).
Proof.
  rewrite apply_handle. destruct (handle_shape c ev d) as (F & ss' & ->).
  cbn [Store.usage_logs Store.prices Store.profiles].
  split; [done|]. split; [done|]. split.
  - intros id. destruct (Ledger.event_user ev d) as [uid|]; [|done].
    rewrite lookup_alter. case_decide; [subst|done].
    rewrite fmap_is_Some. done.
  - intros id Hne. destruct (Ledger.event_user ev d) as [uid|]; [|done].
    rewrite lookup_alter_ne; [done|congruence].
Qed.

(** X13: credits change only on acknowledged events.  Whenever the webhook
    answers anything but [{ received: true }] -- a rejected request, an event
    it cannot attribute, a store failure at any point -- the balance, the limit
    and the tier of every account are what they were. *)
Theorem X13_unacknowledged_delivery_keeps_balances
    (c : Webhook.conditions) (request : Webhook.webhook_request) (d : Store.db)
    (id : string) :
  fst (Webhook.action c request d) <> Webhook.received ->
  Store.credits_of id (snd (Webhook.action c request d)) = Store.credits_of id d /\
  Store.limit_of id (snd (Webhook.action c request d)) = Store.limit_of id d /\
  Ledger.tier_of id (snd (Webhook.action c request d)) = Ledger.tier_of id d.
Proof. intros H. by apply action_unacknowledged. Qed.

Lemma X13_unacknowledged_delivery_keeps_balances_witness :
  Store.credits_of "u1"
    (snd (Webhook.action Examples.refill_fails (Webhook.delivery Examples.created_active)
            (Scenario.premium_store 120))) = Some (Some 120) /\
  Webhook.account_status "u1"
    (snd (Webhook.action Examples.refill_fails (Webhook.delivery Examples.created_active)
            (Scenario.premium_store 120))) = Some "active".
Proof.
  split; [|reflexivity].
  apply (proj1 (X13_unacknowledged_delivery_keeps_balances Examples.refill_fails
           (Webhook.delivery Examples.created_active) (Scenario.premium_store 120) "u1"
           ltac:(vm_compute; discriminate))).
Defined.

(** X14: routine updates do not refill.  A "subscription updated" event
    whose status is not active, or that carries no previous status, or whose
    previous status was already active, leaves the balance, the limit and the
    tier of every account unchanged, under any store conditions. *)
Theorem X14_update_without_activation_keeps_balances
    (c : Webhook.conditions) (ev : Webhook.stripe_event) (s : Webhook.stripe_subscription)
    (prev : option string) (d : Store.db) (id : string) :
  Webhook.data ev = Webhook.SubscriptionUpdated s prev ->
  Webhook.sub_status s <> "active" \/ Webhook.some_text prev = None \/
  prev = Some "active" ->
  Store.credits_of id (Webhook.apply c ev d) = Store.credits_of id d /\
  Store.limit_of id (Webhook.apply c ev d) = Store.limit_of id d /\
  Ledger.tier_of id (Webhook.apply c ev d) = Ledger.tier_of id d.
Proof.
  intros Hev H. rewrite apply_handle. unfold Webhook.handle. rewrite Hev.
  by apply subscription_changed_no_refill, refill_update_false.
Qed.

Lemma X14_update_without_activation_keeps_balances_witness :
  Store.credits_of "u1"
    (Webhook.apply (Webhook.calm Scenario.stripe_knows) Scenario.updated_active
       (Scenario.premium_store 120)) = Some (Some 120).
Proof.
  apply (proj1 (X14_update_without_activation_keeps_balances
           (Webhook.calm Scenario.stripe_knows) Scenario.updated_active
           (Scenario.subscription_1 "active") None (Scenario.premium_store 120) "u1"
           eq_refl (or_intror (or_introl eq_refl)))).
Defined.

(** X15: activation refills.  A "subscription created" event with status
    active, or a "subscription updated" event into active from a different
    previous status, when the store works, sets the account's tier to the
    tier resolved from the price's product name, its balance and its limit
    both to that tier's limit, and its status to active; the tier is basic,
    premium or enterprise, never free.  The times of the subscription object
    are ones Date can represent: with one that is not, the webhook throws
    before it writes. *)
Theorem X15_activation_refills_to_the_resolved_tier
    (c : Webhook.conditions) (ev : Webhook.stripe_event) (s : Webhook.stripe_subscription)
    (uid : string) (item : Webhook.stripe_item) (rest : list Webhook.stripe_item)
    (p : Store.profile) (d : Store.db) :
  Webhook.data ev = Webhook.SubscriptionCreated s \/
  (exists q, Webhook.data ev = Webhook.SubscriptionUpdated s (Some q) /\
             q <> "" /\ q <> "active") ->
  Webhook.sub_status s = "active" ->
  Webhook.metadata_userId s = Some uid -> JsString.truthy uid = true ->
  Webhook.items s = item :: rest ->
  Webhook.times_representable s ->
  Webhook.fail_upsert_subscription c = false -> Webhook.fail_update_status c = false ->
  Webhook.fail_reset_credits c = false ->
  Store.profiles d !! uid = Some p ->
  exists tier lim,
    TierPolicy.resolve
      (Store.select_price (Webhook.fail_select_price c) (Webhook.item_price_id item) d)
      = (tier, lim) /\
    ((tier, lim) = ("basic", 500) \/ (tier, lim) = ("premium", 2000) \/
     (tier, lim) = ("enterprise", 10000)) /\
    fst (Webhook.action c (Webhook.delivery ev) d) = Webhook.received /\
    Store.profiles (Webhook.apply c ev d) !! uid = Some (Ledger.refilled tier lim "active" p).
Proof.
  intros Hev Hst Hm Hu Hi Ht Hf1 Hf2 Hf3 Hp.
  set (price := Store.select_price (Webhook.fail_select_price c)
                  (Webhook.item_price_id item) d).
  exists (fst (TierPolicy.resolve price)), (snd (TierPolicy.resolve price)).
  split; [by destruct (TierPolicy.resolve price)|]. split.
  { destruct (resolve_is_paid_tier price) as [-> | [-> | ->]]; cbn; auto. }
  unfold Webhook.apply, Webhook.action, Webhook.delivery. cbn. unfold Webhook.handle.
  rewrite <- Hst.
  destruct Hev as [-> | (q & -> & Hq1 & Hq2)].
  - apply (subscription_changed_refills c true s None uid item rest p d); try done.
    by apply refill_created_true.
  - apply (subscription_changed_refills c false s (Some q) uid item rest p d); try done.
    by apply refill_update_true.
Qed.

Lemma X15_activation_refills_to_the_resolved_tier_witness :
  exists tier lim,
    TierPolicy.resolve
      (Store.select_price false "price_premium" (Scenario.premium_store 120)) = (tier, lim) /\
    ((tier, lim) = ("basic", 500) \/ (tier, lim) = ("premium", 2000) \/
     (tier, lim) = ("enterprise", 10000)) /\
    fst (Webhook.action (Webhook.calm Scenario.stripe_knows)
           (Webhook.delivery Examples.trial_ended) (Scenario.premium_store 120))
      = Webhook.received /\
    Store.profiles
      (Webhook.apply (Webhook.calm Scenario.stripe_knows) Examples.trial_ended
         (Scenario.premium_store 120)) !! "u1"
      = Some (Ledger.refilled tier lim "active" (Scenario.premium_profile 120)).
Proof.
  apply (X15_activation_refills_to_the_resolved_tier
           (Webhook.calm Scenario.stripe_knows) Examples.trial_ended
           (Scenario.subscription_1 "active") "u1"
           {| Webhook.item_price_id := "price_premium"; Webhook.item_quantity := 1 |} []
           (Scenario.premium_profile 120) (Scenario.premium_store 120)).
  - right. exists "trialing". repeat split; discriminate.
  - reflexivity.
  - reflexivity.
  - reflexivity.
  - reflexivity.
  - unfold Webhook.times_representable, Webhook.representable. cbn. lia.
  - reflexivity.
  - reflexivity.
  - reflexivity.
  - reflexivity.
Defined.

Section InvoiceFacts.
Import JsString TierPolicy JsError Store Webhook Ledger.

Lemma invoice_payment_succeeded_works c i sid cid row sub item rest d :
  inv_subscription i = Some sid -> truthy sid = true ->
  inv_customer i = Some cid -> truthy cid = true ->
  subscriptions d !! sid = Some row ->
  retrieve c sid = Returned sub -> items sub = item :: rest ->
  fail_select_subscription c = false -> fail_reset_credits c = false ->
  invoice_payment_succeeded c i d =
    (received,
     with_profiles
       (alter (apply_update
                 (refill_update None
                    (snd (resolve (select_price (fail_select_price c)
                                     (item_price_id item) d)))))
          (sub_user_id row) (profiles d)) d).
Proof.
  intros Hs Hst Hc Hct Hrow Hr Hi Hf1 Hf2.
  unfold invoice_payment_succeeded, select_subscription_user, update_profile.
  rewrite Hs, Hc, (some_text_Some _ Hst), (some_text_Some _ Hct), Hf1, Hrow. cbn.
  rewrite Hr, Hi, Hf2.
  pose proof (resolve_limit_in_range
                (select_price (fail_select_price c) (item_price_id item) d)) as Hl.
  destruct (resolve _) as [tier lim]. cbn in *.
  unfold update_in_range. cbn. by rewrite Hl.
Qed.

Lemma invoice_payment_failed_works c i sid row d :
  inv_subscription i = Some sid -> truthy sid = true ->
  subscriptions d !! sid = Some row ->
  fail_select_subscription c = false -> fail_update_status c = false ->
  invoice_payment_failed c i d =
    (received,
     with_profiles (alter (apply_update (status_update "past_due")) (sub_user_id row)
                      (profiles d)) d).
Proof.
  intros Hs Hst Hrow Hf1 Hf2.
  unfold invoice_payment_failed, select_subscription_user, update_profile.
  by rewrite Hs, (some_text_Some _ Hst), Hf1, Hrow, Hf2.
Qed.

End InvoiceFacts.

(** X16: a paid invoice refills without touching the tier.  When the
    invoice names a subscription that the store knows, Stripe answers with
    the subscription, and the store works, the owner's balance and limit are
    both set to the limit resolved from the product name of the price of
    Stripe's subscription; the owner's tier and status, the subscriptions and
    the log are left as they were. *)
Theorem X16_invoice_paid_refills_balance_keeps_tier
    (c : Webhook.conditions) (ev : Webhook.stripe_event) (i : Webhook.stripe_invoice)
    (sid cid : string) (row : Store.subscription_row) (sub : Webhook.stripe_subscription)
    (item : Webhook.stripe_item) (rest : list Webhook.stripe_item)
    (p : Store.profile) (d : Store.db) :
  Webhook.data ev = Webhook.InvoicePaymentSucceeded i ->
  Webhook.inv_subscription i = Some sid -> JsString.truthy sid = true ->
  Webhook.inv_customer i = Some cid -> JsString.truthy cid = true ->
  Store.subscriptions d !! sid = Some row ->
  Webhook.retrieve c sid = JsError.Returned sub -> Webhook.items sub = item :: rest ->
  Webhook.fail_select_subscription c = false -> Webhook.fail_reset_credits c = false ->
  Store.profiles d !! Store.sub_user_id row = Some p ->
  Store.profiles (Webhook.apply c ev d) !! Store.sub_user_id row =
    Some {| Store.email := Store.email p; Store.username := Store.username p;
            Store.subscription_tier := Store.subscription_tier p;
            Store.subscription_status := Store.subscription_status p;
            Store.stripe_customer_id := Store.stripe_customer_id p;
            Store.usage_credits :=
              Some (snd (TierPolicy.resolve
                           (Store.select_price (Webhook.fail_select_price c)
                              (Webhook.item_price_id item) d)));
            Store.usage_limit :=
              snd (TierPolicy.resolve
                     (Store.select_price (Webhook.fail_select_price c)
                        (Webhook.item_price_id item) d)) |} /\
  Store.subscriptions (Webhook.apply c ev d) = Store.subscriptions d /\
  fst (Webhook.action c (Webhook.delivery ev) d) = Webhook.received.
Proof.
  intros Hev Hs Hst Hc Hct Hrow Hr Hi Hf1 Hf2 Hp.
  unfold Webhook.apply, Webhook.action, Webhook.delivery. cbn. unfold Webhook.handle.
  rewrite Hev.
  rewrite (invoice_payment_succeeded_works c i sid cid row sub item rest d) by done.
  cbn. by rewrite lookup_alter_eq, Hp.
Qed.

Lemma X16_invoice_paid_refills_balance_keeps_tier_witness :
  Store.profiles
    (Webhook.apply (Webhook.calm Scenario.stripe_knows) Scenario.invoice_paid
       (Examples.store_with_subscription 3)) !! "u1"
  = Some {| Store.email := "ada@example.com"; Store.username := Some "ada";
            Store.subscription_tier := Some "free";
            Store.subscription_status := Some "active";
            Store.stripe_customer_id := None;
            Store.usage_credits := Some 2000; Store.usage_limit := 2000 |}.
Proof.
  apply (proj1 (X16_invoice_paid_refills_balance_keeps_tier
           (Webhook.calm Scenario.stripe_knows) Scenario.invoice_paid
           {| Webhook.inv_subscription := Some "sub_1"; Webhook.inv_customer := Some "cus_1" |}
           "sub_1" "cus_1" Scenario.sub_row_1 (Scenario.subscription_1 "active")
           {| Webhook.item_price_id := "price_premium"; Webhook.item_quantity := 1 |} []
           (Scenario.free_profile 3 10) (Examples.store_with_subscription 3)
           eq_refl eq_refl eq_refl eq_refl eq_refl eq_refl eq_refl eq_refl eq_refl eq_refl
           eq_refl)).
Defined.

(** X17: a failed invoice payment only marks the account past_due.  When
    the invoice names a subscription that the store knows and the store
    works, the owner's status becomes past_due and nothing else changes:
    balance, limit, tier, subscriptions and log are as they were. *)
Theorem X17_invoice_failed_marks_past_due_only
    (c : Webhook.conditions) (ev : Webhook.stripe_event) (i : Webhook.stripe_invoice)
    (sid : string) (row : Store.subscription_row) (p : Store.profile) (d : Store.db) :
  Webhook.data ev = Webhook.InvoicePaymentFailed i ->
  Webhook.inv_subscription i = Some sid -> JsString.truthy sid = true ->
  Store.subscriptions d !! sid = Some row ->
  Webhook.fail_select_subscription c = false -> Webhook.fail_update_status c = false ->
  Store.profiles d !! Store.sub_user_id row = Some p ->
  Store.profiles (Webhook.apply c ev d) !! Store.sub_user_id row =
    Some {| Store.email := Store.email p; Store.username := Store.username p;
            Store.subscription_tier := Store.subscription_tier p;
            Store.subscription_status := Some "past_due";
            Store.stripe_customer_id := Store.stripe_customer_id p;
            Store.usage_credits := Store.usage_credits p;
            Store.usage_limit := Store.usage_limit p |} /\
  Store.subscriptions (Webhook.apply c ev d) = Store.subscriptions d /\
  Store.usage_logs (Webhook.apply c ev d) = Store.usage_logs d /\
  fst (Webhook.action c (Webhook.delivery ev) d) = Webhook.received.
Proof.
  intros Hev Hs Hst Hrow Hf1 Hf2 Hp.
  unfold Webhook.apply, Webhook.action, Webhook.delivery. cbn. unfold Webhook.handle.
  rewrite Hev, (invoice_payment_failed_works c i sid row d) by done.
  cbn. by rewrite lookup_alter_eq, Hp.
Qed.

Lemma X17_invoice_failed_marks_past_due_only_witness :
  Store.profiles
    (Webhook.apply (Webhook.calm Scenario.stripe_knows) Examples.invoice_failed
       (Scenario.premium_store 120)) !! "u1"
  = Some {| Store.email := "ada@example.com"; Store.username := Some "ada";
            Store.subscription_tier := Some "premium";
            Store.subscription_status := Some "past_due";
            Store.stripe_customer_id := Some "cus_1";
            Store.usage_credits := Some 120; Store.usage_limit := 2000 |}.
Proof.
  apply (proj1 (X17_invoice_failed_marks_past_due_only
           (Webhook.calm Scenario.stripe_knows) Examples.invoice_failed
           {| Webhook.inv_subscription := Some "sub_1"; Webhook.inv_customer := Some "cus_1" |}
           "sub_1" Scenario.sub_row_1 (Scenario.premium_profile 120)
           (Scenario.premium_store 120)
           eq_refl eq_refl eq_refl eq_refl eq_refl eq_refl eq_refl)).
Defined.

(** X18: a downgrade keeps the paid credits.  After a "subscription
    created" event with status active has refilled an account and a
    "subscription deleted" event has downgraded it (store working both times),
    the account is free and canceled with limit 100, and its balance is still
    the paid tier's limit, at least 500: the balance exceeds the limit.  The
    times of both subscription objects are ones Date can represent; with one
    that is not, the webhook throws before it writes. *)
Theorem X18_downgrade_leaves_balance_above_limit
    (known : string -> JsError.outcome Webhook.stripe_subscription)
    (ev1 ev2 : Webhook.stripe_event) (s1 s2 : Webhook.stripe_subscription)
    (uid : string) (item : Webhook.stripe_item) (rest : list Webhook.stripe_item)
    (p : Store.profile) (d : Store.db) :
  Webhook.data ev1 = Webhook.SubscriptionCreated s1 ->
  Webhook.sub_status s1 = "active" ->
  Webhook.metadata_userId s1 = Some uid -> JsString.truthy uid = true ->
  Webhook.items s1 = item :: rest ->
  Webhook.times_representable s1 ->
  Webhook.data ev2 = Webhook.SubscriptionDeleted s2 ->
  Webhook.metadata_userId s2 = Some uid ->
  Webhook.representable_or_null (Webhook.s_ended_at s2) ->
  Store.profiles d !! uid = Some p ->
  exists lim,
    500 <= lim /\
    Store.credits_of uid
      (Webhook.apply (Webhook.calm known) ev2 (Webhook.apply (Webhook.calm known) ev1 d))
      = Some (Some lim) /\
    Store.limit_of uid
      (Webhook.apply (Webhook.calm known) ev2 (Webhook.apply (Webhook.calm known) ev1 d))
      = Some 100 /\
    Ledger.tier_of uid
      (Webhook.apply (Webhook.calm known) ev2 (Webhook.apply (Webhook.calm known) ev1 d))
      = Some "free" /\
    Webhook.account_status uid
      (Webhook.apply (Webhook.calm known) ev2 (Webhook.apply (Webhook.calm known) ev1 d))
      = Some "canceled".
Proof.
  intros Hev1 Hst Hm1 Hu Hi Ht1 Hev2 Hm2 Ht2 Hp.
  set (price := Store.select_price false (Webhook.item_price_id item) d).
  destruct (subscription_changed_refills (Webhook.calm known) true s1 None uid item rest p d
              (refill_created_true s1 None Hst) Hm1 Hu Hi Ht1 eq_refl eq_refl eq_refl Hp)
    as [_ H1].
  assert (Store.profiles (Webhook.apply (Webhook.calm known) ev1 d) !! uid =
            Some (Ledger.refilled (fst (TierPolicy.resolve price))
                    (snd (TierPolicy.resolve price)) (Webhook.sub_status s1) p)) as H1'.
  { rewrite apply_handle. unfold Webhook.handle. by rewrite Hev1. }
  destruct (subscription_deleted_effect (Webhook.calm known) ev2 s2 uid _
              (Webhook.apply (Webhook.calm known) ev1 d) Hev2 Hm2 Hu Ht2 eq_refl eq_refl H1')
    as (_ & H2 & _).
  exists (snd (TierPolicy.resolve price)). split.
  { destruct (resolve_is_paid_tier price) as [-> | [-> | ->]]; cbn; lia. }
  unfold Store.credits_of, Store.limit_of, Ledger.tier_of, Webhook.account_status.
  by rewrite H2.
Qed.

Lemma X18_downgrade_leaves_balance_above_limit_witness :
  exists lim,
    500 <= lim /\
    Store.credits_of "u1"
      (Webhook.apply (Webhook.calm Scenario.stripe_knows) Scenario.deleted
         (Webhook.apply (Webhook.calm Scenario.stripe_knows) Examples.created_active
            (Scenario.store_with 3))) = Some (Some lim) /\
    Store.limit_of "u1"
      (Webhook.apply (Webhook.calm Scenario.stripe_knows) Scenario.deleted
         (Webhook.apply (Webhook.calm Scenario.stripe_knows) Examples.created_active
            (Scenario.store_with 3))) = Some 100 /\
    Ledger.tier_of "u1"
      (Webhook.apply (Webhook.calm Scenario.stripe_knows) Scenario.deleted
         (Webhook.apply (Webhook.calm Scenario.stripe_knows) Examples.created_active
            (Scenario.store_with 3))) = Some "free" /\
    Webhook.account_status "u1"
      (Webhook.apply (Webhook.calm Scenario.stripe_knows) Scenario.deleted
         (Webhook.apply (Webhook.calm Scenario.stripe_knows) Examples.created_active
            (Scenario.store_with 3))) = Some "canceled".
Proof.
  refine (X18_downgrade_leaves_balance_above_limit Scenario.stripe_knows
            Examples.created_active Scenario.deleted
            (Scenario.subscription_1 "active") (Scenario.subscription_1 "canceled") "u1"
            {| Webhook.item_price_id := "price_premium"; Webhook.item_quantity := 1 |} []
            (Scenario.free_profile 3 10) (Scenario.store_with 3)
            eq_refl eq_refl eq_refl eq_refl eq_refl _ eq_refl eq_refl I eq_refl).
  unfold Webhook.times_representable, Webhook.representable. cbn. lia.
Defined.

(* ===================================================================== *)
(** ** Further properties: sign-up *)
(* ===================================================================== *)

Section SignUpMoreFacts.
Import JsString Store.

Lemma split_part_at_spec (s : string) :
  exists rest,
    s = String.append (split_part_at s) rest /\
    JsString.includes (split_part_at s) "@" = false /\
    (rest = "" \/ exists r, rest = String "@" r).
Proof.
  induction s as [|c s (rest & Hs & Hn & Hr)].
  - exists "". split; [done|]. split; [done|]. by left.
  - cbn [split_part_at]. destruct (Ascii.eqb_spec c "@"%char) as [->|Hc].
    + exists (String "@" s). split; [done|]. split; [done|]. right. by exists s.
    + exists rest. split; [by rewrite Hs at 1|]. split; [|done].
      cbn [JsString.includes JsString.startsWith].
      apply Ascii.eqb_neq in Hc. rewrite Ascii.eqb_sym, Hc. cbn. exact Hn.
Qed.

End SignUpMoreFacts.

(** X19: a failed profile insert does not fail the sign-up.  Once the auth
    service has returned a user, the sign-up route answers with that user
    whether or not its profile insert succeeds; when the insert fails or the
    account's row already exists, the route leaves the store as the auth
    service left it, and otherwise it adds the row with 100 credits. *)
Theorem X19_signUp_survives_profile_insert_failure
    (auth : string -> string -> Store.db -> ApiAuth.auth_reply * Store.db)
    (fail_insert : bool) (email password : string) (d d1 : Store.db)
    (user : ApiAuth.session_user) :
  JsString.truthy email = true -> JsString.truthy password = true ->
  auth email password d = (ApiAuth.AuthData (Some user), d1) ->
  fst (ApiAuth.signUp auth fail_insert email password d) = ApiAuth.SessionJson (Some user) /\
  (fail_insert = true \/ is_Some (Store.profiles d1 !! ApiAuth.id user) ->
   snd (ApiAuth.signUp auth fail_insert email password d) = d1) /\
  (fail_insert = false -> Store.profiles d1 !! ApiAuth.id user = None ->
   Store.profiles (snd (ApiAuth.signUp auth fail_insert email password d)) !! ApiAuth.id user
     = Some (ApiAuth.signUp_profile user) /\
   forall id, id <> ApiAuth.id user ->
     Store.profiles (snd (ApiAuth.signUp auth fail_insert email password d)) !! id
       = Store.profiles d1 !! id).
Proof.
  intros He Hw Ha. unfold ApiAuth.signUp. rewrite He, Hw, Ha. cbn.
  unfold Store.insert_profile. cbn.
  destruct fail_insert; cbn.
  - repeat split; try done.
  - destruct (Store.profiles d1 !! ApiAuth.id user) as [q|] eqn:Hq; cbn.
    + repeat split; try done.
    + repeat split; try done.
      * intros [?|[? ?]]; done.
      * by rewrite lookup_insert_eq.
      * intros id Hid. by rewrite lookup_insert_ne.
Qed.

Lemma X19_signUp_survives_profile_insert_failure_witness :
  fst (ApiAuth.signUp (ApiAuth.auth_with_trigger "u2") false "bob@example.com" "secret1"
         Scenario.empty_store)
    = ApiAuth.SessionJson (Some {| ApiAuth.id := "u2";
                                   ApiAuth.user_email := Some "bob@example.com" |}).
Proof.
  apply (proj1 (X19_signUp_survives_profile_insert_failure (ApiAuth.auth_with_trigger "u2")
           false "bob@example.com" "secret1" Scenario.empty_store Scenario.trigger_created
           {| ApiAuth.id := "u2"; ApiAuth.user_email := Some "bob@example.com" |}
           eq_refl eq_refl eq_refl)).
Defined.

(** X20: the signup trigger creates one account or fails.  handle_new_user
    fails exactly when the account's row already exists; otherwise it adds
    that one row -- free, active, 10 credits of 10 -- and leaves every other
    row, the log, the subscriptions and the prices as they were.  The
    username it stores is the part of the email before the first "@": it
    contains no "@", and the email is the username followed by nothing or by
    a text that starts with "@". *)
Theorem X20_signup_trigger_creates_one_account (NEW : Store.auth_user) (d : Store.db) :
  (Store.handle_new_user NEW d = None <-> is_Some (Store.profiles d !! Store.au_id NEW)) /\
  (forall d', Store.handle_new_user NEW d = Some d' ->
     (exists rest,
        Store.au_email NEW = String.append (Store.split_part_at (Store.au_email NEW)) rest /\
        JsString.includes (Store.split_part_at (Store.au_email NEW)) "@" = false /\
        (rest = "" \/ exists r, rest = String "@" r)) /\
     Store.profiles d' !! Store.au_id NEW =
       Some {| Store.email := Store.au_email NEW;
               Store.username := Some (Store.split_part_at (Store.au_email NEW));
               Store.subscription_tier := Some "free";
               Store.subscription_status := Some "active";
               Store.stripe_customer_id := None;
               Store.usage_credits := Some 10; Store.usage_limit := 10 |} /\
     (forall id, id <> Store.au_id NEW ->
        Store.profiles d' !! id = Store.profiles d !! id) /\
     Store.usage_logs d' = Store.usage_logs d /\
     Store.subscriptions d' = Store.subscriptions d /\
     Store.prices d' = Store.prices d).
Proof.
  unfold Store.handle_new_user, Store.insert_profile. cbn.
  destruct (Store.profiles d !! Store.au_id NEW) as [q|] eqn:Hq.
  - split; [split; [by eauto|done]|]. intros d' H. discriminate.
  - split; [split; [done|by intros [? ?]]|]. intros d' [= <-]. cbn.
    split; [apply split_part_at_spec|]. split; [by rewrite lookup_insert_eq|].
    split; [|done]. intros id Hid. by rewrite lookup_insert_ne.
Qed.

(* ===================================================================== *)
(** ** Further properties: customers and subscriptions *)
(* ===================================================================== *)

Section BillingFacts.
Import JsString JsError Store Webhook.

(** Building the row of [createSubscription] succeeds exactly when its
    times are representable, and gives the row of the new subscription. *)
Lemma created_row_Some data s :
  Billing.times_representable s -> Billing.created_row data s = Some (Billing.row_of data s).
Proof.
  intros (H1 & H2 & H3 & H4). unfold Billing.created_row.
  by rewrite (iso_Some _ H1), (iso_Some _ H2), (iso_or_null_Some _ H3),
    (iso_or_null_Some _ H4).
Qed.

Lemma created_row_None data s :
  ~ Billing.times_representable s -> Billing.created_row data s = None.
Proof.
  intros Ht. unfold Billing.created_row.
  destruct (iso_cases (s_current_period_start s)) as [-> | H1]; [done|].
  destruct (iso_cases (s_current_period_end s)) as [E | H2].
  { rewrite E. by destruct (iso (s_current_period_start s)). }
  destruct (iso_or_null_cases (s_trial_start s)) as [E | H3].
  { rewrite E. by destruct (iso (s_current_period_start s)), (iso (s_current_period_end s)). }
  destruct (iso_or_null_cases (s_trial_end s)) as [E | H4].
  { rewrite E.
    by destruct (iso (s_current_period_start s)), (iso (s_current_period_end s)),
      (iso_or_null (s_trial_start s)). }
  by destruct Ht.
Qed.

End BillingFacts.

(** X21: createCustomer is idempotent once the id is stored.  On an
    account whose row has no customer id, with Stripe and the store working,
    it stores the id Stripe returns and answers with it; from then on every
    call whose read of the row succeeds answers with that same id and changes
    nothing, whatever Stripe would answer. *)
Theorem X21_createCustomer_returns_the_stored_customer
    (c1 c2 : Billing.conditions) (data : Billing.customer_request) (d : Store.db)
    (p : Store.profile) (cid : string) :
  JsString.truthy (Billing.cr_userId data) = true ->
  JsString.truthy (Billing.cr_email data) = true ->
  Store.profiles d !! Billing.cr_userId data = Some p ->
  Webhook.some_text (Store.stripe_customer_id p) = None ->
  Billing.customers_create c1 = JsError.Returned cid -> JsString.truthy cid = true ->
  Billing.fail_update_customer c1 = false ->
  Billing.fail_select_customer c2 = false ->
  fst (Billing.createCustomer c1 data d) = Billing.json (Billing.CustomerJson cid) 200 /\
  Store.profiles (snd (Billing.createCustomer c1 data d)) !! Billing.cr_userId data
    = Some (Billing.with_customer cid p) /\
  Billing.createCustomer c2 data (snd (Billing.createCustomer c1 data d))
    = (Billing.json (Billing.CustomerJson cid) 200, snd (Billing.createCustomer c1 data d)).
Proof.
  intros Hu He Hp Hnone Hc Hcid Hf1 Hf2.
  assert (Billing.createCustomer c1 data d =
            (Billing.json (Billing.CustomerJson cid) 200,
             Store.with_profiles
               (alter (Billing.with_customer cid) (Billing.cr_userId data) (Store.profiles d))
               d)) as ->.
  { unfold Billing.createCustomer, Billing.stored_customer, Store.select_profile,
      Billing.update_customer.
    rewrite Hu, He, Hc, Hf1. cbn [negb orb].
    destruct (Billing.fail_select_customer c1); [done|]. by rewrite Hp, Hnone. }
  cbn [fst snd]. split; [done|]. split.
  { cbn. by rewrite lookup_alter_eq, Hp. }
  unfold Billing.createCustomer, Billing.stored_customer, Store.select_profile.
  rewrite Hu, He, Hf2. cbn [negb orb Store.profiles Store.with_profiles].
  rewrite lookup_alter_eq, Hp. cbn. unfold Webhook.some_text. by rewrite Hcid.
Qed.

Lemma X21_createCustomer_returns_the_stored_customer_witness :
  Billing.createCustomer Examples.billing_works Examples.customer_of_u1
    (snd (Billing.createCustomer Examples.billing_works Examples.customer_of_u1
            (Scenario.store_with 10)))
  = (Billing.json (Billing.CustomerJson "cus_new") 200,
     snd (Billing.createCustomer Examples.billing_works Examples.customer_of_u1
            (Scenario.store_with 10))).
Proof.
  apply (proj2 (proj2 (X21_createCustomer_returns_the_stored_customer
           Examples.billing_works Examples.billing_works Examples.customer_of_u1
           (Scenario.store_with 10) (Scenario.free_profile 10 10) "cus_new"
           eq_refl eq_refl eq_refl eq_refl eq_refl eq_refl eq_refl eq_refl))).
Defined.

(** X22: createCustomer takes an unreadable or missing row for "no
    customer yet".  When the read of the account's row fails, or the account
    has no row, the route creates a new Stripe customer and answers with its
    id even if a customer id was stored before; for an account without a row
    the new id is stored nowhere, so the store is unchanged. *)
Theorem X22_createCustomer_without_a_readable_row_creates_again
    (c : Billing.conditions) (data : Billing.customer_request) (d : Store.db)
    (cid : string) :
  JsString.truthy (Billing.cr_userId data) = true ->
  JsString.truthy (Billing.cr_email data) = true ->
  Billing.customers_create c = JsError.Returned cid ->
  Billing.fail_update_customer c = false ->
  Billing.fail_select_customer c = true \/
  Store.profiles d !! Billing.cr_userId data = None ->
  fst (Billing.createCustomer c data d) = Billing.json (Billing.CustomerJson cid) 200 /\
  (forall p, Store.profiles d !! Billing.cr_userId data = Some p ->
     Store.profiles (snd (Billing.createCustomer c data d)) !! Billing.cr_userId data
       = Some (Billing.with_customer cid p)) /\
  (Store.profiles d !! Billing.cr_userId data = None ->
   snd (Billing.createCustomer c data d) = d).
Proof.
  intros Hu He Hc Hf H.
  assert (Billing.createCustomer c data d =
            (Billing.json (Billing.CustomerJson cid) 200,
             Store.with_profiles
               (alter (Billing.with_customer cid) (Billing.cr_userId data) (Store.profiles d))
               d)) as ->.
  { unfold Billing.createCustomer, Billing.stored_customer, Store.select_profile,
      Billing.update_customer.
    rewrite Hu, He, Hc, Hf. cbn [negb orb].
    destruct H as [-> | ->]; [done|]. by destruct (Billing.fail_select_customer c). }
  cbn [fst snd]. split; [done|]. split.
  - intros p Hp. cbn. by rewrite lookup_alter_eq, Hp.
  - intros Hp. destruct d as [ps ls ss pr]. cbn in *.
    unfold Store.with_profiles. cbn. f_equal. by apply alter_id'.
Qed.

Lemma X22_createCustomer_without_a_readable_row_creates_again_witness :
  fst (Billing.createCustomer Examples.billing_works Examples.customer_of_u1
         Scenario.empty_store) = Billing.json (Billing.CustomerJson "cus_new") 200 /\
  snd (Billing.createCustomer Examples.billing_works Examples.customer_of_u1
         Scenario.empty_store) = Scenario.empty_store.
Proof.
  refine (let H := X22_createCustomer_without_a_readable_row_creates_again
                     Examples.billing_works Examples.customer_of_u1 Scenario.empty_store
                     "cus_new" eq_refl eq_refl eq_refl eq_refl (or_intror eq_refl) in
          conj (proj1 H) (proj2 (proj2 H) eq_refl)).
Defined.

(** X23: createSubscription raises the limit at once and grants no
    credits.  With Stripe and the store working, for a subscription id the
    store does not hold yet and a new subscription whose times Date can
    represent, the route stores the subscription row and sets the account's
    status to the new subscription's status -- whatever it is, incomplete
    included -- and its tier and limit to those resolved from the price's
    product name; the balance is left as it was.  With a time Date cannot
    represent the route answers 500 "Invalid time value" and stores
    nothing. *)
Theorem X23_createSubscription_sets_tier_and_limit_not_credits
    (c : Billing.conditions) (data : Billing.subscription_request) (d : Store.db)
    (sub : Webhook.stripe_subscription) (p : Store.profile) :
  JsString.truthy (Billing.sr_customerId data) = true ->
  JsString.truthy (Billing.sr_priceId data) = true ->
  JsString.truthy (Billing.sr_userId data) = true ->
  Billing.subscriptions_create c = JsError.Returned sub ->
  Store.subscriptions d !! Webhook.sub_id sub = None ->
  Billing.fail_insert_subscription c = false -> Billing.fail_update_profile c = false ->
  Store.profiles d !! Billing.sr_userId data = Some p ->
  (Billing.times_representable sub ->
   fst (Billing.createSubscription c data d) = Billing.json (Billing.SubscriptionJson sub) 200 /\
   Store.profiles (snd (Billing.createSubscription c data d)) !! Billing.sr_userId data =
     Some {| Store.email := Store.email p; Store.username := Store.username p;
             Store.subscription_tier :=
               Some (fst (TierPolicy.resolve
                            (Store.select_price (Billing.fail_select_price c)
                               (Billing.sr_priceId data) d)));
             Store.subscription_status := Some (Webhook.sub_status sub);
             Store.stripe_customer_id := Store.stripe_customer_id p;
             Store.usage_credits := Store.usage_credits p;
             Store.usage_limit :=
               snd (TierPolicy.resolve
                      (Store.select_price (Billing.fail_select_price c)
                         (Billing.sr_priceId data) d)) |} /\
   Store.subscriptions (snd (Billing.createSubscription c data d)) !! Webhook.sub_id sub
     = Some (Billing.row_of data sub) /\
   Store.usage_logs (snd (Billing.createSubscription c data d)) = Store.usage_logs d) /\
  (~ Billing.times_representable sub ->
   Billing.createSubscription c data d =
     (Billing.json (Billing.Error "Invalid time value") 500, d)).
Proof.
  intros H1 H2 H3 Hc Hnew Hf1 Hf2 Hp. split.
  - intros Ht.
    unfold Billing.createSubscription, Billing.insert_subscription, Store.update_profile.
    rewrite H1, H2, H3, Hc, (created_row_Some data sub Ht), Hf1, Hnew, Hf2. cbn [negb orb].
    rewrite resolve_routes_agree.
    replace (Store.select_price (Billing.fail_select_price c) (Billing.sr_priceId data)
               (Store.with_subscriptions
                  (<[Webhook.sub_id sub:=Billing.row_of data sub]> (Store.subscriptions d))
                  d))
      with (Store.select_price (Billing.fail_select_price c) (Billing.sr_priceId data) d)
      by done.
    pose proof (resolve_limit_in_range
                  (Store.select_price (Billing.fail_select_price c)
                     (Billing.sr_priceId data) d)) as Hl.
    destruct (TierPolicy.resolve _) as [tier lim]. cbn in Hl.
    unfold Store.update_in_range. cbn. rewrite Hl. cbn.
    rewrite lookup_alter_eq, Hp, lookup_insert_eq. done.
  - intros Ht. unfold Billing.createSubscription.
    rewrite H1, H2, H3, Hc, (created_row_None data sub Ht). done.
Qed.

Lemma X23_createSubscription_sets_tier_and_limit_not_credits_witness :
  Store.profiles
    (snd (Billing.createSubscription Examples.billing_works Examples.subscribe_u1
            (Scenario.store_with 3))) !! "u1"
  = Some {| Store.email := "ada@example.com"; Store.username := Some "ada";
            Store.subscription_tier := Some "premium";
            Store.subscription_status := Some "incomplete";
            Store.stripe_customer_id := None;
            Store.usage_credits := Some 3; Store.usage_limit := 2000 |}.
Proof.
  refine (proj1 (proj2 (proj1 (X23_createSubscription_sets_tier_and_limit_not_credits
            Examples.billing_works Examples.subscribe_u1 (Scenario.store_with 3)
            (Scenario.subscription_1 "incomplete") (Scenario.free_profile 3 10)
            eq_refl eq_refl eq_refl eq_refl eq_refl eq_refl eq_refl eq_refl) _))).
  unfold Billing.times_representable, Webhook.representable. cbn. lia.
Defined.

(** X24: cancelSubscription flags the row only for its owner and ends
    nothing.  Once Stripe has accepted the cancellation and the store update
    does not fail, the route answers with Stripe's subscription; in the store
    the row with that id is flagged (cancel_at_period_end, canceled_at = now)
    only if it belongs to the given user, and is otherwise untouched; its
    status, every other row, every account and the log stay as they were. *)
Theorem X24_cancelSubscription_flags_only_the_owners_row
    (c : Billing.conditions) (data : Billing.cancel_request) (d : Store.db)
    (sub : Webhook.stripe_subscription) :
  JsString.truthy (Billing.cn_subscriptionId data) = true ->
  JsString.truthy (Billing.cn_userId data) = true ->
  Billing.subscriptions_update c = JsError.Returned sub ->
  Billing.fail_update_subscription c = false ->
  fst (Billing.cancelSubscription c data d) = Billing.json (Billing.SubscriptionJson sub) 200 /\
  Store.profiles (snd (Billing.cancelSubscription c data d)) = Store.profiles d /\
  Store.usage_logs (snd (Billing.cancelSubscription c data d)) = Store.usage_logs d /\
  (forall sid, Webhook.stored_status sid (snd (Billing.cancelSubscription c data d))
               = Webhook.stored_status sid d) /\
  (forall sid, sid <> Billing.cn_subscriptionId data ->
     Store.subscriptions (snd (Billing.cancelSubscription c data d)) !! sid
       = Store.subscriptions d !! sid) /\
  (forall row, Store.subscriptions d !! Billing.cn_subscriptionId data = Some row ->
     Store.subscriptions (snd (Billing.cancelSubscription c data d))
       !! Billing.cn_subscriptionId data
     = Some (if String.eqb (Store.sub_user_id row) (Billing.cn_userId data)
             then Billing.flag_canceled (Billing.now c) row else row)).
Proof.
  intros H1 H2 Hc Hf.
  unfold Billing.cancelSubscription, Billing.flag_subscription.
  rewrite H1, H2, Hc, Hf. cbn.
  split; [done|]. split; [done|]. split; [done|]. split; [|split].
  - intros sid. unfold Webhook.stored_status. cbn. rewrite lookup_alter.
    case_decide; [subst sid|done].
    destruct (Store.subscriptions d !! Billing.cn_subscriptionId data) as [row|]; [|done].
    cbn. by destruct (String.eqb _ _).
  - intros sid Hne. by rewrite lookup_alter_ne.
  - intros row Hrow. by rewrite lookup_alter_eq, Hrow.
Qed.

Lemma X24_cancelSubscription_flags_only_the_owners_row_witness :
  Store.subscriptions
    (snd (Billing.cancelSubscription Examples.billing_works
            {| Billing.cn_subscriptionId := "sub_1"; Billing.cn_userId := "u9" |}
            (Scenario.premium_store 120))) !! "sub_1" = Some Scenario.sub_row_1 /\
  fst (Billing.cancelSubscription Examples.billing_works
         {| Billing.cn_subscriptionId := "sub_1"; Billing.cn_userId := "u9" |}
         (Scenario.premium_store 120))
    = Billing.json (Billing.SubscriptionJson (Scenario.subscription_1 "active")) 200.
Proof.
  refine (let H := X24_cancelSubscription_flags_only_the_owners_row Examples.billing_works
                     {| Billing.cn_subscriptionId := "sub_1"; Billing.cn_userId := "u9" |}
                     (Scenario.premium_store 120) (Scenario.subscription_1 "active")
                     eq_refl eq_refl eq_refl eq_refl in
          conj (proj2 (proj2 (proj2 (proj2 (proj2 H)))) Scenario.sub_row_1 eq_refl)
               (proj1 H)).
Defined.


(* ===================================================================== *)
(** ** Further properties: every request, one after the other *)
(* ===================================================================== *)

Section SoundFacts.
Import JsString JsNumber JsError TierPolicy Store Ledger.

Lemma sound_same_profiles d d' :
  profiles d' = profiles d -> ledger_sound d -> ledger_sound d'.
Proof. intros H Hd id p. rewrite H. apply Hd. Qed.

Lemma update_profile_sound fail uid u d d' :
  update_profile fail uid u d = Some d' ->
  (forall c, set_usage_credits u = Some (Some c) -> 0 <= c) ->
  ledger_sound d -> ledger_sound d'.
Proof.
  unfold update_profile. destruct fail; [done|].
  unfold update_in_range.
  destruct (_ && _) eqn:Hr; [|done]. cbn. intros [= <-] Hc Hd id q.
  apply andb_true_iff in Hr as [Hr1 Hr2].
  cbn. rewrite lookup_alter. case_decide; [subst id|apply Hd].
  destruct (profiles d !! uid) as [p|] eqn:Hp; [|done]. intros [= <-].
  destruct (Hd uid p Hp) as (A & B). cbn. split.
  - destruct (set_usage_credits u) as [[c|]|]; [|done..]. split; [by apply Hc|done].
  - by destruct (set_usage_limit u) as [l|].
Qed.

Lemma charged_sound data v c p d :
  profiles d !! ApiStripe.userId data = Some p ->
  balance_sound c -> ledger_sound d -> ledger_sound (ApiStripe.charged data v c p d).
Proof.
  intros Hp Hc Hd id q. rewrite charged_lookup. case_decide; [|apply Hd].
  intros [= <-]. destruct (Hd _ _ Hp) as (A & B). by cbn.
Qed.

Lemma recordUsage_sound f data d :
  ledger_sound d -> ledger_sound (snd (ApiStripe.recordUsage f data d)).
Proof.
  intros Hd.
  destruct (recordUsage_run f data d)
    as [[-> _] | (cu & v & p & Hcu & Hv & Hp & Hlt & Htrig & _)]; [done|].
  destruct (recordUsage_cases f data d)
    as [[-> _]|[(cu' & z & p' & H1 & H2 & H3 & H4 & H5 & H6 & Hr)
               |[(cu' & p' & H1 & H2 & H3 & Hr)
                |(cu' & v' & p' & H1 & H2 & H3 & Hr & H4 & _)]]]; [done|..].
  - rewrite Hr. cbn [snd]. apply charged_sound; [done| |done]. cbn. split; [lia|done].
  - rewrite Hr. cbn [snd]. by apply charged_sound.
  - assert (cu' = cu) as -> by congruence. assert (v' = v) as -> by congruence.
    assert (p' = p) as -> by congruence.
    rewrite Hr. cbn [snd]. apply charged_sound; [done| |done].
    destruct (usage_credits p) as [b|] eqn:Hb; [|done].
    destruct v as [z|]; [|done]. cbn in *. destruct (H4 z eq_refl) as [_ Hle].
    split; [lia|done].
Qed.

Lemma resolve_limit_nonneg (price : option price_row) : 0 <= snd (resolve price).
Proof. destruct (resolve_is_paid_tier price) as [-> | [-> | ->]]; cbn; lia. Qed.

Lemma subscription_changed_sound c b s prev d :
  ledger_sound d -> ledger_sound (snd (Webhook.subscription_changed c b s prev d)).
Proof.
  intros Hd. unfold Webhook.subscription_changed.
  destruct (Webhook.some_text _) as [uid|]; [|done].
  destruct (Webhook.upsert_row uid s) as [[item row]|e]; [|done].
  destruct (upsert_subscription _ _ _ d) as [d1|] eqn:H1; [|done].
  assert (ledger_sound d1) as Hd1.
  { revert H1. unfold upsert_subscription. destruct (Webhook.fail_upsert_subscription c);
      [done|]. intros [= <-]. by eapply sound_same_profiles. }
  destruct (update_profile _ uid (Webhook.status_update _) d1) as [d2|] eqn:H2; [|done].
  assert (ledger_sound d2) as Hd2 by (by eapply update_profile_sound).
  destruct (Webhook.refill b s prev); [|done].
  pose proof (resolve_limit_nonneg
                (select_price (Webhook.fail_select_price c) (Webhook.item_price_id item) d2))
    as Hn.
  destruct (resolve _) as [tier lim]. cbn in Hn.
  destruct (update_profile _ uid _ d2) as [d3|] eqn:H3; [|done].
  cbn. eapply update_profile_sound; [exact H3| |done]. cbn. by intros ? [= <-].
Qed.

Lemma subscription_deleted_sound c s d :
  ledger_sound d -> ledger_sound (snd (Webhook.subscription_deleted c s d)).
Proof.
  intros Hd. unfold Webhook.subscription_deleted.
  destruct (Webhook.some_text _) as [uid|]; [|done].
  destruct (Webhook.iso _) as [ended|]; [|done].
  destruct (end_subscription _ _ _ _ d) as [d1|] eqn:H1; [|done].
  assert (ledger_sound d1) as Hd1.
  { revert H1. unfold end_subscription. destruct (Webhook.fail_end_subscription c);
      [done|]. intros [= <-]. by eapply sound_same_profiles. }
  destruct (update_profile _ uid _ d1) as [d2|] eqn:H2; [|done].
  cbn. by eapply update_profile_sound.
Qed.

Lemma invoice_payment_succeeded_sound c i d :
  ledger_sound d -> ledger_sound (snd (Webhook.invoice_payment_succeeded c i d)).
Proof.
  intros Hd. unfold Webhook.invoice_payment_succeeded.
  destruct (Webhook.some_text (Webhook.inv_subscription i)) as [sid|]; [|done].
  destruct (Webhook.some_text (Webhook.inv_customer i)) as [cid|]; [|done].
  destruct (select_subscription_user _ _ _) as [uid|]; [|done].
  destruct (Webhook.retrieve c sid) as [sub|e]; [|done].
  destruct (Webhook.items sub) as [|item rest]; [done|].
  pose proof (resolve_limit_nonneg
                (select_price (Webhook.fail_select_price c) (Webhook.item_price_id item) d))
    as Hn.
  destruct (resolve _) as [tier lim]. cbn in Hn.
  destruct (update_profile _ uid _ d) as [d1|] eqn:H1; [|done].
  cbn. eapply update_profile_sound; [exact H1| |done]. cbn. by intros ? [= <-].
Qed.

Lemma invoice_payment_failed_sound c i d :
  ledger_sound d -> ledger_sound (snd (Webhook.invoice_payment_failed c i d)).
Proof.
  intros Hd. unfold Webhook.invoice_payment_failed.
  destruct (Webhook.some_text (Webhook.inv_subscription i)) as [sid|]; [|done].
  destruct (select_subscription_user _ _ _) as [uid|]; [|done].
  destruct (update_profile _ uid _ d) as [d1|] eqn:H1; [|done].
  cbn. by eapply update_profile_sound.
Qed.

Lemma webhook_sound c request d :
  ledger_sound d -> ledger_sound (snd (Webhook.action c request d)).
Proof.
  intros Hd. unfold Webhook.action. destruct (negb _); [done|].
  destruct (Webhook.some_text _); [|done]. destruct (negb _); [done|].
  destruct (Webhook.constructEvent request) as [ev|]; [|done].
  unfold Webhook.handle. destruct (Webhook.data ev).
  - by apply subscription_changed_sound.
  - by apply subscription_changed_sound.
  - by apply subscription_deleted_sound.
  - by apply invoice_payment_succeeded_sound.
  - by apply invoice_payment_failed_sound.
  - done.
Qed.

Lemma createCustomer_sound c data d :
  ledger_sound d -> ledger_sound (snd (Billing.createCustomer c data d)).
Proof.
  intros Hd. unfold Billing.createCustomer. destruct (_ || _); [done|].
  destruct (Billing.stored_customer _ _ _); [done|].
  destruct (Billing.customers_create c) as [cid|e]; [|done].
  unfold Billing.update_customer. destruct (Billing.fail_update_customer c); [done|].
  intros id q. cbn. rewrite lookup_alter. case_decide; [subst id|apply Hd].
  destruct (profiles d !! Billing.cr_userId data) as [p|] eqn:Hp; [|done].
  intros [= <-]. by apply (Hd _ _ Hp).
Qed.

Lemma createSubscription_sound c data d :
  ledger_sound d -> ledger_sound (snd (Billing.createSubscription c data d)).
Proof.
  intros Hd. unfold Billing.createSubscription. destruct (_ || _); [done|].
  destruct (Billing.subscriptions_create c) as [sub|e]; [|done].
  destruct (Billing.created_row data sub) as [row|]; [|done].
  destruct (Billing.insert_subscription _ _ _ d) as [d1|] eqn:H1; [|done].
  assert (ledger_sound d1) as Hd1.
  { revert H1. unfold Billing.insert_subscription.
    destruct (Billing.fail_insert_subscription c); [done|].
    destruct (subscriptions d !! _); [done|]. intros [= <-].
    by eapply sound_same_profiles. }
  destruct (resolve_createSubscription _) as [tier lim].
  destruct (update_profile _ _ _ d1) as [d2|] eqn:H2; [|done].
  cbn. by eapply update_profile_sound.
Qed.

Lemma cancelSubscription_sound c data d :
  ledger_sound d -> ledger_sound (snd (Billing.cancelSubscription c data d)).
Proof.
  intros Hd. unfold Billing.cancelSubscription. destruct (_ || _); [done|].
  destruct (Billing.subscriptions_update c) as [sub|e]; [|done].
  unfold Billing.flag_subscription. destruct (Billing.fail_update_subscription c); [done|].
  cbn. by eapply sound_same_profiles.
Qed.

Lemma perform_sound op d : ledger_sound d -> ledger_sound (perform op d).
Proof.
  destruct op; cbn.
  - apply recordUsage_sound.
  - apply webhook_sound.
  - apply createCustomer_sound.
  - apply createSubscription_sound.
  - apply cancelSubscription_sound.
Qed.

End SoundFacts.

(** X5: served one after the other, no sequence of requests -- spends,
    webhook deliveries, createCustomer, createSubscription, cancelSubscription,
    each under any store and Stripe conditions -- makes a balance negative or
    takes a balance or a limit out of the range of an INTEGER column, if none
    was so before.  A balance may be NULL, before or after: a spend of
    -Infinity or NaN leaves NULL, and NULL is neither negative nor out of
    range. *)
Theorem X5_sequential_requests_keep_the_ledger_sound
    (ops : list Ledger.operation) (d : Store.db) :
  Ledger.ledger_sound d -> Ledger.ledger_sound (Ledger.perform_all ops d).
Proof.
  revert d. induction ops as [|op ops IH]; intros d Hd; [done|].
  cbn. apply IH. by apply perform_sound.
Qed.

Lemma X5_sequential_requests_keep_the_ledger_sound_witness :
  Ledger.ledger_sound
    (Ledger.perform_all
       [Ledger.Spend ApiStripe.no_faults (Scenario.spend 5);
        Ledger.Deliver (Webhook.calm Scenario.stripe_knows)
          (Webhook.delivery Examples.created_active);
        Ledger.Spend ApiStripe.no_faults (Scenario.spend (-7));
        Ledger.Deliver (Webhook.calm Scenario.stripe_knows)
          (Webhook.delivery Scenario.deleted)]
       (Scenario.store_with 10)).
Proof.
  apply (X5_sequential_requests_keep_the_ledger_sound
           [Ledger.Spend ApiStripe.no_faults (Scenario.spend 5);
            Ledger.Deliver (Webhook.calm Scenario.stripe_knows)
              (Webhook.delivery Examples.created_active);
            Ledger.Spend ApiStripe.no_faults (Scenario.spend (-7));
            Ledger.Deliver (Webhook.calm Scenario.stripe_knows)
              (Webhook.delivery Scenario.deleted)]
           (Scenario.store_with 10)).
  intros id p H. unfold Scenario.store_with in H. cbn [Store.profiles] in H.
  apply lookup_singleton_Some in H as [_ <-]. vm_compute. by repeat split.
Defined.
